(** * Shader-graph materialization of the Plumber importer

    A shallow embedding of [plumber/asset/material.py]: the texture
    materializer [import_texture], the material materializer
    [import_material] with its node-graph loop, and the two resolvers
    [resolve_value] and [resolve_input_socket].

    The Python code runs against Blender's data registry [bpy.data], a
    shared mutable store.  It is modelled by explicit state passing: a
    computation takes the registry and returns a result (a value or the
    Python exception raised) together with the registry as it stands at that
    point, so that the mutations made before an exception remain visible. *)

From Stdlib Require Import ZArith List Lia Strings.Byte.
From stdpp Require Import base option list strings gmap.

Open Scope string_scope.
Open Scope Z_scope.
Open Scope list_scope.

(** ** Python exceptions and the state/exception monad *)

(** The exceptions the Python code can raise.  [ReferenceError] is what
    Blender raises when a handle to a removed datablock is used;
    [ValueError] and [TypeError] are what the host raises for a value it
    does not accept. *)
Inductive PyError : Type :=
  | IndexError
  | KeyError (key : string)
  | AttributeError (attr : string)
  | RuntimeError (what : string)
  | ReferenceError
  | ValueError
  | TypeError.

Inductive result (A : Type) : Type :=
  | Ok (a : A)
  | Raise (e : PyError).
Arguments Ok {A} a.
Arguments Raise {A} e.

Definition is_ok {A} (r : result A) : bool :=
  match r with Ok _ => true | Raise _ => false end.

(** A computation over a store of type [S]. *)
Definition M (S A : Type) : Type := S -> result A * S.

Definition ret {S A} (a : A) : M S A := fun s => (Ok a, s).

Definition raise {S A} (e : PyError) : M S A := fun s => (Raise e, s).

Definition bind {S A B} (c : M S A) (k : A -> M S B) : M S B :=
  fun s =>
    match c s with
    | (Ok a, s') => k a s'
    | (Raise e, s') => (Raise e, s')
    end.

Declare Scope py_scope.
Delimit Scope py_scope with py.
Notation "x <- c ;; k" := (bind c (fun x => k))
  (at level 100, c at next level, right associativity) : py_scope.
Notation "c ;; k" := (bind c (fun _ => k))
  (at level 100, right associativity) : py_scope.
Open Scope py_scope.

(** [for x in xs: body(x)] *)
Fixpoint for_each {S X} (xs : list X) (body : X -> M S unit) : M S unit :=
  match xs with
  | [] => ret tt
  | x :: rest => body x ;; for_each rest body
  end.

(** [d[key]] on a Python dict: a miss raises [KeyError]. *)
Definition dict_getitem {S V} (d : gmap string V) (key : string) : M S V :=
  match d !! key with
  | Some v => ret v
  | None => raise (KeyError key)
  end.

(** [l[i]] on a Python list: a negative index counts from the end, and an index
    outside [-len(l), len(l))] raises [IndexError]. *)
Definition py_index {X} (l : list X) (i : Z) : option X :=
  let n := Z.of_nat (length l) in
  if (0 <=? i) && (i <? n) then l !! Z.to_nat i
  else if (- n <=? i) && (i <? 0) then l !! Z.to_nat (n + i)
  else None.

Definition list_getitem {S X} (l : list X) (i : Z) : M S X :=
  match py_index l i with
  | Some x => ret x
  | None => raise IndexError
  end.

(** ** Descriptors handed over by the native side

    [Texture], [Material] and [TextureRef] are classes of the compiled
    [plumber] module; the Python code only calls their accessors.  Each is
    modelled as the record of what its accessors return. *)

(** Modelled from the spec: the values of the native module, which is not
    among the sources.  A property or socket value is a number, a vector or
    colour, a string or enum name, or a [TextureRef] carrying a logical
    path ([value.path()]).  Numbers are carried through unchanged, so
    integers stand for them. *)
Inductive Value : Type :=
  | Num (x : Z)
  | Vec (xs : list Z)
  | Str (s : string)
  | TextureRef (path : string).

Module Texture.
(** Modelled from the spec: the [Texture] class of the native module, as the
    record of what its accessors [name()], [format_ext()], [width()],
    [height()] and [bytes()] return. *)
Record t : Type := mk {
  name : string;
  format_ext : string;
  width : Z;
  height : Z;
  bytes : list byte
}.
End Texture.

Module SocketLink.
(** Modelled from the spec: a socket link of the native module, with its
    accessors [node_index()] and [socket()].  The index is a Python integer
    when it reaches the list lookup of line 72. *)
Record t : Type := mk {
  node_index : Z;
  socket : string
}.
End SocketLink.

Module Node.
(** Modelled from the spec: a node descriptor of the native module, with its
    accessors.  The Python dicts it returns are iterated with [.items()], in
    insertion order: a dict is the list of its items. *)
Record t : Type := mk {
  blender_id : string;
  position : Z * Z;
  properties : list (string * Value);
  socket_values : list (string * Value);
  socket_links : list (string * SocketLink.t)
}.
End Node.

Module BuiltData.
(** Modelled from the spec: what [material.data()] returns. *)
Record t : Type := mk {
  properties : list (string * Value);
  nodes : list Node.t;
  texture_color_spaces : list (string * string)
}.
End BuiltData.

Module Material.
(** Modelled from the spec: the [Material] class of the native module, with
    its accessors [name()], [texture_ext()] and [data()]. *)
Record t : Type := mk {
  name : string;
  texture_ext : string;
  data : BuiltData.t
}.
End Material.

(** ** The host registry [bpy.data]

    Handles are modelled the way the code obtains them: an image or a material
    is known by the name it is registered under, a node by its position in its
    tree's node collection, a socket by its node, direction and name.  A
    mutation through a handle is therefore visible through every other copy of
    the handle, as with Python object references. *)

(** What the code hands to the host: a value of a descriptor, an image
    handle or [None] (the three results of [resolve_value]), or a Python
    boolean (line 45). *)
Inductive PyObj : Type :=
  | Plain (v : Value)
  | ImageRef (name : string)
  | PyNone
  | PyBool (b : bool).

Module Image.
Record t : Type := mk {
  width : Z;
  height : Z;
  alpha : bool;
  file_format : string;
  source : string;
  packed_file : option (list byte);
  alpha_mode : string;
  colorspace : string
}.

(** [bpy.data.images.new(name, width, height, alpha=...)]: a generated image
    with the host's defaults for everything else. *)
Definition new (w h : Z) (a : bool) : t :=
  mk w h a "PNG" "GENERATED" None "STRAIGHT" "sRGB".

Definition set_file_format (v : string) (i : t) : t :=
  mk (width i) (height i) (alpha i) v (source i) (packed_file i)
     (alpha_mode i) (colorspace i).

(** [image.source = v]: the pixels the image had are dropped, and from then
    on its size and file format are what the host reads from the data behind
    it, here its packed bytes if it has any; [loaded] is that reading. *)
Definition set_source (v : string)
    (loaded : option (list byte) -> Z * Z * string) (i : t) : t :=
  let '(w, h, f) := loaded (packed_file i) in
  mk w h (alpha i) f v (packed_file i) (alpha_mode i) (colorspace i).

(** [image.pack(data=...)]: the bytes become the packed file, and the size
    and file format are what the host reads from them. *)
Definition pack (data : list byte)
    (loaded : option (list byte) -> Z * Z * string) (i : t) : t :=
  let '(w, h, f) := loaded (Some data) in
  mk w h (alpha i) f (source i) (Some data) (alpha_mode i) (colorspace i).

Definition set_alpha_mode (v : string) (i : t) : t :=
  mk (width i) (height i) (alpha i) (file_format i) (source i) (packed_file i)
     v (colorspace i).

Definition set_colorspace (v : string) (i : t) : t :=
  mk (width i) (height i) (alpha i) (file_format i) (source i) (packed_file i)
     (alpha_mode i) v.
End Image.

(** A node: its type, the attributes that have been assigned (an attribute
    that is absent has the host's default) and the default values that have
    been assigned to its input sockets.  The location is one of the
    attributes, so that [node.location = v] and
    [setattr(node, "location", v)] write the same place. *)
Module ShaderNode.
Record t : Type := mk {
  bl_idname : string;
  attrs : gmap string PyObj;
  default_values : gmap string PyObj
}.

Definition new (type : string) : t := mk type ∅ ∅.

Definition set_attrs (v : gmap string PyObj) (n : t) : t :=
  mk (bl_idname n) v (default_values n).

Definition set_default_values (v : gmap string PyObj) (n : t) : t :=
  mk (bl_idname n) (attrs n) v.

(** The host keeps each coordinate of a location within 100000 of the
    origin. *)
Definition clamp (x : Z) : Z := Z.max (-100000) (Z.min 100000 x).

(** [node.location = v] for a pair of numbers [v] *)
Definition set_location (v : Z * Z) (n : t) : t :=
  set_attrs (<["location" := Plain (Vec [clamp v.1; clamp v.2])]> (attrs n)) n.
End ShaderNode.

(** A socket handle, as returned by [node.inputs[name]] and
    [node.outputs[name]]. *)
Record Socket : Type := mkSocket {
  socket_node : nat;
  socket_is_output : bool;
  socket_name : string
}.

Module NodeLink.
Record t : Type := mk {
  from_node : nat;
  from_socket : string;
  to_node : nat;
  to_socket : string
}.
End NodeLink.

Module NodeTree.
Record t : Type := mk {
  nodes : list ShaderNode.t;
  links : list NodeLink.t
}.

Definition empty : t := mk [] [].
End NodeTree.

(** [bpy.types.Material]: its custom properties ([material["path_id"]]), the
    attributes that have been assigned (an attribute that is absent has the
    host's default), and its node tree.  [use_nodes] is one of the
    attributes, so that [material_data.use_nodes = True] and
    [setattr(material_data, "use_nodes", v)] write the same place. *)
Module MaterialData.
Record t : Type := mk {
  custom : gmap string string;
  attrs : gmap string PyObj;
  node_tree : NodeTree.t
}.

Definition new : t := mk ∅ ∅ NodeTree.empty.

Definition set_custom (v : gmap string string) (m : t) : t :=
  mk v (attrs m) (node_tree m).

Definition set_attrs (v : gmap string PyObj) (m : t) : t :=
  mk (custom m) v (node_tree m).

Definition set_node_tree (v : NodeTree.t) (m : t) : t :=
  mk (custom m) (attrs m) v.

(** [material_data.use_nodes = v] *)
Definition set_use_nodes (v : bool) (m : t) : t :=
  set_attrs (<["use_nodes" := PyBool v]> (attrs m)) m.
End MaterialData.

(** The calls of [images.new] and of [pack], recorded in call order, whether
    the host accepts them or not, so that they can be counted. *)
Inductive HostCall : Type :=
  | ImagesNew (name : string)
  | ImagePack (name : string) (data_len : nat).

Record BlendData : Type := mkBlendData {
  images : gmap string Image.t;
  materials : gmap string MaterialData.t;
  calls : list HostCall
}.

Definition set_images (v : gmap string Image.t) (s : BlendData) : BlendData :=
  mkBlendData v (materials s) (calls s).

Definition set_materials (v : gmap string MaterialData.t) (s : BlendData)
  : BlendData :=
  mkBlendData (images s) v (calls s).

Definition log_call (c : HostCall) (s : BlendData) : BlendData :=
  mkBlendData (images s) (materials s) (calls s ++ [c]).

(** What the host accepts and what it stores.  It is the host's schema and
    behaviour, outside the repository, and is a parameter of the development:
    - which node types exist, and which attributes and sockets a node type
      or a material has;
    - for an attribute of a node type or of a material, and for the default
      value of an input socket of a node type, what assigning a value does:
      the host raises, or it stores a value it derives from the one given
      (an enum name it maps to another, a number it converts or clamps);
    - whether [images.new] accepts a width and a height, and the exception it
      raises if not;
    - the size and the file format the host reports for an image that is not
      generated, read from its packed bytes ([None]: it has none). *)
Record Host : Type := mkHost {
  node_type_known : string -> bool;
  node_has_attr : string -> string -> bool;
  node_has_input : string -> string -> bool;
  node_has_output : string -> string -> bool;
  material_has_attr : string -> bool;
  node_attr_value : string -> string -> PyObj -> result PyObj;
  socket_default_value : string -> string -> PyObj -> result PyObj;
  material_attr_value : string -> PyObj -> result PyObj;
  images_new_error : Z -> Z -> option PyError;
  image_loaded : option (list byte) -> Z * Z * string
}.

(** *** Running a computation on the object behind a handle *)

(** A computation on the image registered as [name]. *)
Definition on_image {A} (name : string) (c : M Image.t A) : M BlendData A :=
  fun s =>
    match images s !! name with
    | None => (Raise ReferenceError, s)
    | Some i => let '(r, i') := c i in (r, set_images (<[name := i']> (images s)) s)
    end.

(** A computation on the material registered as [name]. *)
Definition on_material {A} (name : string) (c : M MaterialData.t A)
  : M BlendData A :=
  fun s =>
    match materials s !! name with
    | None => (Raise ReferenceError, s)
    | Some m =>
        let '(r, m') := c m in (r, set_materials (<[name := m']> (materials s)) s)
    end.

(** [material_data.node_tree]: a computation on a material's node tree. *)
Definition in_node_tree {A} (c : M NodeTree.t A) : M MaterialData.t A :=
  fun m =>
    let '(r, t') := c (MaterialData.node_tree m) in
    (r, MaterialData.set_node_tree t' m).

(** The node tree [nt] of the material registered as [nt]. *)
Definition on_tree {A} (nt : string) (c : M NodeTree.t A) : M BlendData A :=
  on_material nt (in_node_tree c).

(** A computation on the node at position [n] of a tree. *)
Definition on_node {A} (n : nat) (c : M ShaderNode.t A) : M NodeTree.t A :=
  fun t =>
    match NodeTree.nodes t !! n with
    | None => (Raise ReferenceError, t)
    | Some node =>
        let '(r, node') := c node in
        (r, NodeTree.mk (<[n := node']> (NodeTree.nodes t)) (NodeTree.links t))
    end.

(** An assignment or an update that cannot fail. *)
Definition modify {S} (f : S -> S) : M S unit := fun s => (Ok tt, f s).

(** *** Host operations *)

(** [bpy.data.images.get(name)]: the handle, or [None]. *)
Definition images_get (name : string) : M BlendData (option string) :=
  fun s =>
    match images s !! name with
    | Some _ => (Ok (Some name), s)
    | None => (Ok None, s)
    end.

(** [bpy.data.images[name]]: the handle, or [KeyError]. *)
Definition images_getitem (name : string) : M BlendData string :=
  fun s =>
    match images s !! name with
    | Some _ => (Ok name, s)
    | None => (Raise (KeyError name), s)
    end.

(** [bpy.data.materials.get(name)] *)
Definition materials_get (name : string) : M BlendData (option string) :=
  fun s =>
    match materials s !! name with
    | Some _ => (Ok (Some name), s)
    | None => (Ok None, s)
    end.

(** [bpy.data.materials.new(name)], called only for a name that is free. *)
Definition materials_new (name : string) : M BlendData string :=
  fun s =>
    (Ok name, set_materials (<[name := MaterialData.new]> (materials s)) s).

(** [material["key"] = value] *)
Definition material_setitem (key value : string) : M MaterialData.t unit :=
  modify (fun m => MaterialData.set_custom (<[key := value]> (MaterialData.custom m)) m).

(** [nt.nodes.clear()]: every node goes, and with the nodes their links. *)
Definition nodes_clear : M NodeTree.t unit :=
  modify (fun _ => NodeTree.empty).

(** Two links end in the same input socket. *)
Definition same_input (a b : NodeLink.t) : bool :=
  bool_decide (NodeLink.to_node a = NodeLink.to_node b)
  && bool_decide (NodeLink.to_socket a = NodeLink.to_socket b).

(** An input socket of a shader node takes one link: a new link replaces
    the link that ends in the same input, if there is one, and comes last in
    the collection. *)
Definition link_insert (l : NodeLink.t) (links : list NodeLink.t)
  : list NodeLink.t :=
  List.filter (fun l' => negb (same_input l' l)) links ++ [l].

(** [nt.links.new(a, b)]: the host accepts the two sockets in either order and
    refuses two sockets of the same direction. *)
Definition links_new (a b : Socket) : M NodeTree.t unit :=
  let link (o i : Socket) :=
    NodeLink.mk (socket_node o) (socket_name o) (socket_node i) (socket_name i) in
  match socket_is_output a, socket_is_output b with
  | false, true =>
      modify (fun t =>
        NodeTree.mk (NodeTree.nodes t) (link_insert (link b a) (NodeTree.links t)))
  | true, false =>
      modify (fun t =>
        NodeTree.mk (NodeTree.nodes t) (link_insert (link a b) (NodeTree.links t)))
  | _, _ => raise (RuntimeError "Same input/output direction of sockets")
  end.

Section Importer.

Variable host : Host.

(** [truncate_name] of [plumber/asset/utils.py], which is not among the
    sources: any function from names to names. *)
Variable truncate_name : string -> string.

(** [bpy.data.images.new(name, width, height, alpha=a)].  The code calls it
    only for a name that is free.  The host raises for a size it does not
    accept and registers nothing; otherwise the image is registered under the
    name. *)
Definition images_new (name : string) (w h : Z) (a : bool)
  : M BlendData string :=
  fun s =>
    match images_new_error host w h with
    | Some e => (Raise e, log_call (ImagesNew name) s)
    | None =>
        (Ok name,
         log_call (ImagesNew name)
           (set_images (<[name := Image.new w h a]> (images s)) s))
    end.

(** [image.source = v] *)
Definition image_set_source (image v : string) : M BlendData unit :=
  on_image image (modify (Image.set_source v (image_loaded host))).

(** [image.pack(data=data, data_len=data_len)]: the first [data_len] bytes of
    [data] become the image's packed file. *)
Definition image_pack (image : string) (data : list byte) (data_len : nat)
  : M BlendData unit :=
  on_image image
    (modify (Image.pack (take data_len data) (image_loaded host))) ;;
  modify (log_call (ImagePack image data_len)).

(** [socket.default_value = v]; the code assigns input sockets only, so the
    defaults are kept per input-socket name.  The host raises for a value the
    socket does not take. *)
Definition socket_set_default_value (socket : Socket) (v : PyObj)
  : M NodeTree.t unit :=
  on_node (socket_node socket) (fun n =>
    match socket_default_value host (ShaderNode.bl_idname n)
            (socket_name socket) v with
    | Ok stored =>
        (Ok tt,
         ShaderNode.set_default_values
           (<[socket_name socket := stored]> (ShaderNode.default_values n)) n)
    | Raise e => (Raise e, n)
    end).

(** [nt.nodes.new(type)]: the new node is appended to the collection. *)
Definition nodes_new (type : string) : M NodeTree.t nat :=
  fun t =>
    if node_type_known host type then
      (Ok (length (NodeTree.nodes t)),
       NodeTree.mk (NodeTree.nodes t ++ [ShaderNode.new type]) (NodeTree.links t))
    else (Raise (RuntimeError type), t).

(** [setattr(node, property, v)]: [AttributeError] for an attribute the node
    does not have; otherwise the host raises for a value the attribute does
    not take, or stores what it makes of the value. *)
Definition node_setattr (property : string) (v : PyObj) : M ShaderNode.t unit :=
  fun n =>
    if node_has_attr host (ShaderNode.bl_idname n) property then
      match node_attr_value host (ShaderNode.bl_idname n) property v with
      | Ok stored =>
          (Ok tt,
           ShaderNode.set_attrs (<[property := stored]> (ShaderNode.attrs n)) n)
      | Raise e => (Raise e, n)
      end
    else (Raise (AttributeError property), n).

(** [setattr(material_data, property, v)], likewise *)
Definition material_setattr (property : string) (v : PyObj)
  : M MaterialData.t unit :=
  fun m =>
    if material_has_attr host property then
      match material_attr_value host property v with
      | Ok stored =>
          (Ok tt,
           MaterialData.set_attrs (<[property := stored]> (MaterialData.attrs m)) m)
      | Raise e => (Raise e, m)
      end
    else (Raise (AttributeError property), m).

(** [node.inputs[name]] for the node at position [n] *)
Definition node_inputs (n : nat) (name : string) : M NodeTree.t Socket :=
  on_node n (fun node =>
    if node_has_input host (ShaderNode.bl_idname node) name then
      (Ok (mkSocket n false name), node)
    else (Raise (KeyError name), node)).

(** [node.outputs[name]] for the node at position [n] *)
Definition node_outputs (n : nat) (name : string) : M NodeTree.t Socket :=
  on_node n (fun node =>
    if node_has_output host (ShaderNode.bl_idname node) name then
      (Ok (mkSocket n true name), node)
    else (Raise (KeyError name), node)).

(** ** The module [plumber/asset/material.py] *)

Definition FORMAT_MAP : gmap string string :=
  <[".tga" := "TARGA_RAW"]> (<[".png" := "PNG"]> ∅).

Definition NODE_INPUT_SOCKET_MAP : gmap string string :=
  <["Specular" := "Specular IOR Level"]> (<["Emission" := "Emission Color"]> ∅).

(** [NODE_INPUT_SOCKET_MAP.get(socket, socket)] *)
Definition resolve_input_socket (socket : string) : string :=
  default socket (NODE_INPUT_SOCKET_MAP !! socket).

Definition resolve_value (value : Value) (texture_ext : string)
  : M BlendData PyObj :=
  match value with
  | TextureRef path =>
      let texture_name := truncate_name (path +:+ texture_ext) in
      image <- images_get texture_name ;;
      ret (match image with Some i => ImageRef i | None => PyNone end)
  | _ => ret (Plain value)
  end.

Definition import_texture (texture : Texture.t) : M BlendData unit :=
  let format_ext := Texture.format_ext texture in
  let texture_name := truncate_name (Texture.name texture +:+ format_ext) in
  image_data <- images_get texture_name ;;
  match image_data with
  | Some _ => ret tt
  | None =>
      let width := Texture.width texture in
      let height := Texture.height texture in
      image_data <- images_new texture_name width height true ;;
      file_format <- dict_getitem FORMAT_MAP format_ext ;;
      on_image image_data (modify (Image.set_file_format file_format)) ;;
      image_set_source image_data "FILE" ;;
      let bytes := Texture.bytes texture in
      image_pack image_data bytes (length bytes) ;;
      on_image image_data (modify (Image.set_alpha_mode "CHANNEL_PACKED"))
  end.

(** Lines 40 to 47: look the material up or create it, switch its node tree
    on and clear the tree.  The tree is known by its material's handle. *)
Definition import_material_container (material : Material.t)
  : M BlendData string :=
  let material_name := truncate_name (Material.name material) in
  found <- materials_get material_name ;;
  material_data <-
    match found with
    | Some material_data => ret material_data
    | None =>
        material_data <- materials_new material_name ;;
        on_material material_data
          (material_setitem "path_id" (Material.name material)) ;;
        ret material_data
    end ;;
  on_material material_data (modify (MaterialData.set_use_nodes true)) ;;
  let nt := material_data in
  on_tree nt nodes_clear ;;
  ret material_data.

(** Lines 61 to 78: the body of the loop over the node descriptors, for one
    descriptor; it returns the node built. *)
Definition import_material_node (nt texture_ext : string)
    (built_nodes : list nat) (node : Node.t) : M BlendData nat :=
  built_node <- on_tree nt (nodes_new (Node.blender_id node)) ;;
  on_tree nt
    (on_node built_node (modify (ShaderNode.set_location (Node.position node)))) ;;
  for_each (Node.properties node) (fun '(property, value) =>
    v <- resolve_value value texture_ext ;;
    on_tree nt (on_node built_node (node_setattr property v))) ;;
  for_each (Node.socket_values node) (fun '(socket, value) =>
    let socket := resolve_input_socket socket in
    v <- resolve_value value texture_ext ;;
    input <- on_tree nt (node_inputs built_node socket) ;;
    on_tree nt (socket_set_default_value input v)) ;;
  for_each (Node.socket_links node) (fun '(socket, link) =>
    target_node <- list_getitem built_nodes (SocketLink.node_index link) ;;
    target_socket <- on_tree nt (node_outputs target_node (SocketLink.socket link)) ;;
    let socket := resolve_input_socket socket in
    input <- on_tree nt (node_inputs built_node socket) ;;
    on_tree nt (links_new input target_socket)) ;;
  ret built_node.

(** Lines 60 to 78: the loop, with [built_nodes] as it stands on entry. *)
Fixpoint import_material_nodes (nt texture_ext : string)
    (nodes : list Node.t) (built_nodes : list nat) : M BlendData (list nat) :=
  match nodes with
  | [] => ret built_nodes
  | node :: rest =>
      built_node <- import_material_node nt texture_ext built_nodes node ;;
      import_material_nodes nt texture_ext rest (built_nodes ++ [built_node])
  end.

(** Lines 58 to 82: the node graph and its connection to the output node.
    The built nodes are returned for the statements below. *)
Definition import_material_graph (nt : string) (out_node : nat)
    (texture_ext : string) (nodes : list Node.t) : M BlendData (list nat) :=
  built_nodes <- import_material_nodes nt texture_ext nodes [] ;;
  shader_node <- list_getitem built_nodes (-1) ;;
  bsdf <- on_tree nt (node_outputs shader_node "BSDF") ;;
  surface <- on_tree nt (node_inputs out_node "Surface") ;;
  on_tree nt (links_new bsdf surface) ;;
  ret built_nodes.

(** Lines 38 to 56: the container, the output node and the material-level
    properties; it returns the tree handle and the output node. *)
Definition import_material_begin (material : Material.t)
  : M BlendData (string * nat) :=
  material_data <- import_material_container material ;;
  let nt := material_data in
  out_node <- on_tree nt (nodes_new "ShaderNodeOutputMaterial") ;;
  on_tree nt (on_node out_node (modify (ShaderNode.set_location (300, 0)))) ;;
  let built_data := Material.data material in
  let texture_ext := Material.texture_ext material in
  for_each (BuiltData.properties built_data) (fun '(property, value) =>
    v <- resolve_value value texture_ext ;;
    on_material material_data (material_setattr property v)) ;;
  ret (nt, out_node).

(** Lines 84 to 87: the colour space of each texture the material names. *)
Definition import_material_color_spaces (texture_ext : string)
    (texture_color_spaces : list (string * string)) : M BlendData unit :=
  for_each texture_color_spaces (fun '(texture_name, color_space) =>
    let image_name := truncate_name (texture_name +:+ texture_ext) in
    image <- images_getitem image_name ;;
    on_image image (modify (Image.set_colorspace color_space))).

Definition import_material (material : Material.t) : M BlendData unit :=
  entry <- import_material_begin material ;;
  let built_data := Material.data material in
  let texture_ext := Material.texture_ext material in
  import_material_graph (fst entry) (snd entry) texture_ext
    (BuiltData.nodes built_data) ;;
  import_material_color_spaces texture_ext
    (BuiltData.texture_color_spaces built_data).

(** ** The build seen from the material it works on

    From line 45 to line 82 [import_material] touches one material only and
    reads the image registry only to ask whether a name is registered.  The
    definitions below are the same statements as computations on that
    material and on its node tree; the lemmas further down show that the
    registry-level code above runs them on the registered material. *)

(** [resolve_value] against the set of registered image names. *)
Definition resolve_in (present : gset string) (texture_ext : string)
    (value : Value) : PyObj :=
  match value with
  | TextureRef path =>
      let texture_name := truncate_name (path +:+ texture_ext) in
      if decide (texture_name ∈ present) then ImageRef texture_name else PyNone
  | _ => Plain value
  end.

Definition tree_node (rv : Value -> PyObj) (built_nodes : list nat)
    (node : Node.t) : M NodeTree.t nat :=
  built_node <- nodes_new (Node.blender_id node) ;;
  on_node built_node (modify (ShaderNode.set_location (Node.position node))) ;;
  for_each (Node.properties node) (fun '(property, value) =>
    on_node built_node (node_setattr property (rv value))) ;;
  for_each (Node.socket_values node) (fun '(socket, value) =>
    let socket := resolve_input_socket socket in
    input <- node_inputs built_node socket ;;
    socket_set_default_value input (rv value)) ;;
  for_each (Node.socket_links node) (fun '(socket, link) =>
    target_node <- list_getitem built_nodes (SocketLink.node_index link) ;;
    target_socket <- node_outputs target_node (SocketLink.socket link) ;;
    let socket := resolve_input_socket socket in
    input <- node_inputs built_node socket ;;
    links_new input target_socket) ;;
  ret built_node.

Fixpoint tree_nodes (rv : Value -> PyObj) (nodes : list Node.t)
    (built_nodes : list nat) : M NodeTree.t (list nat) :=
  match nodes with
  | [] => ret built_nodes
  | node :: rest =>
      built_node <- tree_node rv built_nodes node ;;
      tree_nodes rv rest (built_nodes ++ [built_node])
  end.

Definition tree_graph (rv : Value -> PyObj) (out_node : nat)
    (nodes : list Node.t) : M NodeTree.t (list nat) :=
  built_nodes <- tree_nodes rv nodes [] ;;
  shader_node <- list_getitem built_nodes (-1) ;;
  bsdf <- node_outputs shader_node "BSDF" ;;
  surface <- node_inputs out_node "Surface" ;;
  links_new bsdf surface ;;
  ret built_nodes.

(** Lines 45 to 56 on the material. *)
Definition material_begin (rv : Value -> PyObj)
    (properties : list (string * Value)) : M MaterialData.t nat :=
  modify (MaterialData.set_use_nodes true) ;;
  in_node_tree nodes_clear ;;
  out_node <- in_node_tree (nodes_new "ShaderNodeOutputMaterial") ;;
  in_node_tree (on_node out_node (modify (ShaderNode.set_location (300, 0)))) ;;
  for_each properties (fun '(property, value) =>
    material_setattr property (rv value)) ;;
  ret out_node.

(** The material found by line 40, or the one lines 42 and 43 create. *)
Definition material_found (material : Material.t) (s : BlendData)
  : MaterialData.t :=
  match materials s !! truncate_name (Material.name material) with
  | Some m => m
  | None =>
      MaterialData.set_custom (<["path_id" := Material.name material]> ∅)
        MaterialData.new
  end.

(** ** What the host must accept, and which link indices are in range *)

(** The index [i] addresses an element of a list of length [n]. *)
Definition index_in_range (n : nat) (i : Z) : bool :=
  (- Z.of_nat n <=? i) && (i <? Z.of_nat n).

(** The position a valid index [i] addresses in a list of length [n]. *)
Definition index_position (n : nat) (i : Z) : nat :=
  Z.to_nat (if i <? 0 then Z.of_nat n + i else i).

(** Every link of the node at position [pos] addresses a node built before. *)
Definition links_in_range (pos : nat) (node : Node.t) : bool :=
  forallb (fun '(_, link) => index_in_range pos (SocketLink.node_index link))
    (Node.socket_links node).

Fixpoint nodes_in_range (pos : nat) (nodes : list Node.t) : bool :=
  match nodes with
  | [] => true
  | node :: rest => links_in_range pos node && nodes_in_range (S pos) rest
  end.

(** The host knows the node's type, the node has every property and every
    input socket the descriptor names, the host takes each property and each
    socket default with the value [rv] resolves it to, and the node types
    built before, [built_types], have the output sockets the links name. *)
Definition node_accepted (rv : Value -> PyObj) (built_types : list string)
    (node : Node.t) : bool :=
  let type := Node.blender_id node in
  node_type_known host type
  && forallb (fun '(property, value) =>
         node_has_attr host type property
         && is_ok (node_attr_value host type property (rv value)))
       (Node.properties node)
  && forallb (fun '(socket, value) =>
         node_has_input host type (resolve_input_socket socket)
         && is_ok (socket_default_value host type
                     (resolve_input_socket socket) (rv value)))
       (Node.socket_values node)
  && forallb (fun '(socket, link) =>
         node_has_input host type (resolve_input_socket socket)
         && match py_index built_types (SocketLink.node_index link) with
            | Some source => node_has_output host source (SocketLink.socket link)
            | None => true
            end)
       (Node.socket_links node).

Fixpoint nodes_accepted (rv : Value -> PyObj) (built_types : list string)
    (nodes : list Node.t) : bool :=
  match nodes with
  | [] => true
  | node :: rest =>
      node_accepted rv built_types node
      && nodes_accepted rv (built_types ++ [Node.blender_id node]) rest
  end.

(** The host accepts the nodes, the last node has a ["BSDF"] output and the
    output node a ["Surface"] input. *)
Definition graph_accepted (rv : Value -> PyObj) (nodes : list Node.t) : bool :=
  nodes_accepted rv [] nodes
  && match last nodes with
     | Some node => node_has_output host (Node.blender_id node) "BSDF"
     | None => true
     end
  && node_has_input host "ShaderNodeOutputMaterial" "Surface".

(** The link the loop creates for the item [(socket, link)] of the node at
    position [pos], when the output node is node 0 of the tree and the node
    built at position [p] is node [p + 1]. *)
Definition link_at (pos : nat) (item : string * SocketLink.t) : NodeLink.t :=
  NodeLink.mk
    (S (index_position pos (SocketLink.node_index item.2)))
    (SocketLink.socket item.2)
    (S pos)
    (resolve_input_socket item.1).

Fixpoint links_from (pos : nat) (nodes : list Node.t) : list NodeLink.t :=
  match nodes with
  | [] => []
  | node :: rest =>
      map (link_at pos) (Node.socket_links node) ++ links_from (S pos) rest
  end.

(** The links a tree holds after the links [new] have been made in order. *)
Definition link_all (new links : list NodeLink.t) : list NodeLink.t :=
  foldl (fun links l => link_insert l links) links new.

(** No two socket links of a node end in the same input socket, once the
    socket names are renamed. *)
Definition inputs_distinct (node : Node.t) : Prop :=
  NoDup (map (fun item => resolve_input_socket item.1) (Node.socket_links node)).

End Importer.

(** ** Notions used in the statements and proofs *)

(** The node types of a tree, in the order of its node collection. *)
Definition node_types (t : NodeTree.t) : list string :=
  ShaderNode.bl_idname <$> NodeTree.nodes t.

(** The registry with [m] registered as the material [name]. *)
Definition put_material (name : string) (m : MaterialData.t) (s : BlendData)
  : BlendData :=
  set_materials (<[name := m]> (materials s)) s.

(** The node tree of the material registered as [name]. *)
Definition tree_of (name : string) (s : BlendData) : option NodeTree.t :=
  MaterialData.node_tree <$> materials s !! name.

(** The registry-level computation [c] runs the material-level computation
    [l] on the material registered as [name], in every registry whose
    registered image names are [present]. *)
Definition fused {A} (name : string) (present : gset string)
    (c : M BlendData A) (l : M MaterialData.t A) : Prop :=
  ∀ s m, dom (images s) = present → materials s !! name = Some m →
    c s = ((l m).1, put_material name (l m).2 s).

(** The tree-level computation [c] returns [r] from [t] and leaves a tree
    with node types [K] and links [L]. *)
Definition runs_to {A} (c : M NodeTree.t A) (t : NodeTree.t) (r : A)
    (K : list string) (L : list NodeLink.t) : Prop :=
  ∃ t', c t = (Ok r, t') ∧ node_types t' = K ∧ NodeTree.links t' = L.

(** The computation [c] raises [e] from [s]. *)
Definition raises {S A} (c : M S A) (s : S) (e : PyError) : Prop :=
  ∃ s', c s = (Raise e, s').

(** How many images a call log allocates and how many uploads it makes. *)
Definition is_images_new (c : HostCall) : bool :=
  match c with ImagesNew _ => true | ImagePack _ _ => false end.

Definition is_image_pack (c : HostCall) : bool :=
  match c with ImagePack _ _ => true | ImagesNew _ => false end.

Definition count_images_new (log : list HostCall) : nat :=
  length (List.filter is_images_new log).

Definition count_image_pack (log : list HostCall) : nat :=
  length (List.filter is_image_pack log).

(** ** The build as functions of the material and of the images *)

(** The tree as line 50 leaves it: the output node alone. *)
Definition output_tree : NodeTree.t :=
  NodeTree.mk
    [ShaderNode.set_location (300, 0) (ShaderNode.new "ShaderNodeOutputMaterial")]
    [].

(** The computation never changes the node types of the tree. *)
Definition keeps_types {A} (c : M NodeTree.t A) : Prop :=
  forall t, node_types (c t).2 = node_types t.

(** A link runs from a node other than node 0, and either to a node that
    comes later in the collection or to node 0. *)
Definition link_ordered (l : NodeLink.t) : Prop :=
  (0 < NodeLink.from_node l)%nat
  /\ ((NodeLink.from_node l < NodeLink.to_node l)%nat
      \/ NodeLink.to_node l = 0%nat).

(** The computation leaves every link ordered, whatever its outcome. *)
Definition keeps_links {A} (c : M NodeTree.t A) : Prop :=
  forall t, Forall link_ordered (NodeTree.links t) ->
    Forall link_ordered (NodeTree.links (c t).2).

Section MaterialLevelDefinitions.

Variable host : Host.
Variable rv : Value -> PyObj.

(** What [setattr(material_data, property, v)] stores, or the exception it
    raises. *)
Definition material_attr_result (property : string) (v : PyObj)
  : result PyObj :=
  if material_has_attr host property then material_attr_value host property v
  else Raise (AttributeError property).

(** The attributes the loop of lines 55 and 56 leaves, and its outcome: it
    stops at the first property the host's materials do not have or whose
    value the host does not take. *)
Fixpoint apply_properties (properties : list (string * Value))
    (attrs : gmap string PyObj) : gmap string PyObj :=
  match properties with
  | [] => attrs
  | (property, value) :: rest =>
      match material_attr_result property (rv value) with
      | Ok stored => apply_properties rest (<[property := stored]> attrs)
      | Raise _ => attrs
      end
  end.

Fixpoint properties_result (properties : list (string * Value)) : result unit :=
  match properties with
  | [] => Ok tt
  | (property, value) :: rest =>
      match material_attr_result property (rv value) with
      | Ok _ => properties_result rest
      | Raise e => Raise e
      end
  end.

(** Lines 45 to 82 on the material. *)
Definition material_build (properties : list (string * Value))
    (nodes : list Node.t) : M MaterialData.t (list nat) :=
  out_node <- material_begin host rv properties ;;
  in_node_tree (tree_graph host rv out_node nodes).

End MaterialLevelDefinitions.

Section ColorSpaceDefinitions.

Variable truncate_name : string -> string.
Variable texture_ext : string.

(** The images the loop of lines 84 to 87 leaves, and its outcome: it stops
    at the first texture whose key is not registered. *)
Fixpoint recolor (texture_color_spaces : list (string * string))
    (imgs : gmap string Image.t) : gmap string Image.t :=
  match texture_color_spaces with
  | [] => imgs
  | (texture_name, color_space) :: rest =>
      let image_name := truncate_name (texture_name +:+ texture_ext) in
      match imgs !! image_name with
      | Some i => recolor rest (<[image_name := Image.set_colorspace color_space i]> imgs)
      | None => imgs
      end
  end.

Fixpoint color_spaces_result (texture_color_spaces : list (string * string))
    (imgs : gmap string Image.t) : result unit :=
  match texture_color_spaces with
  | [] => Ok tt
  | (texture_name, color_space) :: rest =>
      let image_name := truncate_name (texture_name +:+ texture_ext) in
      match imgs !! image_name with
      | Some i =>
          color_spaces_result rest
            (<[image_name := Image.set_colorspace color_space i]> imgs)
      | None => Raise (KeyError image_name)
      end
  end.

(** An image with its colour space set, or left alone. *)
Definition paint (color_space : option string) (i : Image.t) : Image.t :=
  match color_space with
  | Some c => Image.set_colorspace c i
  | None => i
  end.

End ColorSpaceDefinitions.

(** ** A concrete host and concrete descriptors for the worked examples *)

(** Three node types of the host with the attributes, inputs and outputs the
    examples use. *)
Definition demo_schema : gmap string (list string * list string * list string) :=
  list_to_map
    [ ("ShaderNodeOutputMaterial", (["location"], ["Surface"], []));
      ("ShaderNodeBsdfPrincipled",
         (["location"],
          ["Base Color"; "Roughness"; "Specular IOR Level"; "Emission Color"],
          ["BSDF"]));
      ("ShaderNodeTexImage",
         (["location"; "image"; "interpolation"], ["Vector"], ["Color"; "Alpha"])) ].

(** What the demo host stores for an attribute of a node: a location is
    clamped, an image is a handle or [None], an interpolation is one of four
    names. *)
Definition demo_node_attr_value (type property : string) (v : PyObj)
  : result PyObj :=
  if decide (property = "location") then
    match v with
    | Plain (Vec [x; y]) =>
        Ok (Plain (Vec [ShaderNode.clamp x; ShaderNode.clamp y]))
    | _ => Raise ValueError
    end
  else if decide (property = "image") then
    match v with
    | ImageRef _ | PyNone => Ok v
    | _ => Raise TypeError
    end
  else
    match v with
    | Plain (Str name) =>
        if bool_decide (name ∈ ["Linear"; "Closest"; "Cubic"; "Smart"])
        then Ok v else Raise TypeError
    | _ => Raise TypeError
    end.

(** What the demo host stores as the default of an input socket: a colour
    socket takes four numbers, a vector socket three, any other socket one
    number.  [None] on a colour socket is the [ValueError] of line 69. *)
Definition demo_socket_default_value (type socket : string) (v : PyObj)
  : result PyObj :=
  if bool_decide (socket ∈ ["Base Color"; "Emission Color"]) then
    match v with
    | Plain (Vec xs) => if decide (length xs = 4%nat) then Ok v else Raise ValueError
    | _ => Raise ValueError
    end
  else if decide (socket = "Vector") then
    match v with
    | Plain (Vec xs) => if decide (length xs = 3%nat) then Ok v else Raise ValueError
    | _ => Raise ValueError
    end
  else
    match v with
    | Plain (Num _) => Ok v
    | _ => Raise TypeError
    end.

(** What the demo host stores for an attribute of a material.  The blend
    methods other than ["BLEND"] read back as ["HASHED"], and a number
    assigned to a flag reads back as a boolean. *)
Definition demo_material_attr_value (property : string) (v : PyObj)
  : result PyObj :=
  if decide (property = "blend_method") then
    match v with
    | Plain (Str name) =>
        if bool_decide (name ∈ ["OPAQUE"; "CLIP"; "HASHED"])
        then Ok (Plain (Str "HASHED"))
        else if decide (name = "BLEND") then Ok v else Raise TypeError
    | _ => Raise TypeError
    end
  else
    match v with
    | Plain (Num x) => Ok (PyBool (negb (x =? 0)))
    | PyBool _ => Ok v
    | _ => Raise TypeError
    end.

(** The demo host takes a width and a height between 1 and [2^31 - 1]. *)
Definition demo_images_new_error (w h : Z) : option PyError :=
  if (1 <=? w) && (w <=? 2147483647) && (1 <=? h) && (h <=? 2147483647)
  then None else Some ValueError.

(** The demo host reads no pixel data: an image that is not generated
    reports no pixels. *)
Definition demo_image_loaded (data : option (list byte)) : Z * Z * string :=
  (0, 0, "TARGA").

Definition demo_host : Host :=
  mkHost
    (fun type => bool_decide (is_Some (demo_schema !! type)))
    (fun type a =>
       match demo_schema !! type with
       | Some (attrs, _, _) => bool_decide (a ∈ attrs)
       | None => false
       end)
    (fun type i =>
       match demo_schema !! type with
       | Some (_, inputs, _) => bool_decide (i ∈ inputs)
       | None => false
       end)
    (fun type o =>
       match demo_schema !! type with
       | Some (_, _, outputs) => bool_decide (o ∈ outputs)
       | None => false
       end)
    (fun a => bool_decide (a ∈ ["blend_method"; "use_backface_culling"; "use_nodes"]))
    demo_node_attr_value
    demo_socket_default_value
    demo_material_attr_value
    demo_images_new_error
    demo_image_loaded.

(** Modelled from the spec: [truncate_name] of [plumber/asset/utils.py] is
    not among the sources; the spec observes a cut to the host's maximum
    name length, taken here as 63 characters. *)
Definition demo_truncate_name (name : string) : string :=
  if decide (String.length name ≤ 63)%nat then name else String.substring 0 63 name.

Definition empty_registry : BlendData := mkBlendData ∅ ∅ [].

Definition demo_texture : Texture.t :=
  Texture.mk "metal/plate01" ".png" 2 1
    ["137"; "080"; "078"; "071"]%byte.

Definition demo_tex_image : Node.t :=
  Node.mk "ShaderNodeTexImage" (-300, 0)
    [("image", TextureRef "metal/plate01")] [] [].

Definition demo_principled : Node.t :=
  Node.mk "ShaderNodeBsdfPrincipled" (0, 0) []
    [("Specular", Num 0); ("Roughness", Num 1)]
    [("Base Color", SocketLink.mk 0 "Color")].

Definition demo_material : Material.t :=
  Material.mk "metal/plate01" ".png"
    (BuiltData.mk [("blend_method", Str "OPAQUE")]
       [demo_tex_image; demo_principled]
       [("metal/plate01", "sRGB")]).

(** A material without nodes. *)
Definition demo_empty_material : Material.t :=
  Material.mk "dev/empty" ".png" (BuiltData.mk [] [] []).



(** A shader node linked to index -1: the node built just before it. *)
Definition demo_backward_link : Node.t :=
  Node.mk "ShaderNodeBsdfPrincipled" (0, 0) [] []
    [("Base Color", SocketLink.mk (-1) "Color")].

(** At position 1 the index -1 addresses the texture node ... *)
Definition demo_backward_material : Material.t :=
  Material.mk "dev/backward" ".png"
    (BuiltData.mk [] [demo_tex_image; demo_backward_link] []).

(** ... and at position 0 nothing has been built yet. *)
Definition demo_backward_first_material : Material.t :=
  Material.mk "dev/first" ".png" (BuiltData.mk [] [demo_backward_link] []).

(** A single shader node without links. *)
Definition demo_single : Node.t :=
  Node.mk "ShaderNodeBsdfPrincipled" (0, 0) []
    [("Base Color", Vec [1; 0; 0; 1])] [].

Definition demo_single_material : Material.t :=
  Material.mk "dev/single" ".png"
    (BuiltData.mk [("blend_method", Str "OPAQUE")] [demo_single] []).

(** The registry as the beginning of [import_material] leaves it, from the
    empty registry. *)
Definition demo_entry (material : Material.t) : BlendData :=
  (import_material_begin demo_host demo_truncate_name material empty_registry).2.

(** The registry with the texture of the worked examples materialized. *)
Definition demo_textured : BlendData :=
  (import_texture demo_host demo_truncate_name demo_texture empty_registry).2.

(** ** The tree and the images a build leaves, as functions of the descriptors *)

(** The output node as lines 49 and 50 leave it. *)
Definition output_node : ShaderNode.t :=
  ShaderNode.set_location (300, 0) (ShaderNode.new "ShaderNodeOutputMaterial").

Section BuiltTreeDefinitions.

Variable host : Host.
Variable rv : Value -> PyObj.

(** An attribute map with what the host stores for one more assignment (and
    unchanged where the host raises). *)
Definition store (stored : result PyObj) (key : string)
    (values : gmap string PyObj) : gmap string PyObj :=
  match stored with
  | Ok v => <[key := v]> values
  | Raise _ => values
  end.

(** The attributes line 62 and lines 64 and 65 assign to a node of type
    [type], in order: the location first, so that a property named
    ["location"] replaces it, and a later item for the same property
    replaces an earlier one. *)
Definition built_attrs (type : string) (position : Z * Z)
    (properties : list (string * Value)) : gmap string PyObj :=
  foldl (fun attrs item =>
           store (node_attr_value host type item.1 (rv item.2)) item.1 attrs)
    (ShaderNode.attrs (ShaderNode.set_location position (ShaderNode.new type)))
    properties.

(** The socket defaults lines 67 to 69 assign, under the renamed socket
    names. *)
Definition built_defaults (type : string)
    (socket_values : list (string * Value)) : gmap string PyObj :=
  foldl (fun defaults item =>
           store (socket_default_value host type
                    (resolve_input_socket item.1) (rv item.2))
             (resolve_input_socket item.1) defaults)
    ∅ socket_values.

(** The host node a descriptor leaves in the tree. *)
Definition built_node (node : Node.t) : ShaderNode.t :=
  ShaderNode.mk (Node.blender_id node)
    (built_attrs (Node.blender_id node) (Node.position node)
       (Node.properties node))
    (built_defaults (Node.blender_id node) (Node.socket_values node)).

End BuiltTreeDefinitions.

Section ColorSpaceOutcome.

Variable truncate_name : string -> string.
Variable texture_ext : string.



End ColorSpaceOutcome.

(** The image the calls of lines 29 to 34 leave registered, for the file
    format line 30 reads from [FORMAT_MAP]. *)
Definition imported_image (host : Host) (file_format : string)
    (texture : Texture.t) : Image.t :=
  Image.set_alpha_mode "CHANNEL_PACKED"
    (Image.pack (Texture.bytes texture) (image_loaded host)
       (Image.set_source "FILE" (image_loaded host)
          (Image.set_file_format file_format
             (Image.new (Texture.width texture) (Texture.height texture)
                true)))).

(** A texture whose extension [FORMAT_MAP] does not know. *)
Definition demo_jpg_texture : Texture.t :=
  Texture.mk "metal/plate02" ".jpg" 2 1 ["255"; "216"]%byte.

(** A material whose second property the host materials do not have. *)
Definition demo_bad_property_material : Material.t :=
  Material.mk "dev/property" ".png"
    (BuiltData.mk [("blend_method", Str "OPAQUE"); ("shadow", Num 1)]
       [demo_single] []).

(** A descriptor of a node type the host does not know, between two it
    knows. *)
Definition demo_unknown_node : Node.t :=
  Node.mk "ShaderNodeVertexColor" (0, 0) [] [] [].

Definition demo_unknown_material : Material.t :=
  Material.mk "dev/unknown" ".png"
    (BuiltData.mk [] [demo_tex_image; demo_unknown_node; demo_principled] []).



(** A single texture node: it has no ["BSDF"] output. *)
Definition demo_texture_only_material : Material.t :=
  Material.mk "dev/texture" ".png" (BuiltData.mk [] [demo_tex_image] []).

(** A shader node whose ["Base Color"] default is a reference to a texture,
    between two numeric defaults. *)
Definition demo_texture_default : Node.t :=
  Node.mk "ShaderNodeBsdfPrincipled" (0, 0) []
    [("Roughness", Num 1); ("Base Color", TextureRef "metal/plate01");
     ("Specular", Num 0)]
    [].

Definition demo_texture_default_material : Material.t :=
  Material.mk "dev/default" ".png"
    (BuiltData.mk [] [demo_tex_image; demo_texture_default] []).

(** ** The operator [ImportMdl] of [plumber/importer/mdl.py]

    [execute] calls into the importer package and the native module, which
    are not among the sources, inside two [try] blocks that catch [OSError].
    Each such call is modelled by its outcome, a value or the exception it
    raises, and the run keeps a trace of the calls made and of the reports
    sent to the user. *)

(** The exceptions [execute] tells apart: [OSError], with the text it is
    formatted to, and everything else. *)
Inductive Exception : Type :=
  | OSError (err : string)
  | OtherException (what : string).

Inductive outcome (A : Type) : Type :=
  | Returns (a : A)
  | Throws (e : Exception).
Arguments Returns {A} a.
Arguments Throws {A} e.

Inductive OperatorEvent : Type :=
  | Called (callee : string)
  | Reported (level message : string).

(** A step of the operator: an outcome and the trace extended. *)
Definition Op (A : Type) : Type :=
  list OperatorEvent -> outcome A * list OperatorEvent.

Definition op_ret {A} (a : A) : Op A := fun tr => (Returns a, tr).

Definition op_bind {A B} (c : Op A) (k : A -> Op B) : Op B :=
  fun tr =>
    match c tr with
    | (Returns a, tr') => k a tr'
    | (Throws e, tr') => (Throws e, tr')
    end.

(** A call out of the module: it is recorded, and its outcome is the
    callee's. *)
Definition call {A} (callee : string) (o : outcome A) : Op A :=
  fun tr => (o, tr ++ [Called callee]).

(** [self.report({level}, message)] *)
Definition report (level message : string) : Op unit :=
  fun tr => (Returns tt, tr ++ [Reported level message]).

(** [try: body except OSError as err: handler(err)] *)
Definition try_except_OSError {A} (body : Op A) (handler : string -> Op A)
  : Op A :=
  fun tr =>
    match body tr with
    | (Throws (OSError err), tr') => handler err tr'
    | other => other
    end.

(** The reports of a trace, in order. *)
Definition reports (tr : list OperatorEvent) : list (string * string) :=
  omap (fun ev => match ev with
                  | Reported level message => Some (level, message)
                  | Called _ => None
                  end) tr.

(** The callees of a trace, in call order. *)
Definition callees (tr : list OperatorEvent) : list string :=
  omap (fun ev => match ev with
                  | Called callee => Some callee
                  | Reported _ _ => None
                  end) tr.

Module ImportMdl.
(** The properties of the operator that [execute] reads from [self]; their
    declarations are in the importer package, not among the sources. *)
Record t : Type := mk {
  filepath : string;
  from_game_fs : bool;
  import_materials : bool;
  import_animations : bool;
  simple_materials : bool;
  allow_culling : bool;
  editor_materials : bool;
  texture_interpolation : string
}.
End ImportMdl.

Section ImportMdlOperator.

Variables FS Callbacks Importer : Type.

(** What the callees of [execute] do, as outcomes: the operator's helper
    methods, [AssetCallbacks(context)], the constructor [Importer(...)] and
    the method [importer.import_mdl(...)]. *)
Record Callees : Type := mkCallees {
  get_game_fs : outcome FS;
  AssetCallbacks : outcome Callbacks;
  get_threads_suggestion : outcome Z;
  get_target_fps : outcome Z;
  Importer_new :
    FS -> Callbacks -> Z -> Z -> bool -> bool -> bool -> string ->
    outcome Importer;
  import_mdl : Importer -> string -> bool -> bool -> bool -> outcome unit
}.

Variable env : Callees.

(** [ImportMdl.execute]: lines 29 to 58.  The arguments of the constructor
    are evaluated inside the first [try], left to right. *)
Definition execute (self : ImportMdl.t) : Op (gset string) :=
  op_bind (call "get_game_fs" (get_game_fs env)) (fun fs =>
  op_bind
    (try_except_OSError
       (op_bind (call "AssetCallbacks" (AssetCallbacks env)) (fun callbacks =>
        op_bind (call "get_threads_suggestion" (get_threads_suggestion env))
          (fun threads =>
        op_bind (call "get_target_fps" (get_target_fps env)) (fun target_fps =>
        op_bind
          (call "Importer"
             (Importer_new env fs callbacks threads target_fps
                (ImportMdl.simple_materials self)
                (ImportMdl.allow_culling self)
                (ImportMdl.editor_materials self)
                (ImportMdl.texture_interpolation self)))
          (fun importer => op_ret (inr importer))))))
       (fun err =>
          op_bind (report "ERROR" ("could not open file system: " +:+ err))
            (fun _ => op_ret (inl ({["CANCELLED"]} : gset string)))))
    (fun opened =>
       match opened with
       | inl returned => op_ret returned
       | inr importer =>
           op_bind
             (try_except_OSError
                (op_bind
                   (call "import_mdl"
                      (import_mdl env importer
                         (ImportMdl.filepath self)
                         (ImportMdl.from_game_fs self)
                         (ImportMdl.import_materials self)
                         (ImportMdl.import_animations self)))
                   (fun _ => op_ret None))
                (fun err =>
                   op_bind (report "ERROR" ("could not import mdl: " +:+ err))
                     (fun _ => op_ret (Some ({["CANCELLED"]} : gset string)))))
             (fun returned =>
                match returned with
                | Some r => op_ret r
                | None => op_ret {["FINISHED"]}
                end)
       end)).

(** The outcome of the constructor expression of lines 33 to 42: the
    arguments that call out are evaluated left to right, then the constructor
    is called. *)
Definition importer_outcome (self : ImportMdl.t) (fs : FS) : outcome Importer :=
  match AssetCallbacks env with
  | Throws e => Throws e
  | Returns callbacks =>
      match get_threads_suggestion env with
      | Throws e => Throws e
      | Returns threads =>
          match get_target_fps env with
          | Throws e => Throws e
          | Returns target_fps =>
              Importer_new env fs callbacks threads target_fps
                (ImportMdl.simple_materials self)
                (ImportMdl.allow_culling self)
                (ImportMdl.editor_materials self)
                (ImportMdl.texture_interpolation self)
          end
      end
  end.

(** Every callee returns. *)
Definition all_return (self : ImportMdl.t) : Prop :=
  exists fs callbacks threads target_fps importer,
    get_game_fs env = Returns fs
    /\ AssetCallbacks env = Returns callbacks
    /\ get_threads_suggestion env = Returns threads
    /\ get_target_fps env = Returns target_fps
    /\ Importer_new env fs callbacks threads target_fps
         (ImportMdl.simple_materials self) (ImportMdl.allow_culling self)
         (ImportMdl.editor_materials self)
         (ImportMdl.texture_interpolation self) = Returns importer
    /\ import_mdl env importer (ImportMdl.filepath self)
         (ImportMdl.from_game_fs self) (ImportMdl.import_materials self)
         (ImportMdl.import_animations self) = Returns tt.

End ImportMdlOperator.

Arguments get_game_fs {FS Callbacks Importer} _.
Arguments AssetCallbacks {FS Callbacks Importer} _.
Arguments get_threads_suggestion {FS Callbacks Importer} _.
Arguments get_target_fps {FS Callbacks Importer} _.
Arguments Importer_new {FS Callbacks Importer} _.
Arguments import_mdl {FS Callbacks Importer} _.
Arguments execute {FS Callbacks Importer} env self.
Arguments importer_outcome {FS Callbacks Importer} env self fs.
Arguments all_return {FS Callbacks Importer} env self.

(** The six callees, in the order [execute] reaches them. *)
Definition execute_callees : list string :=
  ["get_game_fs"; "AssetCallbacks"; "get_threads_suggestion"; "get_target_fps";
   "Importer"; "import_mdl"].

(** An operator and callees for the worked examples, given what the thread
    suggestion and the reading of the model file do. *)
Definition demo_operator : ImportMdl.t :=
  ImportMdl.mk "models/props/crate.mdl" true true false false true false
    "Linear".

Definition demo_callees (threads : outcome Z) (read : outcome unit)
  : Callees unit unit unit :=
  mkCallees unit unit unit (Returns tt) (Returns tt) threads (Returns 30)
    (fun _ _ _ _ _ _ _ _ => Returns tt)
    (fun _ _ _ _ _ => read).

(** * Proofs *)

(** ** The monad *)

Section Monad.
Context {S A B : Type}.
Implicit Types (c : M S A) (k : A -> M S B) (s : S).

Lemma bind_ok c k s a s' : c s = (Ok a, s') -> bind c k s = k a s'.
Proof. intros Hc. unfold bind. by rewrite Hc. Qed.

Lemma bind_raise c k s e s' :
  c s = (Raise e, s') -> bind c k s = (Raise e, s').
Proof. intros Hc. unfold bind. by rewrite Hc. Qed.

Lemma bind_ok_inv c k s b s2 :
  bind c k s = (Ok b, s2) ->
  exists a s1, c s = (Ok a, s1) /\ k a s1 = (Ok b, s2).
Proof.
  unfold bind. destruct (c s) as [[a|e] s1]; intros Hk.
  - by exists a, s1.
  - discriminate.
Qed.

End Monad.


(** ** Python list indexing *)

Lemma index_in_range_spec n i :
  index_in_range n i = true <-> - Z.of_nat n <= i < Z.of_nat n.
Proof. unfold index_in_range. rewrite andb_true_iff. lia. Qed.

Lemma index_position_lt n i :
  index_in_range n i = true -> (index_position n i < n)%nat.
Proof.
  rewrite index_in_range_spec. unfold index_position.
  destruct (Z.ltb_spec i 0); lia.
Qed.

Lemma py_index_in_range {X} (l : list X) i :
  index_in_range (length l) i = true ->
  py_index l i = l !! index_position (length l) i.
Proof.
  rewrite index_in_range_spec. intros Hi. unfold py_index, index_position.
  destruct (Z.ltb_spec i 0) as [Hneg|Hpos].
  - replace (0 <=? i) with false by lia. simpl.
    replace (- Z.of_nat (length l) <=? i) with true by lia.
    by replace (i <? 0) with true by lia.
  - replace (0 <=? i) with true by lia.
    by replace (i <? Z.of_nat (length l)) with true by lia.
Qed.

Lemma py_index_out_of_range {X} (l : list X) i :
  index_in_range (length l) i = false -> py_index l i = None.
Proof.
  intros Hi. apply not_true_iff_false in Hi.
  rewrite index_in_range_spec in Hi. unfold py_index.
  destruct (Z.leb_spec 0 i), (Z.ltb_spec i (Z.of_nat (length l))),
    (Z.leb_spec (- Z.of_nat (length l)) i), (Z.ltb_spec i 0);
    simpl; try done; lia.
Qed.

Lemma py_index_is_Some {X} (l : list X) i :
  is_Some (py_index l i) <-> index_in_range (length l) i = true.
Proof.
  split.
  - intros [x Hx]. destruct (index_in_range (length l) i) eqn:Hi; [done|].
    by rewrite py_index_out_of_range in Hx.
  - intros Hi. rewrite py_index_in_range by done.
    apply lookup_lt_is_Some. by apply index_position_lt.
Qed.


Lemma list_getitem_ok_inv {S X} (l : list X) i (s s' : S) x :
  list_getitem l i s = (Ok x, s') ->
  py_index l i = Some x /\ s' = s.
Proof.
  unfold list_getitem. destruct (py_index l i); [|discriminate].
  unfold ret. by intros [= -> ->].
Qed.

Lemma list_getitem_out_of_range {S X} (l : list X) i (s : S) :
  index_in_range (length l) i = false ->
  list_getitem l i s = (Raise IndexError, s).
Proof.
  intros Hi. unfold list_getitem. by rewrite py_index_out_of_range.
Qed.

(** The references of the nodes built so far are 1, 2, ...: the index [i]
    addresses the node after the output node and [index_position] others. *)
Lemma py_index_seq p i :
  index_in_range p i = true ->
  py_index (seq 1 p) i = Some (Datatypes.S (index_position p i)).
Proof.
  intros Hi. rewrite py_index_in_range; rewrite length_seq; [|done].
  rewrite lookup_seq_lt; [done|]. by apply index_position_lt.
Qed.

(** ** Computations on a node tree *)

Lemma runs_to_bind {A B} (c : M NodeTree.t A) (k : A -> M NodeTree.t B)
    t a K1 L1 b K2 L2 :
  runs_to c t a K1 L1 ->
  (forall t1, node_types t1 = K1 -> NodeTree.links t1 = L1 ->
     runs_to (k a) t1 b K2 L2) ->
  runs_to (bind c k) t b K2 L2.
Proof.
  intros (t1 & Hc & HK & HL) Hk.
  destruct (Hk t1 HK HL) as (t2 & Hka & ? & ?).
  exists t2. by rewrite (bind_ok _ _ _ _ _ Hc).
Qed.

Lemma runs_to_raises {A B} (c : M NodeTree.t A) (k : A -> M NodeTree.t B)
    t a K1 L1 e :
  runs_to c t a K1 L1 ->
  (forall t1, node_types t1 = K1 -> NodeTree.links t1 = L1 ->
     raises (k a) t1 e) ->
  raises (bind c k) t e.
Proof.
  intros (t1 & Hc & HK & HL) Hk.
  destruct (Hk t1 HK HL) as (t2 & Hka).
  exists t2. by rewrite (bind_ok _ _ _ _ _ Hc).
Qed.

Lemma raises_bind {S A B} (c : M S A) (k : A -> M S B) s e :
  raises c s e -> raises (bind c k) s e.
Proof. intros (s' & Hc). exists s'. by apply bind_raise. Qed.

Lemma runs_to_ret {A} (a : A) t :
  runs_to (ret a) t a (node_types t) (NodeTree.links t).
Proof. by exists t. Qed.

Lemma node_types_lookup t n type :
  node_types t !! n = Some type ->
  exists node, NodeTree.nodes t !! n = Some node
               /\ ShaderNode.bl_idname node = type.
Proof.
  unfold node_types. rewrite list_lookup_fmap.
  destruct (NodeTree.nodes t !! n) as [node|]; [|done].
  intros [= <-]. by exists node.
Qed.

(** A computation on a node that keeps the node's type, run on a node of the
    tree, keeps the tree's node types and links. *)
Lemma on_node_runs {A} n (c : M ShaderNode.t A) t node r node' :
  NodeTree.nodes t !! n = Some node ->
  c node = (Ok r, node') ->
  ShaderNode.bl_idname node' = ShaderNode.bl_idname node ->
  runs_to (on_node n c) t r (node_types t) (NodeTree.links t).
Proof.
  intros Hn Hc Hty. unfold runs_to, on_node. rewrite Hn, Hc.
  eexists. split; [done|]. split; [|done].
  unfold node_types. simpl. rewrite list_fmap_insert, Hty.
  apply list_insert_id. rewrite list_lookup_fmap. by rewrite Hn.
Qed.

Lemma links_new_runs (i o : Socket) t :
  socket_is_output i = false -> socket_is_output o = true ->
  runs_to (links_new i o) t tt (node_types t)
    (link_insert
       (NodeLink.mk (socket_node o) (socket_name o)
          (socket_node i) (socket_name i))
       (NodeTree.links t)).
Proof.
  intros Hi Ho. unfold links_new. rewrite Hi, Ho. by eexists.
Qed.

Lemma links_new_runs_swapped (o i : Socket) t :
  socket_is_output i = false -> socket_is_output o = true ->
  runs_to (links_new o i) t tt (node_types t)
    (link_insert
       (NodeLink.mk (socket_node o) (socket_name o)
          (socket_node i) (socket_name i))
       (NodeTree.links t)).
Proof.
  intros Hi Ho. unfold links_new. rewrite Hi, Ho. by eexists.
Qed.

Lemma link_all_app new1 new2 links :
  link_all (new1 ++ new2) links = link_all new2 (link_all new1 links).
Proof. apply foldl_app. Qed.

Lemma is_ok_true {A} (r : result A) : is_ok r = true -> exists a, r = Ok a.
Proof. destruct r as [a|e]; [by exists a|done]. Qed.

Section TreeLevel.

Variable host : Host.
Variable rv : Value -> PyObj.

Lemma nodes_new_runs type t :
  node_type_known host type = true ->
  runs_to (nodes_new host type) t (length (node_types t))
    (node_types t ++ [type]) (NodeTree.links t).
Proof.
  intros Hknown. unfold nodes_new. rewrite Hknown.
  eexists. split; [by unfold node_types; rewrite length_fmap|].
  split; [|done]. unfold node_types. simpl. by rewrite fmap_app.
Qed.

Lemma set_location_runs n loc t type :
  node_types t !! n = Some type ->
  runs_to (on_node n (modify (ShaderNode.set_location loc))) t tt
    (node_types t) (NodeTree.links t).
Proof.
  intros (node & Hn & _)%node_types_lookup. by eapply on_node_runs.
Qed.

Lemma node_setattr_runs n property v t type :
  node_types t !! n = Some type ->
  node_has_attr host type property = true ->
  is_ok (node_attr_value host type property v) = true ->
  runs_to (on_node n (node_setattr host property v)) t tt
    (node_types t) (NodeTree.links t).
Proof.
  intros (node & Hn & <-)%node_types_lookup Hattr [stored Hv]%is_ok_true.
  eapply on_node_runs; [done| |].
  - unfold node_setattr. by rewrite Hattr, Hv.
  - done.
Qed.

Lemma node_inputs_runs n name t type :
  node_types t !! n = Some type ->
  node_has_input host type name = true ->
  runs_to (node_inputs host n name) t (mkSocket n false name)
    (node_types t) (NodeTree.links t).
Proof.
  intros (node & Hn & <-)%node_types_lookup Hin.
  eapply on_node_runs; [done| |done]. simpl. by rewrite Hin.
Qed.

Lemma node_outputs_runs n name t type :
  node_types t !! n = Some type ->
  node_has_output host type name = true ->
  runs_to (node_outputs host n name) t (mkSocket n true name)
    (node_types t) (NodeTree.links t).
Proof.
  intros (node & Hn & <-)%node_types_lookup Hout.
  eapply on_node_runs; [done| |done]. simpl. by rewrite Hout.
Qed.

Lemma socket_set_default_value_runs socket v t type :
  node_types t !! socket_node socket = Some type ->
  is_ok (socket_default_value host type (socket_name socket) v) = true ->
  runs_to (socket_set_default_value host socket v) t tt
    (node_types t) (NodeTree.links t).
Proof.
  intros (node & Hn & <-)%node_types_lookup [stored Hv]%is_ok_true.
  eapply on_node_runs; [done| |].
  - by rewrite Hv.
  - done.
Qed.

(** The loop over the properties of the node at [n]. *)
Lemma properties_loop_runs n type properties : forall t,
  node_types t !! n = Some type ->
  forallb (fun '(property, value) =>
      node_has_attr host type property
      && is_ok (node_attr_value host type property (rv value))) properties
    = true ->
  runs_to
    (for_each properties (fun '(property, value) =>
       on_node n (node_setattr host property (rv value))))
    t tt (node_types t) (NodeTree.links t).
Proof.
  induction properties as [|[property value] rest IH]; intros t Hn Hacc.
  - apply runs_to_ret.
  - simpl in Hacc. apply andb_true_iff in Hacc as [Hhead Hrest].
    apply andb_true_iff in Hhead as [Hattr Hvalue].
    simpl. eapply runs_to_bind; [by eapply node_setattr_runs|].
    intros t1 HK HL. rewrite <- HK, <- HL. apply IH; [by rewrite HK|done].
Qed.

(** The loop over the socket defaults of the node at [n]. *)
Lemma socket_values_loop_runs n type socket_values : forall t,
  node_types t !! n = Some type ->
  forallb (fun '(socket, value) =>
      node_has_input host type (resolve_input_socket socket)
      && is_ok (socket_default_value host type
                  (resolve_input_socket socket) (rv value))) socket_values
    = true ->
  runs_to
    (for_each socket_values (fun '(socket, value) =>
       let socket := resolve_input_socket socket in
       input <- node_inputs host n socket ;;
       socket_set_default_value host input (rv value)))
    t tt (node_types t) (NodeTree.links t).
Proof.
  induction socket_values as [|[socket value] rest IH]; intros t Hn Hacc.
  - apply runs_to_ret.
  - simpl in Hacc. apply andb_true_iff in Hacc as [Hhead Hrest].
    apply andb_true_iff in Hhead as [Hinput Hvalue].
    simpl. eapply (runs_to_bind _ _ t _ (node_types t) (NodeTree.links t)).
    + eapply runs_to_bind; [by eapply node_inputs_runs|].
      intros t1 HK HL. rewrite <- HK, <- HL.
      eapply socket_set_default_value_runs; [simpl; by rewrite HK|done].
    + intros t1 HK HL. rewrite <- HK, <- HL. apply IH; [by rewrite HK|done].
Qed.

End TreeLevel.

Lemma list_getitem_runs {X} (l : list X) i x t :
  py_index l i = Some x ->
  runs_to (list_getitem l i) t x (node_types t) (NodeTree.links t).
Proof. intros Hx. exists t. unfold list_getitem. by rewrite Hx. Qed.

Section NodeLoop.

Variable host : Host.
Variable rv : Value -> PyObj.
Variable out_type : string.

(** The loop over the links of the node being built: the output node is node
    0 of the tree, the nodes built before are nodes 1 to [length built_types]
    and the node being built comes last. *)
Lemma socket_links_loop_spec built_types type socket_links : forall t,
  node_types t = out_type :: built_types ++ [type] ->
  forallb (fun '(socket, link) =>
      node_has_input host type (resolve_input_socket socket)
      && match py_index built_types (SocketLink.node_index link) with
         | Some source => node_has_output host source (SocketLink.socket link)
         | None => true
         end) socket_links = true ->
  let loop :=
    for_each socket_links (fun '(socket, link) =>
      target_node <- list_getitem (seq 1 (length built_types))
                       (SocketLink.node_index link) ;;
      target_socket <- node_outputs host target_node (SocketLink.socket link) ;;
      let socket := resolve_input_socket socket in
      input <- node_inputs host (Datatypes.S (length built_types)) socket ;;
      links_new input target_socket) in
  if forallb (fun '(_, link) =>
       index_in_range (length built_types) (SocketLink.node_index link))
       socket_links
  then runs_to loop t tt (node_types t)
         (link_all (map (link_at (length built_types)) socket_links)
            (NodeTree.links t))
  else raises loop t IndexError.
Proof.
  induction socket_links as [|[socket link] rest IH]; intros t Hty Hacc; simpl.
  { apply runs_to_ret. }
  simpl in Hacc. apply andb_true_iff in Hacc as [Hhead Hrest].
  apply andb_true_iff in Hhead as [Hin Hout].
  destruct (index_in_range (length built_types) (SocketLink.node_index link))
    eqn:Hrange; simpl.
  - pose proof (index_position_lt _ _ Hrange) as Hlt.
    rewrite py_index_in_range in Hout by done.
    destruct (lookup_lt_is_Some_2 built_types _ Hlt) as [source Hsource].
    rewrite Hsource in Hout.
    assert (runs_to
      (target_node <- list_getitem (seq 1 (length built_types))
                        (SocketLink.node_index link) ;;
       target_socket <- node_outputs host target_node (SocketLink.socket link) ;;
       input <- node_inputs host (Datatypes.S (length built_types))
                  (resolve_input_socket socket) ;;
       links_new input target_socket)
      t tt (node_types t)
      (link_insert (link_at (length built_types) (socket, link))
         (NodeTree.links t)))
      as Hbody.
    { eapply runs_to_bind; [by apply list_getitem_runs, py_index_seq|].
      intros t1 HK1 HL1.
      eapply runs_to_bind.
      { eapply node_outputs_runs; [|exact Hout].
        rewrite HK1, Hty. simpl. by rewrite lookup_app_l. }
      intros t2 HK2 HL2.
      eapply runs_to_bind.
      { eapply node_inputs_runs; [|exact Hin].
        rewrite HK2, HK1, Hty. simpl.
        rewrite lookup_app_r by lia. by rewrite Nat.sub_diag. }
      intros t3 HK3 HL3.
      rewrite <- HK1, <- HK2, <- HK3, <- HL1, <- HL2, <- HL3.
      by apply links_new_runs. }
    match goal with
    | |- if forallb ?f rest then _ else _ =>
        destruct (forallb f rest) eqn:Hrest_range
    end.
    + eapply runs_to_bind; [exact Hbody|]. intros t1 HK HL.
      rewrite <- HK in Hty. pose proof (IH t1 Hty Hrest) as IH1.
      cbv zeta in IH1. by rewrite HK, HL in IH1.
    + eapply runs_to_raises; [exact Hbody|]. intros t1 HK HL.
      rewrite <- HK in Hty. pose proof (IH t1 Hty Hrest) as IH1.
      exact IH1.
  - apply raises_bind, raises_bind. eexists.
    apply list_getitem_out_of_range. by rewrite length_seq.
Qed.

End NodeLoop.

Section GraphLevel.

Variable host : Host.
Variable rv : Value -> PyObj.
Variable out_type : string.

(** One iteration of the node loop on a tree that holds the output node and
    the nodes built so far. *)
Lemma tree_node_spec built_types node t :
  node_types t = out_type :: built_types ->
  node_accepted host rv built_types node = true ->
  let step := tree_node host rv (seq 1 (length built_types)) node in
  if links_in_range (length built_types) node
  then runs_to step t (Datatypes.S (length built_types))
         (out_type :: built_types ++ [Node.blender_id node])
         (link_all (map (link_at (length built_types)) (Node.socket_links node))
            (NodeTree.links t))
  else raises step t IndexError.
Proof.
  intros Hty Hacc. unfold node_accepted in Hacc.
  apply andb_true_iff in Hacc as [Hacc Hlinks].
  apply andb_true_iff in Hacc as [Hacc Hvalues].
  apply andb_true_iff in Hacc as [Hknown Hprops].
  set (K := out_type :: built_types ++ [Node.blender_id node]).
  assert (K !! Datatypes.S (length built_types) = Some (Node.blender_id node))
    as Hnew.
  { subst K. simpl. rewrite lookup_app_r by lia. by rewrite Nat.sub_diag. }
  assert (forall t1,
            node_types t1 = (node_types t ++ [Node.blender_id node])%list ->
            node_types t1 = K) as HK.
  { intros t1 ->. by rewrite Hty. }
  pose proof (socket_links_loop_spec host out_type built_types
                (Node.blender_id node) (Node.socket_links node)) as Hloop.
  cbv zeta in Hloop |- *. unfold links_in_range, tree_node.
  assert (length (node_types t) = Datatypes.S (length built_types)) as Hlen.
  { by rewrite Hty. }
  match goal with |- if ?b then _ else _ => destruct b eqn:Hrange end.
  - eapply runs_to_bind; [by apply nodes_new_runs|].
    rewrite Hlen. intros t1 HK1 HL1. apply HK in HK1.
    eapply runs_to_bind; [eapply set_location_runs; by rewrite HK1|].
    intros t2 HK2 HL2. rewrite HK1 in HK2.
    eapply runs_to_bind.
    { eapply properties_loop_runs; [by rewrite HK2|exact Hprops]. }
    intros t3 HK3 HL3. rewrite HK2 in HK3.
    eapply runs_to_bind.
    { eapply socket_values_loop_runs; [by rewrite HK3|exact Hvalues]. }
    intros t4 HK4 HL4. rewrite HK3 in HK4.
    eapply runs_to_bind; [by apply Hloop|].
    intros t5 HK5 HL5. exists t5. split; [done|].
    split; [by rewrite HK5, HK4|].
    by rewrite HL5, HL4, HL3, HL2, HL1.
  - eapply runs_to_raises; [by apply nodes_new_runs|].
    rewrite Hlen. intros t1 HK1 HL1. apply HK in HK1.
    eapply runs_to_raises; [eapply set_location_runs; by rewrite HK1|].
    intros t2 HK2 HL2. rewrite HK1 in HK2.
    eapply runs_to_raises.
    { eapply properties_loop_runs; [by rewrite HK2|exact Hprops]. }
    intros t3 HK3 HL3. rewrite HK2 in HK3.
    eapply runs_to_raises.
    { eapply socket_values_loop_runs; [by rewrite HK3|exact Hvalues]. }
    intros t4 HK4 HL4. rewrite HK3 in HK4.
    apply raises_bind. by apply Hloop.
Qed.

(** The node loop: with every node accepted by the host it builds all the
    nodes when every link index is in range, and raises [IndexError]
    otherwise. *)
Lemma tree_nodes_spec nodes : forall built_types t,
  node_types t = out_type :: built_types ->
  nodes_accepted host rv built_types nodes = true ->
  let loop := tree_nodes host rv nodes (seq 1 (length built_types)) in
  if nodes_in_range (length built_types) nodes
  then runs_to loop t (seq 1 (length built_types + length nodes))
         (out_type :: built_types ++ map Node.blender_id nodes)
         (link_all (links_from (length built_types) nodes) (NodeTree.links t))
  else raises loop t IndexError.
Proof.
  induction nodes as [|node rest IH]; intros built_types t Hty Hacc; simpl.
  { rewrite !app_nil_r, Nat.add_0_r, <- Hty. apply runs_to_ret. }
  simpl in Hacc. apply andb_true_iff in Hacc as [Hnode Hrest].
  pose proof (tree_node_spec built_types node t Hty Hnode) as Hstep.
  cbv zeta in Hstep.
  assert (seq 1 (length built_types) ++ [Datatypes.S (length built_types)]
          = seq 1 (length (built_types ++ [Node.blender_id node]))) as Hseq.
  { rewrite length_app. simpl. by rewrite seq_app. }
  assert (length (built_types ++ [Node.blender_id node])
          = Datatypes.S (length built_types)) as Hlen.
  { rewrite length_app. simpl. lia. }
  destruct (links_in_range (length built_types) node); simpl.
  - pose proof (fun t1 H1 =>
        IH (built_types ++ [Node.blender_id node]) t1 H1 Hrest) as IH1.
    cbv zeta in IH1. rewrite Hlen in IH1.
    destruct (nodes_in_range (Datatypes.S (length built_types)) rest).
    + eapply runs_to_bind; [exact Hstep|]. intros t1 HK HL.
      rewrite Hseq. destruct (IH1 t1 HK) as (t2 & Hrun & HK2 & HL2).
      exists t2. split.
      { rewrite Hlen, Hrun. do 3 f_equal. lia. }
      split; [by rewrite HK2, <- app_assoc|].
      by rewrite HL2, HL, link_all_app.
    + eapply runs_to_raises; [exact Hstep|]. intros t1 HK HL.
      rewrite Hseq, Hlen. by apply IH1.
  - by apply raises_bind.
Qed.

(** The graph on a tree that holds the output node only. *)
Lemma tree_graph_spec nodes t :
  node_types t = [out_type] ->
  nodes <> [] ->
  nodes_accepted host rv [] nodes = true ->
  match last nodes with
  | Some node => node_has_output host (Node.blender_id node) "BSDF"
  | None => true
  end = true ->
  node_has_input host out_type "Surface" = true ->
  if nodes_in_range 0 nodes
  then runs_to (tree_graph host rv 0 nodes) t (seq 1 (length nodes))
         (out_type :: map Node.blender_id nodes)
         (link_all
            (links_from 0 nodes
               ++ [NodeLink.mk (length nodes) "BSDF" 0%nat "Surface"])
            (NodeTree.links t))
  else raises (tree_graph host rv 0 nodes) t IndexError.
Proof.
  intros Hty Hne Hacc Hbsdf Hsurface.
  pose proof (tree_nodes_spec nodes [] t Hty Hacc) as Hloop.
  cbv zeta in Hloop. simpl in Hloop. unfold tree_graph.
  destruct (nodes_in_range 0 nodes); [|by apply raises_bind].
  eapply runs_to_bind; [exact Hloop|]. intros t1 HK1 HL1.
  assert (exists n, length nodes = Datatypes.S n) as [n Hn].
  { destruct nodes; [done|]. by eexists. }
  assert (py_index (seq 1 (length nodes)) (-1) = Some (length nodes)) as Hlast.
  { rewrite py_index_seq.
    - f_equal. unfold index_position. simpl. lia.
    - apply index_in_range_spec. lia. }
  assert (node_types t1 !! length nodes
          = Node.blender_id <$> last nodes) as Hshader.
  { rewrite HK1, Hn. simpl. rewrite list_lookup_fmap, last_lookup.
    by rewrite Hn. }
  destruct (last nodes) as [shader|] eqn:Hshader_node;
    [|by rewrite last_None in Hshader_node].
  eapply runs_to_bind; [by apply list_getitem_runs|]. intros t2 HK2 HL2.
  eapply runs_to_bind.
  { eapply node_outputs_runs; [|exact Hbsdf]. by rewrite HK2. }
  intros t3 HK3 HL3.
  eapply runs_to_bind.
  { eapply (node_inputs_runs _ 0%nat); [|exact Hsurface].
    by rewrite HK3, HK2, HK1. }
  intros t4 HK4 HL4.
  eapply runs_to_bind; [by apply links_new_runs_swapped|].
  intros t5 HK5 HL5. exists t5. split; [done|].
  split; [by rewrite HK5, HK4, HK3, HK2|].
  simpl in HL5. by rewrite HL5, HL4, HL3, HL2, HL1, link_all_app.
Qed.

(** With every node accepted, a link index out of range raises [IndexError]
    whatever the last node offers. *)
Lemma tree_graph_raises nodes t :
  node_types t = [out_type] ->
  nodes_accepted host rv [] nodes = true ->
  nodes_in_range 0 nodes = false ->
  raises (tree_graph host rv 0 nodes) t IndexError.
Proof.
  intros Hty Hacc Hrange.
  pose proof (tree_nodes_spec nodes [] t Hty Hacc) as Hloop.
  cbv zeta in Hloop. simpl in Hloop. rewrite Hrange in Hloop.
  by apply raises_bind.
Qed.

End GraphLevel.

(** ** The registry-level code runs the material-level code *)

Lemma blend_data_eta s : mkBlendData (images s) (materials s) (calls s) = s.
Proof. by destruct s. Qed.

Lemma put_material_lookup name m s :
  materials (put_material name m s) !! name = Some m.
Proof. simpl. apply lookup_insert_eq. Qed.

Lemma put_material_put name m m' s :
  put_material name m' (put_material name m s) = put_material name m' s.
Proof. unfold put_material, set_materials. simpl. by rewrite insert_insert_eq. Qed.

Lemma put_material_id name m s :
  materials s !! name = Some m -> put_material name m s = s.
Proof.
  intros Hm. unfold put_material, set_materials.
  rewrite insert_id by done. apply blend_data_eta.
Qed.

Lemma on_material_run {A} name (c : M MaterialData.t A) s m :
  materials s !! name = Some m ->
  on_material name c s = ((c m).1, put_material name (c m).2 s).
Proof. intros Hm. unfold on_material. rewrite Hm. by destruct (c m). Qed.

Lemma material_data_eta m :
  MaterialData.set_node_tree (MaterialData.node_tree m) m = m.
Proof. by destruct m. Qed.

Lemma in_node_tree_ret {A} (a : A) m : in_node_tree (ret a) m = ret a m.
Proof. unfold in_node_tree, ret. by rewrite material_data_eta. Qed.

Lemma in_node_tree_bind {A B} (c : M NodeTree.t A) (k : A -> M NodeTree.t B) m :
  in_node_tree (bind c k) m
  = bind (in_node_tree c) (fun a => in_node_tree (k a)) m.
Proof.
  unfold in_node_tree, bind.
  destruct (c (MaterialData.node_tree m)) as [[a|e] t1]; [|done]. simpl.
  by destruct (k a t1).
Qed.

Lemma in_node_tree_run {A} (c : M NodeTree.t A) m :
  in_node_tree c m
  = ((c (MaterialData.node_tree m)).1,
     MaterialData.set_node_tree (c (MaterialData.node_tree m)).2 m).
Proof. unfold in_node_tree. by destruct (c _). Qed.

Section Fusion.

Variable name : string.
Variable present : gset string.

Lemma fused_ext {A} (c : M BlendData A) (l l' : M MaterialData.t A) :
  (forall m, l m = l' m) -> fused name present c l -> fused name present c l'.
Proof. intros Heq Hf s m HP Hm. rewrite <- Heq. by apply Hf. Qed.

Lemma fused_ret {A} (a : A) : fused name present (ret a) (ret a).
Proof. intros s m _ Hm. simpl. by rewrite put_material_id. Qed.

Lemma fused_bind {A B} (c : M BlendData A) (k : A -> M BlendData B)
    (l : M MaterialData.t A) (lk : A -> M MaterialData.t B) :
  fused name present c l ->
  (forall a, fused name present (k a) (lk a)) ->
  fused name present (bind c k) (bind l lk).
Proof.
  intros Hc Hk s m HP Hm. unfold bind. rewrite (Hc s m HP Hm).
  destruct (l m) as [[a|e] m1]; simpl; [|done].
  rewrite (Hk a _ m1); [|done|apply put_material_lookup].
  by rewrite put_material_put.
Qed.

Lemma fused_for_each {X} (xs : list X) (body : X -> M BlendData unit)
    (lbody : X -> M MaterialData.t unit) :
  (forall x, fused name present (body x) (lbody x)) ->
  fused name present (for_each xs body) (for_each xs lbody).
Proof.
  intros Hbody. induction xs as [|x xs IH]; simpl.
  - apply fused_ret.
  - apply fused_bind; [apply Hbody|]. intros _. apply IH.
Qed.

Lemma fused_on_material {A} (c : M MaterialData.t A) :
  fused name present (on_material name c) c.
Proof. intros s m _ Hm. by apply on_material_run. Qed.

Lemma fused_list_getitem {X} (l : list X) i :
  fused name present (list_getitem l i) (list_getitem l i).
Proof.
  intros s m _ Hm. unfold list_getitem.
  destruct (py_index l i); simpl; by rewrite put_material_id.
Qed.

(** ... and, one level down, the tree-level code on the material's tree. *)

Lemma fused_tree_on_tree {A} (c : M NodeTree.t A) :
  fused name present (on_tree name c) (in_node_tree c).
Proof. apply fused_on_material. Qed.

Lemma fused_tree_ret {A} (a : A) :
  fused name present (ret a) (in_node_tree (ret a)).
Proof.
  eapply fused_ext; [|apply fused_ret].
  intros m. by rewrite in_node_tree_ret.
Qed.

Lemma fused_tree_bind {A B} (c : M BlendData A) (k : A -> M BlendData B)
    (l : M NodeTree.t A) (lk : A -> M NodeTree.t B) :
  fused name present c (in_node_tree l) ->
  (forall a, fused name present (k a) (in_node_tree (lk a))) ->
  fused name present (bind c k) (in_node_tree (bind l lk)).
Proof.
  intros Hc Hk.
  apply (fused_ext _ (bind (in_node_tree l) (fun a => in_node_tree (lk a)))).
  - intros m. by rewrite in_node_tree_bind.
  - by apply fused_bind.
Qed.

Lemma fused_tree_for_each {X} (xs : list X) (body : X -> M BlendData unit)
    (lbody : X -> M NodeTree.t unit) :
  (forall x, fused name present (body x) (in_node_tree (lbody x))) ->
  fused name present (for_each xs body) (in_node_tree (for_each xs lbody)).
Proof.
  intros Hbody. induction xs as [|x xs IH]; simpl.
  - apply fused_tree_ret.
  - apply fused_tree_bind; [apply Hbody|]. intros _. apply IH.
Qed.

Lemma fused_tree_list_getitem {X} (l : list X) i :
  fused name present (list_getitem l i) (in_node_tree (list_getitem l i)).
Proof.
  eapply fused_ext; [|apply fused_list_getitem].
  intros m. unfold list_getitem. destruct (py_index l i).
  - by rewrite in_node_tree_ret.
  - unfold in_node_tree, raise. by rewrite material_data_eta.
Qed.

End Fusion.

Section ImporterFusion.

Variable host : Host.
Variable truncate_name : string -> string.

(** [resolve_value] reads the registry and leaves it as it is. *)
Lemma resolve_value_run value texture_ext s :
  resolve_value truncate_name value texture_ext s
  = (Ok (resolve_in truncate_name (dom (images s)) texture_ext value), s).
Proof.
  destruct value as [x|xs|str|path]; try done.
  simpl. unfold bind, images_get, ret.
  destruct (images s !! truncate_name (path +:+ texture_ext)) as [i|] eqn:Hi.
  - rewrite decide_True; [done|]. apply elem_of_dom. by eexists.
  - rewrite decide_False; [done|]. by rewrite not_elem_of_dom.
Qed.

Variable nt : string.
Variable present : gset string.
Variable texture_ext : string.

Local Abbreviation rv := (resolve_in truncate_name present texture_ext).

Lemma fused_resolve_value {B} value (k : PyObj -> M BlendData B)
    (l : M MaterialData.t B) :
  fused nt present (k (rv value)) l ->
  fused nt present (bind (resolve_value truncate_name value texture_ext) k) l.
Proof.
  intros Hk s m HP Hm. rewrite (bind_ok _ _ _ _ _ (resolve_value_run _ _ _)).
  rewrite HP. by apply Hk.
Qed.

Lemma import_material_node_fused built_nodes node :
  fused nt present
    (import_material_node host truncate_name nt texture_ext built_nodes node)
    (in_node_tree (tree_node host rv built_nodes node)).
Proof.
  unfold import_material_node, tree_node.
  apply fused_tree_bind; [apply fused_tree_on_tree|]. intros built_node.
  apply fused_tree_bind; [apply fused_tree_on_tree|]. intros _.
  apply fused_tree_bind.
  { apply fused_tree_for_each. intros [property value].
    apply fused_resolve_value, fused_tree_on_tree. }
  intros _. apply fused_tree_bind.
  { apply fused_tree_for_each. intros [socket value]. cbv zeta.
    apply fused_resolve_value.
    apply fused_tree_bind; [apply fused_tree_on_tree|]. intros input.
    apply fused_tree_on_tree. }
  intros _. apply fused_tree_bind; [|intros _; apply fused_tree_ret].
  apply fused_tree_for_each. intros [socket link].
  apply fused_tree_bind; [apply fused_tree_list_getitem|]. intros target_node.
  apply fused_tree_bind; [apply fused_tree_on_tree|]. intros target_socket.
  cbv zeta.
  apply fused_tree_bind; [apply fused_tree_on_tree|]. intros input.
  apply fused_tree_on_tree.
Qed.

Lemma import_material_nodes_fused nodes : forall built_nodes,
  fused nt present
    (import_material_nodes host truncate_name nt texture_ext nodes built_nodes)
    (in_node_tree (tree_nodes host rv nodes built_nodes)).
Proof.
  induction nodes as [|node rest IH]; intros built_nodes; simpl.
  - apply fused_tree_ret.
  - apply fused_tree_bind; [apply import_material_node_fused|].
    intros built_node. apply IH.
Qed.

Lemma import_material_graph_fused out_node nodes :
  fused nt present
    (import_material_graph host truncate_name nt out_node texture_ext nodes)
    (in_node_tree (tree_graph host rv out_node nodes)).
Proof.
  unfold import_material_graph, tree_graph.
  apply fused_tree_bind; [apply import_material_nodes_fused|].
  intros built_nodes.
  apply fused_tree_bind; [apply fused_tree_list_getitem|]. intros shader_node.
  apply fused_tree_bind; [apply fused_tree_on_tree|]. intros bsdf.
  apply fused_tree_bind; [apply fused_tree_on_tree|]. intros surface.
  apply fused_tree_bind; [apply fused_tree_on_tree|]. intros _.
  apply fused_tree_ret.
Qed.

End ImporterFusion.

(** ** What a run of the node loop leaves behind, whatever the host accepts *)

Section BuiltNodes.

Variable host : Host.
Variable rv : Value -> PyObj.

Lemma keeps_types_ret {A} (a : A) : keeps_types (ret a).
Proof. by intros t. Qed.

Lemma keeps_types_bind {A B} (c : M NodeTree.t A) (k : A -> M NodeTree.t B) :
  keeps_types c -> (forall a, keeps_types (k a)) -> keeps_types (bind c k).
Proof.
  intros Hc Hk t. unfold bind. specialize (Hc t).
  destruct (c t) as [[a|e] t1]; simpl in *; [|done].
  by rewrite Hk.
Qed.

Lemma keeps_types_for_each {X} (xs : list X) (body : X -> M NodeTree.t unit) :
  (forall x, keeps_types (body x)) -> keeps_types (for_each xs body).
Proof.
  intros Hbody. induction xs as [|x xs IH]; simpl.
  - apply keeps_types_ret.
  - apply keeps_types_bind; [apply Hbody|by intros _].
Qed.

Lemma keeps_types_on_node {A} n (c : M ShaderNode.t A) :
  (forall node, ShaderNode.bl_idname (c node).2 = ShaderNode.bl_idname node) ->
  keeps_types (on_node n c).
Proof.
  intros Hc t. unfold on_node.
  destruct (NodeTree.nodes t !! n) as [node|] eqn:Hn; [|done].
  specialize (Hc node). destruct (c node) as [r node']. simpl in *.
  unfold node_types. simpl. rewrite list_fmap_insert, Hc.
  apply list_insert_id. rewrite list_lookup_fmap. by rewrite Hn.
Qed.

Lemma keeps_types_list_getitem {X} (l : list X) i :
  keeps_types (list_getitem l i).
Proof. intros t. unfold list_getitem. by destruct (py_index l i). Qed.

Lemma keeps_types_links_new a b : keeps_types (links_new a b).
Proof.
  intros t. unfold links_new.
  by destruct (socket_is_output a), (socket_is_output b).
Qed.

Lemma keeps_types_node_setattr n property v :
  keeps_types (on_node n (node_setattr host property v)).
Proof.
  apply keeps_types_on_node. intros node. unfold node_setattr.
  destruct (node_has_attr _ _ _); [|done].
  by destruct (node_attr_value _ _ _ _).
Qed.

Lemma keeps_types_socket_set_default_value socket v :
  keeps_types (socket_set_default_value host socket v).
Proof.
  apply keeps_types_on_node. intros node.
  by destruct (socket_default_value _ _ _ _).
Qed.

Lemma keeps_types_node_inputs n name : keeps_types (node_inputs host n name).
Proof.
  apply keeps_types_on_node. intros node. by destruct (node_has_input _ _ _).
Qed.

Lemma keeps_types_node_outputs n name : keeps_types (node_outputs host n name).
Proof.
  apply keeps_types_on_node. intros node. by destruct (node_has_output _ _ _).
Qed.

(** A computation that only reads a node leaves the tree as it is. *)
Lemma on_node_read {A} n (c : M ShaderNode.t A) t :
  (forall node, (c node).2 = node) -> (on_node n c t).2 = t.
Proof.
  intros Hread. unfold on_node.
  destruct (NodeTree.nodes t !! n) as [node|] eqn:Hn; [|done].
  specialize (Hread node). destruct (c node) as [r node']. simpl in *.
  subst node'. rewrite list_insert_id by done. by destruct t.
Qed.

Lemma node_inputs_read n name t : (node_inputs host n name t).2 = t.
Proof.
  apply on_node_read. intros node. by destruct (node_has_input _ _ _).
Qed.

Lemma node_outputs_read n name t : (node_outputs host n name t).2 = t.
Proof.
  apply on_node_read. intros node. by destruct (node_has_output _ _ _).
Qed.

Lemma node_inputs_ok n name t r t' :
  node_inputs host n name t = (Ok r, t') -> r = mkSocket n false name /\ t' = t.
Proof.
  intros Hrun. pose proof (node_inputs_read n name t) as Hread.
  rewrite Hrun in Hread. simpl in Hread. split; [|done].
  unfold node_inputs, on_node in Hrun.
  destruct (NodeTree.nodes t !! n) as [node|]; [|done].
  destruct (node_has_input _ _ _); [|done]. by injection Hrun as <- _.
Qed.

Lemma node_outputs_ok n name t r t' :
  node_outputs host n name t = (Ok r, t') -> r = mkSocket n true name /\ t' = t.
Proof.
  intros Hrun. pose proof (node_outputs_read n name t) as Hread.
  rewrite Hrun in Hread. simpl in Hread. split; [|done].
  unfold node_outputs, on_node in Hrun.
  destruct (NodeTree.nodes t !! n) as [node|]; [|done].
  destruct (node_has_output _ _ _); [|done]. by injection Hrun as <- _.
Qed.

(** One iteration that returns has appended one node of the descriptor's
    type, and returns its position. *)
Lemma tree_node_built built_nodes node t n t' :
  tree_node host rv built_nodes node t = (Ok n, t') ->
  n = length (node_types t)
  /\ node_types t' = node_types t ++ [Node.blender_id node].
Proof.
  unfold tree_node. intros Hrun.
  apply bind_ok_inv in Hrun as (n0 & t1 & Hnew & Hrun).
  assert (n0 = length (node_types t)
          /\ node_types t1 = node_types t ++ [Node.blender_id node])
    as [-> Ht1].
  { unfold nodes_new in Hnew.
    destruct (node_type_known host (Node.blender_id node)); [|done].
    injection Hnew as <- <-. unfold node_types. simpl.
    by rewrite length_fmap, fmap_app. }
  rewrite <- Ht1.
  match type of Hrun with ?c t1 = _ => assert (keeps_types c) as Hkeep end.
  { apply keeps_types_bind; [by apply keeps_types_on_node|]. intros _.
    apply keeps_types_bind.
    { apply keeps_types_for_each. intros [property value].
      apply keeps_types_node_setattr. }
    intros _. apply keeps_types_bind.
    { apply keeps_types_for_each. intros [socket value]. cbv zeta.
      apply keeps_types_bind; [apply keeps_types_node_inputs|]. intros input.
      apply keeps_types_socket_set_default_value. }
    intros _. apply keeps_types_bind; [|intros _; apply keeps_types_ret].
    apply keeps_types_for_each. intros [socket link].
    apply keeps_types_bind; [apply keeps_types_list_getitem|]. intros ?.
    apply keeps_types_bind; [apply keeps_types_node_outputs|]. intros ?.
    cbv zeta.
    apply keeps_types_bind; [apply keeps_types_node_inputs|]. intros ?.
    apply keeps_types_links_new. }
  specialize (Hkeep t1). rewrite Hrun in Hkeep. simpl in Hkeep.
  split; [|done].
  apply bind_ok_inv in Hrun as (? & ? & _ & Hrun).
  apply bind_ok_inv in Hrun as (? & ? & _ & Hrun).
  apply bind_ok_inv in Hrun as (? & ? & _ & Hrun).
  apply bind_ok_inv in Hrun as (? & ? & _ & Hrun).
  by injection Hrun as <- _.
Qed.

(** A run of the loop that returns has appended one node per descriptor, in
    descriptor order, and returns their positions in that order. *)
Lemma tree_nodes_built nodes : forall built_nodes t built t',
  tree_nodes host rv nodes built_nodes t = (Ok built, t') ->
  built = built_nodes ++ seq (length (node_types t)) (length nodes)
  /\ node_types t' = node_types t ++ map Node.blender_id nodes.
Proof.
  induction nodes as [|node rest IH]; intros built_nodes t built t' Hrun.
  - injection Hrun as <- <-. simpl. by rewrite !app_nil_r.
  - simpl in Hrun. apply bind_ok_inv in Hrun as (n & t1 & Hnode & Hrun).
    apply tree_node_built in Hnode as [-> Ht1].
    apply IH in Hrun as [-> ->]. rewrite Ht1, length_app. simpl.
    rewrite <- !app_assoc. split; [|done]. do 2 f_equal.
    by rewrite Nat.add_1_r.
Qed.

(** *** Whatever the outcome: the node types and the links *)







Lemma keeps_links_list_getitem {X} (l : list X) i :
  keeps_links (list_getitem l i).
Proof. intros t Hlinks. unfold list_getitem. by destruct (py_index l i). Qed.







End BuiltNodes.

(** ** The beginning of [import_material] *)

Section Begin.

Variable host : Host.
Variable truncate_name : string -> string.

Lemma import_material_container_run material s :
  import_material_container truncate_name material s
  = (Ok (truncate_name (Material.name material)),
     put_material (truncate_name (Material.name material))
       (MaterialData.set_node_tree NodeTree.empty
          (MaterialData.set_use_nodes true
             (material_found truncate_name material s))) s).
Proof.
  unfold import_material_container, material_found, bind, materials_get.
  destruct (materials s !! truncate_name (Material.name material))
    as [m|] eqn:Hm.
  - simpl. rewrite (on_material_run _ _ _ m Hm). simpl.
    unfold on_tree.
    erewrite on_material_run by apply put_material_lookup. simpl.
    by rewrite put_material_put.
  - simpl.
    erewrite on_material_run by apply lookup_insert_eq. simpl.
    erewrite on_material_run by apply put_material_lookup. simpl.
    unfold on_tree.
    erewrite on_material_run by apply put_material_lookup. simpl.
    rewrite !put_material_put. unfold put_material, set_materials. simpl.
    by rewrite insert_insert_eq.
Qed.

(** The material-level properties never touch the tree. *)
Lemma material_properties_tree (rv : Value -> PyObj) properties : forall m,
  MaterialData.node_tree
    (for_each properties (fun '(property, value) =>
       material_setattr host property (rv value)) m).2
  = MaterialData.node_tree m.
Proof.
  induction properties as [|[property value] rest IH]; intros m; [done|].
  simpl. unfold bind, material_setattr.
  destruct (material_has_attr host property); [|done].
  destruct (material_attr_value host property (rv value)); [|done].
  by rewrite IH.
Qed.

Lemma material_begin_ok (rv : Value -> PyObj) properties m out_node m' :
  material_begin host rv properties m = (Ok out_node, m') ->
  out_node = 0%nat /\ MaterialData.node_tree m' = output_tree.
Proof.
  unfold material_begin, bind, modify. simpl.
  unfold in_node_tree at 1, nodes_new. simpl.
  destruct (node_type_known host "ShaderNodeOutputMaterial"); [|done]. simpl.
  match goal with
  | |- context [for_each properties ?body ?m0] =>
      pose proof (material_properties_tree rv properties m0) as Htree;
      destruct (for_each properties body m0) as [[[]|e] m1]
  end; [|done].
  simpl in Htree. intros [= <- <-]. by rewrite Htree.
Qed.

Lemma import_material_begin_run material s :
  let name := truncate_name (Material.name material) in
  let run :=
    material_begin host
      (resolve_in truncate_name (dom (images s)) (Material.texture_ext material))
      (BuiltData.properties (Material.data material))
      (material_found truncate_name material s) in
  import_material_begin host truncate_name material s
  = (match run.1 with Ok out_node => Ok (name, out_node) | Raise e => Raise e end,
     put_material name run.2 s).
Proof.
  intros name run. unfold import_material_begin.
  rewrite (bind_ok _ _ _ _ _ (import_material_container_run material s)).
  fold name.
  set (m0 := MaterialData.set_node_tree NodeTree.empty _).
  set (rv := resolve_in truncate_name (dom (images s))
               (Material.texture_ext material)) in *.
  match goal with
  | |- ?c _ = _ =>
      assert (fused name (dom (images s)) c
        (out_node <- in_node_tree (nodes_new host "ShaderNodeOutputMaterial") ;;
         in_node_tree
           (on_node out_node (modify (ShaderNode.set_location (300, 0)))) ;;
         for_each (BuiltData.properties (Material.data material))
           (fun '(property, value) => material_setattr host property (rv value)) ;;
         ret (name, out_node))) as Hfused
  end.
  { apply fused_bind; [apply fused_tree_on_tree|]. intros out_node.
    apply fused_bind; [apply fused_tree_on_tree|]. intros _.
    apply fused_bind; [|intros _; apply fused_ret].
    apply fused_for_each. intros [property value].
    apply fused_resolve_value, fused_on_material. }
  rewrite (Hfused _ m0); [|done|apply put_material_lookup].
  rewrite put_material_put. subst run.
  assert (material_begin host rv
            (BuiltData.properties (Material.data material))
            (material_found truncate_name material s)
          = (out_node <- in_node_tree (nodes_new host "ShaderNodeOutputMaterial") ;;
             in_node_tree
               (on_node out_node (modify (ShaderNode.set_location (300, 0)))) ;;
             for_each (BuiltData.properties (Material.data material))
               (fun '(property, value) =>
                  material_setattr host property (rv value)) ;;
             ret out_node) m0) as -> by reflexivity.
  unfold bind.
  destruct (in_node_tree (nodes_new host "ShaderNodeOutputMaterial") m0)
    as [[out_node|e] m1]; [|done].
  destruct (in_node_tree (on_node out_node _) m1) as [[[]|e] m2]; [|done].
  by destruct (for_each _ _ m2) as [[[]|e] m3].
Qed.

(** What a run of the beginning that returns has established. *)
Lemma import_material_begin_ok material s nt out_node s0 :
  import_material_begin host truncate_name material s = (Ok (nt, out_node), s0) ->
  nt = truncate_name (Material.name material)
  /\ out_node = 0%nat
  /\ dom (images s0) = dom (images s)
  /\ exists m, materials s0 !! nt = Some m
               /\ MaterialData.node_tree m = output_tree.
Proof.
  rewrite import_material_begin_run. cbv zeta.
  destruct (material_begin _ _ _ _) as [[out|e] m] eqn:Hbegin; [|done].
  simpl. intros [= <- <- <-].
  apply material_begin_ok in Hbegin as [-> Htree].
  split; [done|]. split; [done|]. split; [done|].
  exists m. split; [apply put_material_lookup|done].
Qed.

End Begin.

(** ** Link indices in range, as a statement about the descriptor list *)

Lemma forallb_true_Forall {X} (f : X -> bool) l :
  forallb f l = true <-> Forall (fun x => f x = true) l.
Proof.
  induction l as [|x l IH]; simpl.
  - split; [constructor|done].
  - rewrite andb_true_iff, Forall_cons. by rewrite IH.
Qed.

Lemma links_in_range_spec pos node :
  links_in_range pos node = true <->
  forall socket link, (socket, link) ∈ Node.socket_links node ->
    - Z.of_nat pos <= SocketLink.node_index link < Z.of_nat pos.
Proof.
  unfold links_in_range. rewrite forallb_true_Forall, Forall_forall. split.
  - intros Hall socket link Hin. apply index_in_range_spec.
    apply (Hall (socket, link) Hin).
  - intros Hall [socket link] Hin. apply index_in_range_spec. by eapply Hall.
Qed.

Lemma nodes_in_range_spec nodes : forall base,
  nodes_in_range base nodes = true <->
  forall p node socket link,
    nodes !! p = Some node -> (socket, link) ∈ Node.socket_links node ->
    - Z.of_nat (base + p) <= SocketLink.node_index link < Z.of_nat (base + p).
Proof.
  induction nodes as [|node rest IH]; intros base; simpl.
  - split; [by intros _ p node ? ? ?|done].
  - rewrite andb_true_iff, links_in_range_spec, IH. split.
    + intros [Hnode Hrest] [|p] node' socket link Hp Hin; simpl in Hp.
      * injection Hp as <-. rewrite Nat.add_0_r. by eapply Hnode.
      * replace (base + Datatypes.S p)%nat with (Datatypes.S base + p)%nat by lia.
        by eapply Hrest.
    + intros Hall. split.
      * intros socket link Hin.
        specialize (Hall 0%nat node socket link eq_refl Hin).
        by rewrite Nat.add_0_r in Hall.
      * intros p node' socket link Hp Hin.
        replace (Datatypes.S base + p)%nat with (base + Datatypes.S p)%nat by lia.
        by eapply (Hall (Datatypes.S p)).
Qed.

Lemma links_from_elem nodes : forall base p node item,
  nodes !! p = Some node -> item ∈ Node.socket_links node ->
  link_at (base + p) item ∈ links_from base nodes.
Proof.
  induction nodes as [|node0 rest IH]; intros base p node item Hp Hin; [done|].
  simpl. apply elem_of_app. destruct p as [|p]; simpl in Hp.
  - injection Hp as <-. left. rewrite Nat.add_0_r.
    by apply list_elem_of_fmap_2.
  - right. replace (base + Datatypes.S p)%nat with (Datatypes.S base + p)%nat by lia.
    by eapply IH.
Qed.

Lemma pair_eta_fst {X Y} (c : X * Y) x : c.1 = x -> c = (x, c.2).
Proof. intros <-. by destruct c. Qed.

Lemma raises_fst {S A} (c : M S A) s e : raises c s e -> (c s).1 = Raise e.
Proof. intros [s' ->]. done. Qed.

Lemma bind_assoc {S A B C} (c : M S A) (k : A -> M S B) (k' : B -> M S C) s :
  bind (bind c k) k' s = bind c (fun a => bind (k a) k') s.
Proof. unfold bind. by destruct (c s) as [[a|e] s1]. Qed.

(** ** The node graph (lines 58 to 82) *)

Section Graph.

Variable host : Host.
Variable truncate_name : string -> string.

(** From the state the beginning leaves, the graph code runs [tree_graph] on
    the tree that holds the output node. *)
Lemma import_material_graph_run material s nt out_node s0 :
  import_material_begin host truncate_name material s = (Ok (nt, out_node), s0) ->
  out_node = 0%nat /\
  exists m, materials s0 !! nt = Some m /\ forall texture_ext nodes,
    let run :=
      tree_graph host (resolve_in truncate_name (dom (images s0)) texture_ext)
        0 nodes output_tree in
    import_material_graph host truncate_name nt out_node texture_ext nodes s0
    = (run.1, put_material nt (MaterialData.set_node_tree run.2 m) s0).
Proof.
  intros (-> & -> & _ & m & Hm & Htree)%import_material_begin_ok.
  split; [done|]. exists m. split; [done|]. intros texture_ext nodes run.
  rewrite (import_material_graph_fused host truncate_name _ _ texture_ext
             0%nat nodes s0 m eq_refl Hm).
  by rewrite in_node_tree_run, Htree.
Qed.

Lemma import_material_nodes_run material s nt out_node s0 :
  import_material_begin host truncate_name material s = (Ok (nt, out_node), s0) ->
  exists m, materials s0 !! nt = Some m /\ forall texture_ext nodes,
    let run :=
      tree_nodes host (resolve_in truncate_name (dom (images s0)) texture_ext)
        nodes [] output_tree in
    import_material_nodes host truncate_name nt texture_ext nodes [] s0
    = (run.1, put_material nt (MaterialData.set_node_tree run.2 m) s0).
Proof.
  intros (-> & -> & _ & m & Hm & Htree)%import_material_begin_ok.
  exists m. split; [done|]. intros texture_ext nodes run.
  rewrite (import_material_nodes_fused host truncate_name _ _ texture_ext
             nodes [] s0 m eq_refl Hm).
  by rewrite in_node_tree_run, Htree.
Qed.

Lemma tree_of_put nt t m s :
  tree_of nt (put_material nt (MaterialData.set_node_tree t m) s) = Some t.
Proof. unfold tree_of. by rewrite put_material_lookup. Qed.

Lemma node_types_output_tree : node_types output_tree = ["ShaderNodeOutputMaterial"].
Proof. reflexivity. Qed.

(** The built nodes are the nodes 1, 2, ... of the tree and carry the
    descriptors' types in order. *)
Lemma built_nodes_types (nodes : list Node.t) t type :
  node_types t = type :: map Node.blender_id nodes ->
  Forall2 (fun r node => node_types t !! r = Some (Node.blender_id node))
    (seq 1 (length nodes)) nodes.
Proof.
  intros Hty. apply Forall2_same_length_lookup_2.
  - by rewrite length_seq.
  - intros i r node Hr Hnode. apply lookup_seq in Hr as [-> _].
    rewrite Hty. simpl. rewrite list_lookup_fmap. by rewrite Hnode.
Qed.

(** C1, as amended.  For every non-empty node-descriptor list that the host
    accepts (node types, properties, socket names, and the values of the
    properties and socket defaults as resolved), whose last node has a
    ["BSDF"] output, and in which each link index [i] at position [p]
    satisfies [-p <= i < p] (so every index [0 <= i < p] qualifies), the
    graph is built in one pass: there are exactly [len(nodes)] built nodes,
    they carry the descriptors' types in order, and the last built node is
    the shader node whose ["BSDF"] output is linked to the ["Surface"] input
    of the output node. *)
Theorem import_material_graph_topological material s nt out_node s0 :
  let nodes := BuiltData.nodes (Material.data material) in
  let rv := resolve_in truncate_name (dom (images s0))
              (Material.texture_ext material) in
  import_material_begin host truncate_name material s = (Ok (nt, out_node), s0) ->
  nodes <> [] ->
  graph_accepted host rv nodes = true ->
  (forall p node socket link,
     nodes !! p = Some node -> (socket, link) ∈ Node.socket_links node ->
     - Z.of_nat p <= SocketLink.node_index link < Z.of_nat p) ->
  exists built_nodes s1 t shader_node,
    import_material_graph host truncate_name nt out_node
      (Material.texture_ext material) nodes s0 = (Ok built_nodes, s1)
    /\ length built_nodes = length nodes
    /\ tree_of nt s1 = Some t
    /\ length (NodeTree.nodes t) = Datatypes.S (length nodes)
    /\ Forall2 (fun r node => node_types t !! r = Some (Node.blender_id node))
         built_nodes nodes
    /\ last built_nodes = Some shader_node
    /\ last (NodeTree.links t)
       = Some (NodeLink.mk shader_node "BSDF" out_node "Surface").
Proof.
  intros nodes rv Hbegin Hne Hacc Htopo.
  apply import_material_graph_run in Hbegin as (-> & m & Hm & Hrun).
  unfold graph_accepted in Hacc.
  apply andb_true_iff in Hacc as [Hacc Hsurface].
  apply andb_true_iff in Hacc as [Hacc Hbsdf].
  assert (nodes_in_range 0 nodes = true) as Hrange.
  { apply nodes_in_range_spec. intros p node socket link Hp Hin.
    by eapply Htopo. }
  pose proof (tree_graph_spec host rv
    "ShaderNodeOutputMaterial" nodes output_tree node_types_output_tree
    Hne Hacc Hbsdf Hsurface) as Hspec.
  rewrite Hrange in Hspec. destruct Hspec as (t & Htree & Hty & Hlinks).
  eexists (seq 1 (length nodes)), _, t, (length nodes).
  rewrite Hrun. fold rv. rewrite Htree. simpl. split; [done|].
  split; [by rewrite length_seq|].
  split; [apply tree_of_put|].
  split.
  { apply (f_equal length) in Hty. unfold node_types in Hty.
    rewrite length_fmap in Hty. simpl in Hty. by rewrite length_map in Hty. }
  split; [by eapply built_nodes_types|].
  split.
  { assert (length nodes <> 0%nat) by by destruct nodes.
    rewrite last_lookup, length_seq, lookup_seq_lt by lia. f_equal. lia. }
  rewrite Hlinks, link_all_app. simpl. apply last_snoc.
Qed.

End Graph.

Section GraphChecks.

Variable host : Host.
Variable truncate_name : string -> string.




(** C7, as amended.  An empty descriptor list raises the list's
    [IndexError] at line 80, from every registry; a list of one descriptor
    without links builds when the host accepts the descriptor (its type,
    properties, socket defaults and their values) and its node has a
    ["BSDF"] output. *)
Theorem import_material_graph_edge_cases :
  (forall nt out_node texture_ext s,
     import_material_graph host truncate_name nt out_node texture_ext [] s
     = (Raise IndexError, s))
  /\ (forall material s nt out_node s0 node,
        import_material_begin host truncate_name material s
          = (Ok (nt, out_node), s0) ->
        Node.socket_links node = [] ->
        graph_accepted host
          (resolve_in truncate_name (dom (images s0))
             (Material.texture_ext material)) [node] = true ->
        exists s1 t,
          import_material_graph host truncate_name nt out_node
            (Material.texture_ext material) [node] s0 = (Ok [1%nat], s1)
          /\ tree_of nt s1 = Some t
          /\ node_types t = ["ShaderNodeOutputMaterial"; Node.blender_id node]
          /\ NodeTree.links t = [NodeLink.mk 1 "BSDF" out_node "Surface"]).
Proof.
  split; [done|].
  intros material s nt out_node s0 node Hbegin Hlinks Hacc.
  apply import_material_graph_run in Hbegin as (-> & m & Hm & Hrun).
  unfold graph_accepted in Hacc.
  apply andb_true_iff in Hacc as [Hacc Hsurface].
  apply andb_true_iff in Hacc as [Hacc Hbsdf].
  pose proof (tree_graph_spec host
    (resolve_in truncate_name (dom (images s0)) (Material.texture_ext material))
    "ShaderNodeOutputMaterial" [node] output_tree node_types_output_tree
    ltac:(done) Hacc Hbsdf Hsurface) as Hspec.
  simpl in Hspec. unfold links_in_range in Hspec. rewrite Hlinks in Hspec.
  simpl in Hspec. destruct Hspec as (t & Htree & Hty & Hl).
  exists (put_material nt (MaterialData.set_node_tree t m) s0), t.
  rewrite Hrun, Htree. split; [done|]. split; [apply tree_of_put|]. done.
Qed.

End GraphChecks.

(** ** Which links a tree holds *)

Lemma link_insert_keeps l l' links :
  l ∈ links -> same_input l l' = false -> l ∈ link_insert l' links.
Proof.
  intros Hin Hdiff. unfold link_insert. apply elem_of_app. left.
  apply list_elem_of_In, filter_In. split; [by apply list_elem_of_In|].
  by rewrite Hdiff.
Qed.

Lemma link_insert_new l links : l ∈ link_insert l links.
Proof. unfold link_insert. apply elem_of_app. right. constructor. Qed.

(** A link stays in the tree as long as no later link ends in the same
    input. *)
Lemma link_all_keeps new : forall links l,
  l ∈ links ->
  Forall (fun l' => same_input l l' = false) new ->
  l ∈ link_all new links.
Proof.
  induction new as [|l' new IH]; intros links l Hin Hnew; [done|].
  apply Forall_cons in Hnew as [Hdiff Hnew]. simpl.
  apply IH; [|done]. by apply link_insert_keeps.
Qed.

Lemma same_input_false a b :
  NodeLink.to_node a <> NodeLink.to_node b
  \/ NodeLink.to_socket a <> NodeLink.to_socket b ->
  same_input a b = false.
Proof.
  intros Hdiff. unfold same_input. apply andb_false_iff.
  destruct Hdiff as [Hnode|Hsocket]; [left|right]; by apply bool_decide_eq_false.
Qed.

(** Links that end in pairwise different inputs are all kept, in the order
    they are made. *)
Lemma link_all_distinct new : forall links,
  NoDup (map (fun l => (NodeLink.to_node l, NodeLink.to_socket l)) (links ++ new)) ->
  link_all new links = links ++ new.
Proof.
  induction new as [|l new IH]; intros links Hnodup; simpl.
  { by rewrite app_nil_r. }
  assert (link_insert l links = links ++ [l]) as ->.
  { unfold link_insert. f_equal.
    rewrite map_app in Hnodup. apply NoDup_app in Hnodup as (_ & Hdisjoint & _).
    clear IH. induction links as [|l0 links IH]; [done|]. simpl.
    rewrite same_input_false.
    - simpl. f_equal. apply IH. intros x Hx. apply Hdisjoint. by right.
    - destruct (decide (NodeLink.to_node l0 = NodeLink.to_node l)) as [Hn|Hn];
        [|by left].
      right. intros Hs. apply (Hdisjoint (NodeLink.to_node l0, NodeLink.to_socket l0)).
      + by left.
      + rewrite Hn, Hs. simpl. by left. }
  rewrite IH; rewrite <- app_assoc; done.
Qed.

Lemma links_from_app pre post : forall base,
  links_from base (pre ++ post)
  = links_from base pre ++ links_from (base + length pre) post.
Proof.
  induction pre as [|node pre IH]; intros base; simpl.
  - by rewrite Nat.add_0_r.
  - rewrite IH, <- app_assoc. do 3 f_equal. lia.
Qed.

Lemma links_from_to_node nodes : forall base l,
  l ∈ links_from base nodes -> (base < NodeLink.to_node l)%nat.
Proof.
  induction nodes as [|node rest IH]; intros base l Hin; simpl in Hin.
  - by apply elem_of_nil in Hin.
  - apply elem_of_app in Hin as [Hin|Hin].
    + apply list_elem_of_fmap in Hin as (item & -> & _). simpl. lia.
    + apply IH in Hin. lia.
Qed.

(** In the tree of a graph that is built, the link of an item is there
    unless a later item of the same node ends in the same input. *)
Lemma links_built_elem nodes p node socket link :
  nodes !! p = Some node ->
  (socket, link) ∈ Node.socket_links node ->
  inputs_distinct node ->
  link_at p (socket, link)
  ∈ link_all
      (links_from 0 nodes ++ [NodeLink.mk (length nodes) "BSDF" 0%nat "Surface"])
      [].
Proof.
  intros Hp Hin Hdistinct.
  pose proof (take_drop_middle nodes p node Hp) as Hsplit.
  pose proof (lookup_lt_Some _ _ _ Hp) as Hlt.
  apply list_elem_of_split in Hin as (items1 & items2 & Hitems).
  rewrite <- Hsplit at 1. rewrite links_from_app. simpl.
  rewrite length_take, Nat.min_l by lia. rewrite Hitems, map_app. simpl.
  rewrite <- !app_assoc. rewrite (app_assoc (links_from 0 (take p nodes))).
  rewrite link_all_app. simpl.
  apply link_all_keeps; [apply link_insert_new|].
  unfold inputs_distinct in Hdistinct. rewrite Hitems, map_app in Hdistinct.
  apply NoDup_app in Hdistinct as (_ & _ & Hdistinct). simpl in Hdistinct.
  apply NoDup_cons in Hdistinct as [Hfresh _].
  rewrite !Forall_app. split; [|split].
  - apply Forall_forall. intros l (item & -> & Hitem)%list_elem_of_fmap.
    apply same_input_false. right. simpl. intros Heq. apply Hfresh.
    apply list_elem_of_fmap. by exists item.
  - apply Forall_forall. intros l Hl%links_from_to_node.
    apply same_input_false. left. simpl. lia.
  - apply Forall_singleton. by apply same_input_false; left.
Qed.

Section GraphIndices.

Variable host : Host.
Variable truncate_name : string -> string.

(** C9, as amended.  A link with a negative index [i] at position [p] is
    accepted exactly when [-p <= i]: then, in a list the host accepts and
    whose indices are all in range, the graph builds and the link is made
    from the node built at position [p + i], counted from the end of the
    nodes built so far ([-1] is the most recently built node); it is in the
    tree at the end unless a later link of the same node ends in the same
    input socket and replaces it.  With [i < -p] the lookup raises
    [IndexError]. *)
Theorem import_material_graph_negative_index material s nt out_node s0
    p node socket link :
  let nodes := BuiltData.nodes (Material.data material) in
  let texture_ext := Material.texture_ext material in
  let rv := resolve_in truncate_name (dom (images s0)) texture_ext in
  import_material_begin host truncate_name material s = (Ok (nt, out_node), s0) ->
  graph_accepted host rv nodes = true ->
  nodes !! p = Some node ->
  (socket, link) ∈ Node.socket_links node ->
  SocketLink.node_index link < 0 ->
  ((forall p' node' socket' link',
      nodes !! p' = Some node' -> (socket', link') ∈ Node.socket_links node' ->
      - Z.of_nat p' <= SocketLink.node_index link' < Z.of_nat p') ->
   exists built_nodes s1 t source target,
     import_material_graph host truncate_name nt out_node texture_ext nodes s0
       = (Ok built_nodes, s1)
     /\ tree_of nt s1 = Some t
     /\ built_nodes !! Z.to_nat (Z.of_nat p + SocketLink.node_index link)
        = Some source
     /\ built_nodes !! p = Some target
     /\ (inputs_distinct node ->
         NodeLink.mk source (SocketLink.socket link) target
           (resolve_input_socket socket) ∈ NodeTree.links t))
  /\ (SocketLink.node_index link < - Z.of_nat p ->
      (import_material_graph host truncate_name nt out_node texture_ext
         nodes s0).1 = Raise IndexError).
Proof.
  intros nodes texture_ext rv Hbegin Hacc Hp Hin Hneg.
  apply import_material_graph_run in Hbegin as (-> & m & Hm & Hrun).
  unfold graph_accepted in Hacc.
  apply andb_true_iff in Hacc as [Hacc Hsurface].
  apply andb_true_iff in Hacc as [Hacc Hbsdf].
  assert (nodes <> []) as Hne by (intros Hnil; by rewrite Hnil in Hp).
  split.
  - intros Htopo.
    assert (nodes_in_range 0 nodes = true) as Hrange.
    { apply nodes_in_range_spec. intros p' node' socket' link' Hp' Hin'.
      by eapply Htopo. }
    pose proof (tree_graph_spec host rv
      "ShaderNodeOutputMaterial" nodes output_tree node_types_output_tree
      Hne Hacc Hbsdf Hsurface) as Hspec.
    rewrite Hrange in Hspec. destruct Hspec as (t & Htree & Hty & Hlinks).
    pose proof (Htopo p node socket link Hp Hin) as Hidx.
    pose proof (lookup_lt_Some _ _ _ Hp) as Hlt.
    eexists (seq 1 (length nodes)), _, t, _, (Datatypes.S p).
    rewrite Hrun. fold rv. rewrite Htree. simpl. split; [done|].
    split; [apply tree_of_put|].
    split; [apply lookup_seq_lt; lia|].
    split; [by apply lookup_seq_lt|].
    intros Hdistinct. rewrite Hlinks. simpl.
    pose proof (links_built_elem nodes p node socket link Hp Hin Hdistinct)
      as Hel.
    unfold link_at, index_position in Hel. simpl in Hel.
    by replace (SocketLink.node_index link <? 0) with true in Hel by lia.
  - intros Hlow. rewrite Hrun. simpl. apply raises_fst.
    apply (tree_graph_raises _ _ "ShaderNodeOutputMaterial");
      [done|done|].
    apply not_true_iff_false. intros Hrange.
    pose proof (proj1 (nodes_in_range_spec nodes 0) Hrange
                  p node socket link Hp Hin). simpl in *. lia.
Qed.


End GraphIndices.

(** ** The resolvers *)

(** C8.  [resolve_input_socket] renames ["Specular"] and ["Emission"] and is
    the identity on every other name, ["Roughness"] among them. *)
Theorem resolve_input_socket_rename :
  resolve_input_socket "Specular" = "Specular IOR Level"
  /\ resolve_input_socket "Emission" = "Emission Color"
  /\ resolve_input_socket "Roughness" = "Roughness"
  /\ forall socket, socket <> "Specular" -> socket <> "Emission" ->
       resolve_input_socket socket = socket.
Proof.
  repeat split; try reflexivity.
  intros socket Hspecular Hemission.
  unfold resolve_input_socket, NODE_INPUT_SOCKET_MAP.
  rewrite !lookup_insert_ne by done. by rewrite lookup_empty.
Qed.

Section Resolver.

Variable truncate_name : string -> string.

(** C3, as amended.  For a [TextureRef] whose key (path + texture extension,
    truncated) names no registered image, [resolve_value] returns [None]
    without raising; for one whose key is registered it returns that image's
    handle; and for every value it leaves the registry as it was, so no
    image is ever created on demand. *)
Theorem resolve_value_missing_texture path texture_ext s :
  let texture_name := truncate_name (path +:+ texture_ext) in
  images s !! texture_name = None ->
  resolve_value truncate_name (TextureRef path) texture_ext s = (Ok PyNone, s)
  /\ (forall s' image, images s' !! texture_name = Some image ->
        resolve_value truncate_name (TextureRef path) texture_ext s'
        = (Ok (ImageRef texture_name), s'))
  /\ (forall value ext' s',
        (resolve_value truncate_name value ext' s').2 = s').
Proof.
  intros texture_name Hmiss. split; [|split].
  - simpl. unfold bind, images_get. fold texture_name. by rewrite Hmiss.
  - intros s' image Hhit. simpl. unfold bind, images_get. fold texture_name.
    by rewrite Hhit.
  - intros value ext' s'. by rewrite resolve_value_run.
Qed.

End Resolver.

(** ** The texture materializer *)

Section TextureMaterializer.

Variable host : Host.
Variable truncate_name : string -> string.

Lemma on_image_run {A} name (c : M Image.t A) s i :
  images s !! name = Some i ->
  on_image name c s
  = ((c i).1, set_images (<[name := (c i).2]> (images s)) s).
Proof. intros Hi. unfold on_image. rewrite Hi. by destruct (c i). Qed.

(** A texture whose key is registered: nothing happens. *)
Lemma import_texture_cached texture s :
  is_Some (images s
             !! truncate_name (Texture.name texture +:+ Texture.format_ext texture)) ->
  import_texture host truncate_name texture s = (Ok tt, s).
Proof.
  intros [i Hi]. unfold import_texture, bind, images_get. by rewrite Hi.
Qed.

(** A texture whose key is free and whose size the host does not accept:
    [images.new] raises and nothing is registered. *)
Lemma import_texture_rejected texture s e :
  let texture_name :=
    truncate_name (Texture.name texture +:+ Texture.format_ext texture) in
  images s !! texture_name = None ->
  images_new_error host (Texture.width texture) (Texture.height texture)
    = Some e ->
  import_texture host truncate_name texture s
  = (Raise e, log_call (ImagesNew texture_name) s).
Proof.
  intros texture_name Hfree Hnew.
  unfold import_texture, bind at 1, images_get. fold texture_name.
  rewrite Hfree. unfold bind at 1, images_new. by rewrite Hnew.
Qed.

(** A texture whose key is free, whose size the host accepts and whose
    extension [FORMAT_MAP] knows. *)
Lemma import_texture_fresh texture s file_format :
  let texture_name :=
    truncate_name (Texture.name texture +:+ Texture.format_ext texture) in
  images s !! texture_name = None ->
  images_new_error host (Texture.width texture) (Texture.height texture)
    = None ->
  FORMAT_MAP !! Texture.format_ext texture = Some file_format ->
  import_texture host truncate_name texture s
  = (Ok tt,
     mkBlendData
       (<[texture_name := imported_image host file_format texture]> (images s))
       (materials s)
       (calls s ++ [ImagesNew texture_name;
                    ImagePack texture_name (length (Texture.bytes texture))])).
Proof.
  intros texture_name Hfree Hnew Hformat.
  unfold import_texture, bind at 1, images_get. fold texture_name.
  rewrite Hfree. unfold bind at 1, images_new. rewrite Hnew.
  unfold bind at 1, dict_getitem. rewrite Hformat. unfold ret at 1.
  unfold bind at 1. erewrite on_image_run by apply lookup_insert_eq.
  unfold bind at 1, image_set_source.
  erewrite on_image_run by apply lookup_insert_eq.
  unfold bind at 1, image_pack, bind at 1.
  erewrite on_image_run by apply lookup_insert_eq.
  unfold modify at 1 2. simpl.
  erewrite on_image_run by apply lookup_insert_eq. simpl.
  unfold set_images, log_call. simpl.
  rewrite !insert_insert_eq, firstn_all, <- app_assoc. reflexivity.
Qed.

(** An extension outside [FORMAT_MAP] raises [KeyError] at line 30, after
    the image has been created and before any byte is uploaded. *)
Lemma import_texture_unknown_format texture s :
  let texture_name :=
    truncate_name (Texture.name texture +:+ Texture.format_ext texture) in
  images s !! texture_name = None ->
  images_new_error host (Texture.width texture) (Texture.height texture)
    = None ->
  FORMAT_MAP !! Texture.format_ext texture = None ->
  import_texture host truncate_name texture s
  = (Raise (KeyError (Texture.format_ext texture)),
     mkBlendData
       (<[texture_name :=
            Image.new (Texture.width texture) (Texture.height texture) true]>
          (images s))
       (materials s) (calls s ++ [ImagesNew texture_name])).
Proof.
  intros texture_name Hfree Hnew Hformat.
  unfold import_texture, bind at 1, images_get. fold texture_name.
  rewrite Hfree. unfold bind at 1, images_new. rewrite Hnew.
  unfold bind at 1, dict_getitem. by rewrite Hformat.
Qed.

(** C5, as amended.  A texture whose key already names an image leaves the
    registry and the call log as they are: no image is created, no byte
    uploaded, no dimension compared.  Two calls with the same descriptor,
    from a registry where the key is free, make exactly one [images.new] and
    one [pack] between them when the host accepts the size and [FORMAT_MAP]
    knows the extension; the second call changes nothing. *)
Theorem import_texture_idempotent texture :
  let texture_name :=
    truncate_name (Texture.name texture +:+ Texture.format_ext texture) in
  (forall s, is_Some (images s !! texture_name) ->
     import_texture host truncate_name texture s = (Ok tt, s))
  /\ (forall s, images s !! texture_name = None ->
        images_new_error host (Texture.width texture) (Texture.height texture)
          = None ->
        is_Some (FORMAT_MAP !! Texture.format_ext texture) ->
        let first := import_texture host truncate_name texture s in
        let second := import_texture host truncate_name texture first.2 in
        first.1 = Ok tt
        /\ second = (Ok tt, first.2)
        /\ calls second.2
           = calls s ++ [ImagesNew texture_name;
                         ImagePack texture_name (length (Texture.bytes texture))]
        /\ count_images_new (calls second.2) = Datatypes.S (count_images_new (calls s))
        /\ count_image_pack (calls second.2) = Datatypes.S (count_image_pack (calls s))).
Proof.
  intros texture_name. split; [apply import_texture_cached|].
  intros s Hfree Hnew [file_format Hformat] first second.
  subst first second.
  rewrite (import_texture_fresh texture s file_format Hfree Hnew Hformat).
  fold texture_name. simpl.
  rewrite import_texture_cached
    by (simpl; fold texture_name; rewrite lookup_insert_eq; by eexists).
  split; [done|]. split; [done|]. split; [done|].
  unfold count_images_new, count_image_pack. cbn [snd calls].
  rewrite !List.filter_app, !length_app. simpl. split; lia.
Qed.


End TextureMaterializer.

(** ** Building the same material twice *)

Section MaterialLevel.

Variable host : Host.
Variable rv : Value -> PyObj.

Lemma material_setattr_run property v m :
  material_setattr host property v m
  = (match material_attr_result host property v with
     | Ok _ => Ok tt
     | Raise e => Raise e
     end,
     MaterialData.set_attrs
       (store (material_attr_result host property v) property
          (MaterialData.attrs m)) m).
Proof.
  unfold material_setattr, material_attr_result.
  destruct (material_has_attr host property); [|by destruct m].
  destruct (material_attr_value host property v); [done|by destruct m].
Qed.

Lemma material_properties_run properties : forall m,
  for_each properties (fun '(property, value) =>
    material_setattr host property (rv value)) m
  = (properties_result host rv properties,
     MaterialData.set_attrs
       (apply_properties host rv properties (MaterialData.attrs m)) m).
Proof.
  induction properties as [|[property value] rest IH]; intros m.
  - by destruct m.
  - simpl. unfold bind. rewrite material_setattr_run.
    destruct (material_attr_result host property (rv value)); [|done].
    by rewrite IH.
Qed.

Lemma apply_properties_union properties : forall attrs,
  apply_properties host rv properties attrs
  = apply_properties host rv properties ∅ ∪ attrs.
Proof.
  induction properties as [|[property value] rest IH]; intros attrs; simpl.
  - by rewrite (left_id_L ∅ (∪)).
  - destruct (material_attr_result host property (rv value)) as [stored|e];
      [|by rewrite (left_id_L ∅ (∪))].
    rewrite (IH (<[property:=stored]> attrs)),
      (IH (<[property:=stored]> ∅)).
    rewrite <- (assoc_L (∪)). f_equal.
    rewrite <- insert_union_l. by rewrite (left_id_L ∅ (∪)).
Qed.

(** The attributes of a material after line 45 and the property loop. *)
Lemma apply_properties_lookup properties attrs key :
  apply_properties host rv properties (<["use_nodes" := PyBool true]> attrs)
    !! key
  = match apply_properties host rv properties ∅ !! key with
    | Some v => Some v
    | None => if decide (key = "use_nodes") then Some (PyBool true)
              else attrs !! key
    end.
Proof.
  rewrite apply_properties_union, lookup_union.
  destruct (apply_properties host rv properties ∅ !! key) as [v|].
  - by destruct (<["use_nodes" := PyBool true]> attrs !! key).
  - rewrite (left_id_L None union).
    destruct (decide (key = "use_nodes")) as [->|Hne].
    + by rewrite lookup_insert_eq.
    + by rewrite lookup_insert_ne.
Qed.

Lemma apply_properties_idem properties attrs :
  apply_properties host rv properties
    (<["use_nodes" := PyBool true]>
       (apply_properties host rv properties
          (<["use_nodes" := PyBool true]> attrs)))
  = apply_properties host rv properties (<["use_nodes" := PyBool true]> attrs).
Proof.
  apply map_eq. intros key. rewrite !apply_properties_lookup.
  destruct (apply_properties host rv properties ∅ !! key) as [v|]; [done|].
  by destruct (decide (key = "use_nodes")).
Qed.

Lemma material_begin_run properties m :
  material_begin host rv properties m
  = if node_type_known host "ShaderNodeOutputMaterial"
    then (match properties_result host rv properties with
          | Ok _ => Ok 0%nat
          | Raise e => Raise e
          end,
          MaterialData.mk (MaterialData.custom m)
            (apply_properties host rv properties
               (<["use_nodes" := PyBool true]> (MaterialData.attrs m)))
            output_tree)
    else (Raise (RuntimeError "ShaderNodeOutputMaterial"),
          MaterialData.mk (MaterialData.custom m)
            (<["use_nodes" := PyBool true]> (MaterialData.attrs m))
            NodeTree.empty).
Proof.
  unfold material_begin, bind, modify. simpl.
  unfold in_node_tree at 1, nodes_new. simpl.
  destruct (node_type_known host "ShaderNodeOutputMaterial"); [|done]. simpl.
  rewrite material_properties_run. simpl.
  by destruct (properties_result host rv properties) as [[]|e].
Qed.

(** The outcome and the tree of the build do not depend on the material it
    starts from, and the attributes depend on it through
    [apply_properties] only. *)
Lemma material_build_run properties nodes m :
  material_build host rv properties nodes m
  = if node_type_known host "ShaderNodeOutputMaterial"
    then match properties_result host rv properties with
         | Ok _ =>
             ((tree_graph host rv 0 nodes output_tree).1,
              MaterialData.mk (MaterialData.custom m)
                (apply_properties host rv properties
                   (<["use_nodes" := PyBool true]> (MaterialData.attrs m)))
                (tree_graph host rv 0 nodes output_tree).2)
         | Raise e =>
             (Raise e,
              MaterialData.mk (MaterialData.custom m)
                (apply_properties host rv properties
                   (<["use_nodes" := PyBool true]> (MaterialData.attrs m)))
                output_tree)
         end
    else (Raise (RuntimeError "ShaderNodeOutputMaterial"),
          MaterialData.mk (MaterialData.custom m)
            (<["use_nodes" := PyBool true]> (MaterialData.attrs m))
            NodeTree.empty).
Proof.
  unfold material_build, bind. rewrite material_begin_run.
  destruct (node_type_known host "ShaderNodeOutputMaterial"); [|done].
  destruct (properties_result host rv properties) as [[]|e]; [|done].
  by rewrite in_node_tree_run.
Qed.

Lemma material_build_idem properties nodes m :
  material_build host rv properties nodes (material_build host rv properties nodes m).2
  = material_build host rv properties nodes m.
Proof.
  rewrite !material_build_run.
  destruct (node_type_known host "ShaderNodeOutputMaterial").
  - destruct (properties_result host rv properties) as [[]|e]; simpl;
      by rewrite apply_properties_idem.
  - simpl. by rewrite insert_insert_eq.
Qed.

End MaterialLevel.

Section ColorSpaces.

Variable truncate_name : string -> string.
Variable texture_ext : string.

Lemma set_images_id s : set_images (images s) s = s.
Proof. by destruct s. Qed.

Lemma import_material_color_spaces_run texture_color_spaces : forall s,
  import_material_color_spaces truncate_name texture_ext texture_color_spaces s
  = (color_spaces_result truncate_name texture_ext texture_color_spaces (images s),
     set_images (recolor truncate_name texture_ext texture_color_spaces (images s)) s).
Proof.
  unfold import_material_color_spaces.
  induction texture_color_spaces as [|[texture_name color_space] rest IH];
    intros s; simpl.
  - by rewrite set_images_id.
  - unfold bind at 1 2, images_getitem.
    destruct (images s !! truncate_name (texture_name +:+ texture_ext))
      as [i|] eqn:Hi; [|by rewrite set_images_id].
    rewrite (on_image_run _ _ _ i Hi). simpl. by rewrite IH.
Qed.

Lemma paint_paint cs i : paint cs (paint cs i) = paint cs i.
Proof. by destruct cs. Qed.

(** What the loop does to one image depends on the registered names only. *)
Lemma recolor_lookup texture_color_spaces : forall imgs name,
  exists cs, forall imgs',
    dom imgs' = dom imgs ->
    recolor truncate_name texture_ext texture_color_spaces imgs' !! name = paint cs <$> imgs' !! name
    /\ color_spaces_result truncate_name texture_ext texture_color_spaces imgs'
       = color_spaces_result truncate_name texture_ext texture_color_spaces imgs.
Proof.
  induction texture_color_spaces as [|[texture_name color_space] rest IH];
    intros imgs name.
  { exists None. intros imgs' _. simpl. by rewrite option_fmap_id. }
  simpl. set (image_name := truncate_name (texture_name +:+ texture_ext)).
  destruct (imgs !! image_name) as [i|] eqn:Hi.
  - destruct (IH (<[image_name := Image.set_colorspace color_space i]> imgs) name)
      as [cs Hcs].
    exists (if decide (image_name = name)
            then Some (default color_space cs) else cs).
    intros imgs' Hdom.
    assert (is_Some (imgs' !! image_name)) as [i' Hi'].
    { apply elem_of_dom. rewrite Hdom. apply elem_of_dom. by eexists. }
    rewrite Hi'.
    destruct (Hcs (<[image_name := Image.set_colorspace color_space i']> imgs'))
      as [Hlookup Hresult].
    { rewrite !dom_insert_L. by rewrite Hdom. }
    split; [|done]. rewrite Hlookup.
    destruct (decide (image_name = name)) as [<-|Hne].
    + rewrite lookup_insert_eq, Hi'. simpl. by destruct cs.
    + by rewrite lookup_insert_ne.
  - exists None. intros imgs' Hdom.
    assert (imgs' !! image_name = None) as ->.
    { apply not_elem_of_dom. rewrite Hdom. by apply not_elem_of_dom. }
    by rewrite option_fmap_id.
Qed.

Lemma recolor_dom texture_color_spaces imgs :
  dom (recolor truncate_name texture_ext texture_color_spaces imgs) = dom imgs.
Proof.
  apply set_eq. intros name. rewrite !elem_of_dom.
  destruct (recolor_lookup texture_color_spaces imgs name) as [cs Hcs].
  destruct (Hcs imgs eq_refl) as [-> _]. by rewrite fmap_is_Some.
Qed.

Lemma recolor_idem texture_color_spaces imgs :
  recolor truncate_name texture_ext texture_color_spaces (recolor truncate_name texture_ext texture_color_spaces imgs)
  = recolor truncate_name texture_ext texture_color_spaces imgs
  /\ color_spaces_result truncate_name texture_ext texture_color_spaces (recolor truncate_name texture_ext texture_color_spaces imgs)
     = color_spaces_result truncate_name texture_ext texture_color_spaces imgs.
Proof.
  split.
  - apply map_eq. intros name.
    destruct (recolor_lookup texture_color_spaces imgs name) as [cs Hcs].
    destruct (Hcs _ (recolor_dom texture_color_spaces imgs)) as [-> _].
    destruct (Hcs imgs eq_refl) as [-> _].
    rewrite <- option_fmap_compose. apply option_fmap_ext.
    intros i. apply paint_paint.
  - destruct (recolor_lookup texture_color_spaces imgs "") as [cs Hcs].
    by destruct (Hcs _ (recolor_dom texture_color_spaces imgs)) as [_ ->].
Qed.

End ColorSpaces.

Section Rebuild.

Variable host : Host.
Variable truncate_name : string -> string.

Lemma tree_graph_built (rv : Value -> PyObj) out_node nodes t built t' :
  tree_graph host rv out_node nodes t = (Ok built, t') ->
  built = seq (length (node_types t)) (length nodes)
  /\ node_types t' = node_types t ++ map Node.blender_id nodes.
Proof.
  unfold tree_graph. intros Hrun.
  apply bind_ok_inv in Hrun as (built0 & t1 & Hnodes & Hrun).
  apply tree_nodes_built in Hnodes as [-> Ht1]. rewrite <- Ht1.
  match type of Hrun with ?c t1 = _ => assert (keeps_types c) as Hkeep end.
  { apply keeps_types_bind; [apply keeps_types_list_getitem|]. intros ?.
    apply keeps_types_bind; [apply keeps_types_node_outputs|]. intros ?.
    apply keeps_types_bind; [apply keeps_types_node_inputs|]. intros ?.
    apply keeps_types_bind; [apply keeps_types_links_new|]. intros _.
    apply keeps_types_ret. }
  specialize (Hkeep t1). rewrite Hrun in Hkeep. split; [|done].
  apply bind_ok_inv in Hrun as (? & ? & _ & Hrun).
  apply bind_ok_inv in Hrun as (? & ? & _ & Hrun).
  apply bind_ok_inv in Hrun as (? & ? & _ & Hrun).
  apply bind_ok_inv in Hrun as (? & ? & _ & Hrun).
  by injection Hrun as <- _.
Qed.

(** [import_material] runs [material_build] on the material it finds or
    creates and, if that returns, the colour-space loop. *)
Lemma import_material_run material s :
  let name := truncate_name (Material.name material) in
  let texture_ext := Material.texture_ext material in
  let built_data := Material.data material in
  let run :=
    material_build host (resolve_in truncate_name (dom (images s)) texture_ext)
      (BuiltData.properties built_data) (BuiltData.nodes built_data)
      (material_found truncate_name material s) in
  import_material host truncate_name material s
  = match run.1 with
    | Ok _ =>
        import_material_color_spaces truncate_name texture_ext
          (BuiltData.texture_color_spaces built_data)
          (put_material name run.2 s)
    | Raise e => (Raise e, put_material name run.2 s)
    end.
Proof.
  intros name texture_ext built_data run. subst run.
  unfold import_material. unfold bind at 1.
  rewrite import_material_begin_run. cbv zeta.
  fold name texture_ext built_data. unfold material_build.
  destruct (material_begin _ _ _ _) as [[out_node|e] mb] eqn:Hbegin;
    [rewrite (bind_ok _ _ _ _ _ Hbegin)
    |by rewrite (bind_raise _ _ _ _ _ Hbegin)].
  simpl. unfold bind at 1.
  rewrite (import_material_graph_fused host truncate_name name
             (dom (images s)) texture_ext out_node (BuiltData.nodes built_data)
             (put_material name mb s) mb eq_refl (put_material_lookup _ _ _)).
  rewrite put_material_put.
  by destruct (in_node_tree _ mb) as [[built|e] m2].
Qed.

Lemma set_images_put v name m s :
  set_images v (put_material name m s) = put_material name m (set_images v s).
Proof. done. Qed.

Lemma material_found_put material m s :
  material_found truncate_name material
    (put_material (truncate_name (Material.name material)) m s) = m.
Proof. unfold material_found. by rewrite put_material_lookup. Qed.

(** C4.  Building the same material twice is idempotent on the registry:
    the second build has the outcome of the first and leaves the registry,
    the material's node tree included, exactly as the first left it.  The
    material is the one registered under the derived key, which is the only
    name the build adds; the container step empties the node tree whatever
    it held; and after a build that returns, the tree holds the output node
    and one node per descriptor, in order. *)
Theorem import_material_idempotent material s :
  let name := truncate_name (Material.name material) in
  let nodes := BuiltData.nodes (Material.data material) in
  let first := import_material host truncate_name material s in
  let second := import_material host truncate_name material first.2 in
  second = first
  /\ is_Some (materials first.2 !! name)
  /\ dom (materials first.2) = {[name]} ∪ dom (materials s)
  /\ (forall s',
        tree_of name (import_material_container truncate_name material s').2
        = Some NodeTree.empty)
  /\ (first.1 = Ok tt ->
      exists t, tree_of name first.2 = Some t
                /\ node_types t
                   = "ShaderNodeOutputMaterial" :: map Node.blender_id nodes).
Proof.
  intros name nodes first second. subst first second.
  set (texture_ext := Material.texture_ext material).
  set (tcs := BuiltData.texture_color_spaces (Material.data material)).
  set (properties := BuiltData.properties (Material.data material)).
  pose proof (import_material_run material s) as Hfirst. cbv zeta in Hfirst.
  fold name texture_ext tcs properties nodes in Hfirst.
  set (rv := resolve_in truncate_name (dom (images s)) texture_ext) in *.
  set (m0 := material_found truncate_name material s) in *.
  pose proof (material_build_idem host rv properties nodes m0) as Hidem.
  destruct (material_build host rv properties nodes m0) as [r m1] eqn:Hbuild.
  simpl in Hidem, Hfirst.
  assert (exists r1 imgs1,
            import_material host truncate_name material s
            = (r1, set_images imgs1 (put_material name m1 s))
            /\ dom imgs1 = dom (images s)
            /\ import_material host truncate_name material
                 (set_images imgs1 (put_material name m1 s))
               = (r1, set_images imgs1 (put_material name m1 s))
            /\ (r1 = Ok tt -> exists built, r = Ok built)) as
    (r1 & imgs1 & Hrun1 & Hdom & Hrun2 & Hok).
  { destruct r as [built|e].
    - rewrite import_material_color_spaces_run in Hfirst. simpl in Hfirst.
      eexists _, _. split; [exact Hfirst|].
      split; [apply recolor_dom|]. split; [|by eexists].
      rewrite import_material_run. cbv zeta.
      fold name texture_ext tcs properties nodes. simpl.
      rewrite recolor_dom. fold rv. rewrite !set_images_put.
      rewrite material_found_put, Hidem. simpl.
      rewrite put_material_put, import_material_color_spaces_run. simpl.
      destruct (recolor_idem truncate_name texture_ext tcs (images s))
        as [-> ->].
      done.
    - exists (Raise e), (images s). rewrite set_images_put, set_images_id.
      split; [exact Hfirst|]. split; [done|]. split; [|done].
      rewrite import_material_run. cbv zeta.
      fold name texture_ext tcs properties nodes. simpl. fold rv.
      rewrite material_found_put, Hidem. simpl.
      by rewrite put_material_put. }
  rewrite Hrun1. simpl. split; [by rewrite Hrun2|].
  split; [rewrite lookup_insert_eq; by eexists|].
  split; [apply dom_insert_L|].
  split.
  { intros s'. rewrite import_material_container_run. apply tree_of_put. }
  intros Hr1. destruct (Hok Hr1) as [built ->].
  unfold material_build in Hbuild.
  apply bind_ok_inv in Hbuild as (out_node & mb & Hbegin & Hgraph).
  apply material_begin_ok in Hbegin as [-> Htree].
  rewrite in_node_tree_run, Htree in Hgraph.
  destruct (tree_graph host rv 0 nodes output_tree) as [rg tg] eqn:Htg.
  simpl in Hgraph. injection Hgraph as -> <-.
  apply tree_graph_built in Htg as [_ Hty].
  exists tg. split; [|done].
  rewrite set_images_put. apply tree_of_put.
Qed.

End Rebuild.

(** * Worked examples *)

Lemma demo_begin material nt :
  (import_material_begin demo_host demo_truncate_name material
     empty_registry).1 = Ok (nt, 0%nat) ->
  import_material_begin demo_host demo_truncate_name material empty_registry
  = (Ok (nt, 0%nat), demo_entry material).
Proof. apply pair_eta_fst. Qed.

Lemma demo_topological nodes :
  nodes_in_range 0 nodes = true ->
  forall p node socket link,
    nodes !! p = Some node -> (socket, link) ∈ Node.socket_links node ->
    - Z.of_nat p <= SocketLink.node_index link < Z.of_nat p.
Proof. intros Hrange. by apply (nodes_in_range_spec nodes 0). Qed.

(** C1 on the two-node material: a texture node and a shader node linked to
    it by index 0. *)
Lemma import_material_graph_topological_witness :
  exists built_nodes s1 t shader_node,
    import_material_graph demo_host demo_truncate_name "metal/plate01" 0 ".png"
      [demo_tex_image; demo_principled] (demo_entry demo_material)
      = (Ok built_nodes, s1)
    /\ length built_nodes = 2%nat
    /\ tree_of "metal/plate01" s1 = Some t
    /\ length (NodeTree.nodes t) = 3%nat
    /\ Forall2 (fun r node => node_types t !! r = Some (Node.blender_id node))
         built_nodes [demo_tex_image; demo_principled]
    /\ last built_nodes = Some shader_node
    /\ last (NodeTree.links t)
       = Some (NodeLink.mk shader_node "BSDF" 0 "Surface").
Proof.
  apply (import_material_graph_topological demo_host demo_truncate_name
           demo_material empty_registry "metal/plate01" 0%nat
           (demo_entry demo_material)).
  - apply demo_begin. vm_compute. reflexivity.
  - discriminate.
  - vm_compute. reflexivity.
  - apply demo_topological. vm_compute. reflexivity.
Defined.

(** C1 as stated fails on the empty list: no link breaks the order, and the
    build raises [IndexError]. *)
Lemma import_material_graph_topological_counterexample :
  (forall p node socket link,
     BuiltData.nodes (Material.data demo_empty_material) !! p = Some node ->
     (socket, link) ∈ Node.socket_links node ->
     SocketLink.node_index link < Z.of_nat p)
  /\ import_material_begin demo_host demo_truncate_name demo_empty_material
       empty_registry
     = (Ok ("dev/empty", 0%nat), demo_entry demo_empty_material)
  /\ import_material_graph demo_host demo_truncate_name "dev/empty" 0 ".png"
       (BuiltData.nodes (Material.data demo_empty_material))
       (demo_entry demo_empty_material)
     = (Raise IndexError, demo_entry demo_empty_material)
  /\ (import_material demo_host demo_truncate_name demo_empty_material
        empty_registry).1 = Raise IndexError.
Proof.
  split; [by intros p node socket link Hp|].
  split; [apply demo_begin; vm_compute; reflexivity|].
  split; [reflexivity|]. vm_compute. reflexivity.
Qed.



(** C7 on the material with a single shader node. *)
Lemma import_material_graph_edge_cases_witness :
  import_material_graph demo_host demo_truncate_name "dev/empty" 0 ".png" []
    (demo_entry demo_empty_material)
  = (Raise IndexError, demo_entry demo_empty_material)
  /\ exists s1 t,
       import_material_graph demo_host demo_truncate_name "dev/single" 0 ".png"
         [demo_single] (demo_entry demo_single_material) = (Ok [1%nat], s1)
       /\ tree_of "dev/single" s1 = Some t
       /\ node_types t = ["ShaderNodeOutputMaterial"; "ShaderNodeBsdfPrincipled"]
       /\ NodeTree.links t = [NodeLink.mk 1 "BSDF" 0 "Surface"].
Proof.
  destruct (import_material_graph_edge_cases demo_host demo_truncate_name)
    as [Hempty Hsingle].
  split; [apply Hempty|].
  apply (Hsingle demo_single_material empty_registry "dev/single" 0%nat
           (demo_entry demo_single_material) demo_single).
  - apply demo_begin. vm_compute. reflexivity.
  - reflexivity.
  - vm_compute. reflexivity.
Defined.

(** C7 as stated fails for a list of length 1 without links whose node has
    no ["BSDF"] output: a single texture node raises [KeyError] at line
    82. *)
Lemma import_material_graph_edge_cases_counterexample :
  BuiltData.nodes (Material.data demo_texture_only_material) = [demo_tex_image]
  /\ Node.socket_links demo_tex_image = []
  /\ import_material_begin demo_host demo_truncate_name
       demo_texture_only_material empty_registry
     = (Ok ("dev/texture", 0%nat), demo_entry demo_texture_only_material)
  /\ (import_material_graph demo_host demo_truncate_name "dev/texture" 0 ".png"
        [demo_tex_image] (demo_entry demo_texture_only_material)).1
     = Raise (KeyError "BSDF")
  /\ (import_material demo_host demo_truncate_name
        demo_texture_only_material empty_registry).1 = Raise (KeyError "BSDF").
Proof.
  split; [reflexivity|]. split; [reflexivity|].
  split; [apply demo_begin; vm_compute; reflexivity|].
  split; vm_compute; reflexivity.
Qed.

(** C9 on the shader node linked by index -1 to the texture node built just
    before it. *)
Lemma import_material_graph_negative_index_witness :
  exists built_nodes s1 t source target,
    import_material_graph demo_host demo_truncate_name "dev/backward" 0 ".png"
      [demo_tex_image; demo_backward_link] (demo_entry demo_backward_material)
      = (Ok built_nodes, s1)
    /\ tree_of "dev/backward" s1 = Some t
    /\ built_nodes !! 0%nat = Some source
    /\ built_nodes !! 1%nat = Some target
    /\ NodeLink.mk source "Color" target "Base Color" ∈ NodeTree.links t.
Proof.
  destruct (import_material_graph_negative_index demo_host demo_truncate_name
              demo_backward_material empty_registry "dev/backward" 0%nat
              (demo_entry demo_backward_material) 1%nat demo_backward_link
              "Base Color" (SocketLink.mk (-1) "Color"))
    as [Hbuilds _].
  - apply demo_begin. vm_compute. reflexivity.
  - vm_compute. reflexivity.
  - reflexivity.
  - simpl. constructor.
  - simpl. lia.
  - destruct Hbuilds
      as (built_nodes & s1 & t & source & target
          & Hrun & Htree & Hsource & Htarget & Hlink).
    { apply demo_topological. vm_compute. reflexivity. }
    exists built_nodes, s1, t, source, target.
    split; [exact Hrun|]. split; [exact Htree|]. split; [exact Hsource|].
    split; [exact Htarget|]. apply Hlink.
    unfold inputs_distinct. simpl. apply NoDup_singleton.
Defined.

(** C9 as stated fails for the index -1 at position 0: nothing is built yet
    and the lookup raises [IndexError]. *)
Lemma import_material_graph_negative_index_counterexample :
  BuiltData.nodes (Material.data demo_backward_first_material)
    = [demo_backward_link]
  /\ Node.socket_links demo_backward_link
     = [("Base Color", SocketLink.mk (-1) "Color")]
  /\ import_material_begin demo_host demo_truncate_name
       demo_backward_first_material empty_registry
     = (Ok ("dev/first", 0%nat), demo_entry demo_backward_first_material)
  /\ (import_material_graph demo_host demo_truncate_name "dev/first" 0 ".png"
        [demo_backward_link] (demo_entry demo_backward_first_material)).1
     = Raise IndexError
  /\ (import_material demo_host demo_truncate_name
        demo_backward_first_material empty_registry).1 = Raise IndexError.
Proof.
  split; [reflexivity|]. split; [reflexivity|].
  split; [apply demo_begin; vm_compute; reflexivity|].
  split; vm_compute; reflexivity.
Qed.


(** C8 on a name outside the rename table. *)
Lemma resolve_input_socket_rename_witness :
  resolve_input_socket "Base Color" = "Base Color".
Proof.
  apply (proj2 (proj2 (proj2 resolve_input_socket_rename))); discriminate.
Defined.

(** C3 on the texture reference of the examples, before its texture has been
    materialized. *)
Lemma resolve_value_missing_texture_witness :
  resolve_value demo_truncate_name (TextureRef "metal/plate01") ".png"
    empty_registry = (Ok PyNone, empty_registry)
  /\ (forall s' image,
        images s' !! "metal/plate01.png" = Some image ->
        resolve_value demo_truncate_name (TextureRef "metal/plate01") ".png" s'
        = (Ok (ImageRef "metal/plate01.png"), s'))
  /\ (forall value ext' s',
        (resolve_value demo_truncate_name value ext' s').2 = s').
Proof.
  apply (resolve_value_missing_texture demo_truncate_name "metal/plate01"
           ".png" empty_registry).
  reflexivity.
Defined.

(** C3 as stated fails: with no image under the key, [resolve_value] does not
    raise, it returns [None]; after the texture has been materialized it
    returns the image's handle. *)
Lemma resolve_value_missing_texture_counterexample :
  images empty_registry !! demo_truncate_name ("metal/plate01" +:+ ".png") = None
  /\ resolve_value demo_truncate_name (TextureRef "metal/plate01") ".png"
       empty_registry = (Ok PyNone, empty_registry)
  /\ ~ (exists e,
          (resolve_value demo_truncate_name (TextureRef "metal/plate01") ".png"
             empty_registry).1 = Raise e)
  /\ resolve_value demo_truncate_name (TextureRef "metal/plate01") ".png"
       demo_textured = (Ok (ImageRef "metal/plate01.png"), demo_textured).
Proof.
  split; [reflexivity|]. split; [reflexivity|]. split.
  - intros [e He]. discriminate He.
  - apply pair_eta_fst. vm_compute. reflexivity.
Qed.

(** C5 on the texture of the examples, twice from the empty registry. *)
Lemma import_texture_idempotent_witness :
  (import_texture demo_host demo_truncate_name demo_texture empty_registry).1
    = Ok tt
  /\ import_texture demo_host demo_truncate_name demo_texture demo_textured
     = (Ok tt, demo_textured)
  /\ calls (import_texture demo_host demo_truncate_name demo_texture
              demo_textured).2
     = [ImagesNew "metal/plate01.png"; ImagePack "metal/plate01.png" 4]
  /\ count_images_new
       (calls (import_texture demo_host demo_truncate_name demo_texture
                 demo_textured).2)
     = 1%nat
  /\ count_image_pack
       (calls (import_texture demo_host demo_truncate_name demo_texture
                 demo_textured).2)
     = 1%nat.
Proof.
  apply (proj2 (import_texture_idempotent demo_host demo_truncate_name
                  demo_texture) empty_registry).
  - reflexivity.
  - reflexivity.
  - exists "PNG". vm_compute. reflexivity.
Defined.

(** C5 as stated fails for an extension outside [FORMAT_MAP]: of two calls
    with the same [".jpg"] descriptor the first creates the image and raises
    [KeyError] before the upload, and the second finds the key taken and
    returns; the bytes are uploaded zero times, not once. *)
Lemma import_texture_idempotent_counterexample :
  images empty_registry !! "metal/plate02.jpg" = None
  /\ (import_texture demo_host demo_truncate_name demo_jpg_texture
        empty_registry).1 = Raise (KeyError ".jpg")
  /\ (import_texture demo_host demo_truncate_name demo_jpg_texture
        (import_texture demo_host demo_truncate_name demo_jpg_texture
           empty_registry).2).1 = Ok tt
  /\ calls
       (import_texture demo_host demo_truncate_name demo_jpg_texture
          (import_texture demo_host demo_truncate_name demo_jpg_texture
             empty_registry).2).2
     = [ImagesNew "metal/plate02.jpg"]
  /\ count_image_pack
       (calls
          (import_texture demo_host demo_truncate_name demo_jpg_texture
             (import_texture demo_host demo_truncate_name demo_jpg_texture
                empty_registry).2).2)
     = 0%nat.
Proof.
  split; [reflexivity|]. repeat split; vm_compute; reflexivity.
Qed.



(** C4 on the two-node material, in the registry that holds its texture. *)
Lemma import_material_idempotent_witness :
  import_material demo_host demo_truncate_name demo_material
    (import_material demo_host demo_truncate_name demo_material demo_textured).2
  = import_material demo_host demo_truncate_name demo_material demo_textured
  /\ is_Some
       (materials
          (import_material demo_host demo_truncate_name demo_material
             demo_textured).2 !! "metal/plate01")
  /\ exists t,
       tree_of "metal/plate01"
         (import_material demo_host demo_truncate_name demo_material
            demo_textured).2 = Some t
       /\ node_types t
          = ["ShaderNodeOutputMaterial"; "ShaderNodeTexImage";
             "ShaderNodeBsdfPrincipled"].
Proof.
  destruct (import_material_idempotent demo_host demo_truncate_name
              demo_material demo_textured)
    as (Hsame & Hhandle & _ & _ & Htree).
  split; [exact Hsame|]. split; [exact Hhandle|].
  apply Htree. vm_compute. reflexivity.
Defined.

(** * Further properties of the module *)

(** ** The tree a build leaves *)

Section BuiltTree.

Variable host : Host.
Variable rv : Value -> PyObj.

(** A computation on the last node of a tree. *)
Lemma on_node_last {A} (c : M ShaderNode.t A) ns x ls :
  on_node (length ns) c (NodeTree.mk (ns ++ [x]) ls)
  = ((c x).1, NodeTree.mk (ns ++ [(c x).2]) ls).
Proof.
  unfold on_node. simpl. rewrite lookup_app_r by lia.
  rewrite Nat.sub_diag. simpl. destruct (c x) as [r x']. simpl.
  rewrite insert_app_r_alt by lia. by rewrite Nat.sub_diag.
Qed.

(** The property loop on the last node, when it returns. *)
Lemma properties_loop_exact ns ls type properties : forall x t',
  ShaderNode.bl_idname x = type ->
  for_each properties (fun '(property, value) =>
    on_node (length ns) (node_setattr host property (rv value)))
    (NodeTree.mk (ns ++ [x]) ls) = (Ok tt, t') ->
  t' = NodeTree.mk
         (ns ++ [ShaderNode.set_attrs
                   (foldl (fun attrs item =>
                             store (node_attr_value host type item.1 (rv item.2))
                               item.1 attrs)
                      (ShaderNode.attrs x) properties) x]) ls.
Proof.
  induction properties as [|[property value] rest IH]; intros x t' Hty Hrun.
  - injection Hrun as <-. by destruct x.
  - simpl in Hrun. apply bind_ok_inv in Hrun as ([] & t1 & Hset & Hrun).
    rewrite on_node_last in Hset. unfold node_setattr in Hset.
    rewrite Hty in Hset.
    destruct (node_has_attr host type property); [|done].
    simpl. destruct (node_attr_value host type property (rv value))
      as [stored|e]; [|done].
    simpl in Hset. injection Hset as <-.
    by apply IH in Hrun as ->.
Qed.

(** The socket-default loop on the last node, when it returns. *)
Lemma socket_values_loop_exact ns ls type socket_values : forall x t',
  ShaderNode.bl_idname x = type ->
  for_each socket_values (fun '(socket, value) =>
    let socket := resolve_input_socket socket in
    input <- node_inputs host (length ns) socket ;;
    socket_set_default_value host input (rv value))
    (NodeTree.mk (ns ++ [x]) ls) = (Ok tt, t') ->
  t' = NodeTree.mk
         (ns ++ [ShaderNode.set_default_values
                   (foldl (fun defaults item =>
                             store (socket_default_value host type
                                      (resolve_input_socket item.1) (rv item.2))
                               (resolve_input_socket item.1) defaults)
                      (ShaderNode.default_values x) socket_values) x]) ls.
Proof.
  induction socket_values as [|[socket value] rest IH]; intros x t' Hty Hrun.
  - injection Hrun as <-. by destruct x.
  - simpl in Hrun. apply bind_ok_inv in Hrun as ([] & t1 & Hset & Hrun).
    apply bind_ok_inv in Hset as (input & t0 & Hinput & Hset).
    apply node_inputs_ok in Hinput as [-> ->].
    unfold socket_set_default_value in Hset. simpl in Hset.
    rewrite on_node_last in Hset. rewrite Hty in Hset. simpl.
    destruct (socket_default_value host type (resolve_input_socket socket)
                (rv value)) as [stored|e]; [|done].
    simpl in Hset. injection Hset as <-.
    by apply IH in Hrun as ->.
Qed.

(** The link loop of the node at position [pos], when it returns: the nodes
    are untouched and the links of the items have been made in order. *)
Lemma socket_links_loop_exact pos socket_links : forall t t',
  for_each socket_links (fun '(socket, link) =>
    target_node <- list_getitem (seq 1 pos) (SocketLink.node_index link) ;;
    target_socket <- node_outputs host target_node (SocketLink.socket link) ;;
    let socket := resolve_input_socket socket in
    input <- node_inputs host (Datatypes.S pos) socket ;;
    links_new input target_socket) t = (Ok tt, t') ->
  t' = NodeTree.mk (NodeTree.nodes t)
         (link_all (map (link_at pos) socket_links) (NodeTree.links t)).
Proof.
  induction socket_links as [|[socket link] rest IH]; intros t t' Hrun.
  - injection Hrun as <-. simpl. by destruct t.
  - simpl in Hrun. apply bind_ok_inv in Hrun as ([] & t1 & Hlink & Hrun).
    apply bind_ok_inv in Hlink as (target_node & t2 & Hget & Hlink).
    apply list_getitem_ok_inv in Hget as [Hget ->].
    assert (index_in_range pos (SocketLink.node_index link) = true) as Hrange.
    { pose proof (proj1 (py_index_is_Some (seq 1 pos)
                           (SocketLink.node_index link))
                    (ex_intro _ _ Hget)) as Hin.
      by rewrite length_seq in Hin. }
    rewrite py_index_seq in Hget by done. injection Hget as <-.
    apply bind_ok_inv in Hlink as (target_socket & t3 & Hout & Hlink).
    apply node_outputs_ok in Hout as [-> ->].
    apply bind_ok_inv in Hlink as (input & t4 & Hin & Hlink).
    apply node_inputs_ok in Hin as [-> ->].
    unfold links_new, modify in Hlink. simpl in Hlink. injection Hlink as <-.
    by apply IH in Hrun as ->.
Qed.

(** One iteration of the node loop, when it returns. *)
Lemma tree_node_exact pos node t n t' :
  length (NodeTree.nodes t) = Datatypes.S pos ->
  tree_node host rv (seq 1 pos) node t = (Ok n, t') ->
  n = Datatypes.S pos
  /\ t' = NodeTree.mk (NodeTree.nodes t ++ [built_node host rv node])
            (link_all (map (link_at pos) (Node.socket_links node))
               (NodeTree.links t)).
Proof.
  intros Hlen Hrun. unfold tree_node in Hrun.
  apply bind_ok_inv in Hrun as (n0 & t1 & Hnew & Hrun).
  unfold nodes_new in Hnew.
  destruct (node_type_known host (Node.blender_id node)); [|done].
  injection Hnew as <- <-.
  apply bind_ok_inv in Hrun as ([] & t2 & Hloc & Hrun).
  rewrite on_node_last in Hloc. simpl in Hloc. injection Hloc as <-.
  apply bind_ok_inv in Hrun as ([] & t3 & Hprops & Hrun).
  apply (properties_loop_exact _ _ (Node.blender_id node)) in Hprops as ->;
    [|done].
  apply bind_ok_inv in Hrun as ([] & t4 & Hvalues & Hrun).
  apply (socket_values_loop_exact _ _ (Node.blender_id node)) in Hvalues as ->;
    [|done].
  apply bind_ok_inv in Hrun as ([] & t5 & Hlinks & Hrun).
  rewrite Hlen in Hlinks. apply socket_links_loop_exact in Hlinks as ->.
  injection Hrun as <- <-. by rewrite Hlen.
Qed.

(** The node loop, when it returns. *)
Lemma tree_nodes_exact nodes : forall pos t built t',
  length (NodeTree.nodes t) = Datatypes.S pos ->
  tree_nodes host rv nodes (seq 1 pos) t = (Ok built, t') ->
  built = seq 1 (pos + length nodes)
  /\ t' = NodeTree.mk (NodeTree.nodes t ++ map (built_node host rv) nodes)
            (link_all (links_from pos nodes) (NodeTree.links t)).
Proof.
  induction nodes as [|node rest IH]; intros pos t built t' Hlen Hrun.
  - injection Hrun as <- <-. simpl. rewrite !app_nil_r, Nat.add_0_r.
    by destruct t.
  - simpl in Hrun. apply bind_ok_inv in Hrun as (n & t1 & Hnode & Hrun).
    apply tree_node_exact in Hnode as [-> ->]; [|done].
    replace (seq 1 pos ++ [Datatypes.S pos]) with (seq 1 (Datatypes.S pos))
      in Hrun by (by rewrite seq_S).
    apply IH in Hrun as [-> ->].
    + split.
      * replace (pos + length (node :: rest))%nat
          with (Datatypes.S pos + length rest)%nat by (simpl; lia). done.
      * simpl. by rewrite <- !app_assoc, link_all_app.
    + simpl. rewrite length_app, Hlen. simpl. lia.
Qed.

(** The graph on the tree that holds the output node alone, when it
    returns. *)
Lemma tree_graph_exact nodes built t' :
  tree_graph host rv 0 nodes output_tree = (Ok built, t') ->
  nodes <> []
  /\ built = seq 1 (length nodes)
  /\ t' = NodeTree.mk (output_node :: map (built_node host rv) nodes)
            (link_all
               (links_from 0 nodes
                  ++ [NodeLink.mk (length nodes) "BSDF" 0%nat "Surface"])
               []).
Proof.
  unfold tree_graph. intros Hrun.
  apply bind_ok_inv in Hrun as (built0 & t1 & Hnodes & Hrun).
  apply (tree_nodes_exact nodes 0) in Hnodes as [-> ->]; [|done].
  simpl in Hrun.
  apply bind_ok_inv in Hrun as (shader_node & t2 & Hget & Hrun).
  apply list_getitem_ok_inv in Hget as [Hget ->].
  assert (nodes <> []) as Hne.
  { intros ->. discriminate Hget. }
  assert (shader_node = length nodes) as ->.
  { rewrite py_index_seq in Hget.
    - injection Hget as <-. unfold index_position. simpl.
      destruct nodes; [done|]. simpl. lia.
    - apply index_in_range_spec. destruct nodes; [done|]. simpl. lia. }
  apply bind_ok_inv in Hrun as (bsdf & t3 & Hout & Hrun).
  apply node_outputs_ok in Hout as [-> ->].
  apply bind_ok_inv in Hrun as (surface & t4 & Hin & Hrun).
  apply node_inputs_ok in Hin as [-> ->].
  apply bind_ok_inv in Hrun as ([] & t5 & Hlink & Hrun).
  unfold links_new, modify in Hlink. simpl in Hlink.
  injection Hlink as <-. injection Hrun as <- <-.
  by rewrite link_all_app.
Qed.

(** The links a list of descriptors makes end in pairwise different inputs
    when no two items of a node do. *)
Lemma links_from_inputs_distinct nodes : forall base,
  Forall inputs_distinct nodes ->
  NoDup (map (fun l => (NodeLink.to_node l, NodeLink.to_socket l))
           (links_from base nodes)).
Proof.
  induction nodes as [|node rest IH]; intros base Hall; simpl.
  { constructor. }
  apply Forall_cons in Hall as [Hnode Hrest].
  rewrite map_app. apply NoDup_app. split; [|split].
  - rewrite map_map. simpl. unfold inputs_distinct in Hnode.
    apply (NoDup_fmap_2 (fun socket : string => (Datatypes.S base, socket)))
      in Hnode.
    by rewrite <- list_fmap_compose in Hnode.
  - intros input Hin Hin'.
    apply list_elem_of_fmap in Hin as (l & -> & Hl).
    apply list_elem_of_fmap in Hl as (item & -> & _).
    apply list_elem_of_fmap in Hin' as (l' & Heq & Hl').
    apply links_from_to_node in Hl'. simpl in Heq.
    injection Heq as Heq _. lia.
  - by apply IH.
Qed.

Lemma links_built_distinct nodes :
  Forall inputs_distinct nodes ->
  link_all
    (links_from 0 nodes ++ [NodeLink.mk (length nodes) "BSDF" 0%nat "Surface"])
    []
  = links_from 0 nodes ++ [NodeLink.mk (length nodes) "BSDF" 0%nat "Surface"].
Proof.
  intros Hall. apply (link_all_distinct _ []). simpl.
  rewrite map_app. apply NoDup_app. split; [|split].
  - by apply links_from_inputs_distinct.
  - intros input Hin Hin'.
    apply list_elem_of_fmap in Hin as (l & -> & Hl).
    apply links_from_to_node in Hl.
    apply list_elem_of_singleton in Hin'. injection Hin' as Heq _. lia.
  - apply NoDup_singleton.
Qed.

Lemma links_from_length nodes : forall base,
  length (links_from base nodes) = length (nodes ≫= Node.socket_links).
Proof.
  induction nodes as [|node rest IH]; intros base; [done|].
  simpl. rewrite !length_app, length_map. by rewrite IH.
Qed.

End BuiltTree.

Section BuiltMaterial.

Variable host : Host.
Variable truncate_name : string -> string.

(** The tree of the material after an [import_material] that returned. *)
Lemma import_material_ok_tree material s s' :
  import_material host truncate_name material s = (Ok tt, s') ->
  let nodes := BuiltData.nodes (Material.data material) in
  let rv := resolve_in truncate_name (dom (images s))
              (Material.texture_ext material) in
  nodes <> []
  /\ tree_of (truncate_name (Material.name material)) s'
     = Some (NodeTree.mk (output_node :: map (built_node host rv) nodes)
               (link_all
                  (links_from 0 nodes
                     ++ [NodeLink.mk (length nodes) "BSDF" 0%nat "Surface"])
                  [])).
Proof.
  intros Hrun nodes rv. rewrite import_material_run in Hrun. cbv zeta in Hrun.
  fold nodes rv in Hrun.
  destruct (material_build host rv _ nodes _) as [[built|e] m1] eqn:Hbuild;
    simpl in Hrun; [|done].
  rewrite import_material_color_spaces_run in Hrun.
  injection Hrun as _ <-.
  unfold material_build in Hbuild.
  apply bind_ok_inv in Hbuild as (out_node & mb & Hbegin & Hgraph).
  apply material_begin_ok in Hbegin as [-> Htree].
  rewrite in_node_tree_run, Htree in Hgraph.
  destruct (tree_graph host rv 0 nodes output_tree) as [rg tg] eqn:Htg.
  simpl in Hgraph. injection Hgraph as -> <-.
  apply tree_graph_exact in Htg as (Hne & _ & ->).
  split; [done|]. rewrite set_images_put. apply tree_of_put.
Qed.

(** X1.  Whenever [import_material] returns, the node collection of the
    material is the output node followed by one node per descriptor, in
    order.  Each has the descriptor's type and holds what the host stored
    for the assignments of lines 62 to 69, in order: the location (kept
    within the host's bounds), then the properties, so that a property named
    ["location"] replaces the position and a later item for a property
    replaces an earlier one, and the socket defaults under the renamed
    socket names.  Every texture reference is resolved against the images
    registered when the call began: a handle, or [None] for an unregistered
    texture. *)
Theorem import_material_nodes_built material s s' :
  import_material host truncate_name material s = (Ok tt, s') ->
  exists t,
    tree_of (truncate_name (Material.name material)) s' = Some t
    /\ NodeTree.nodes t
       = output_node
         :: map (built_node host
                   (resolve_in truncate_name (dom (images s))
                      (Material.texture_ext material)))
              (BuiltData.nodes (Material.data material)).
Proof.
  intros [_ Htree]%import_material_ok_tree. by eexists.
Qed.

(** X2.  Whenever [import_material] returns, the descriptor list was not
    empty and the links of the material's tree are what is left of the links
    made in order, one per socket-link item in descriptor and item order and
    then the link from the last node's ["BSDF"] output to the output node's
    ["Surface"] input, where a link replaces an earlier link that ends in
    the same input socket.  When no two items of a node end in the same
    input once renamed, that is exactly one link per item, each from the
    named output of the node its index addresses to the renamed input of the
    node that lists it, followed by the link to the output node. *)
Theorem import_material_links_built material s s' :
  import_material host truncate_name material s = (Ok tt, s') ->
  let nodes := BuiltData.nodes (Material.data material) in
  nodes <> []
  /\ exists t,
       tree_of (truncate_name (Material.name material)) s' = Some t
       /\ NodeTree.links t
          = link_all
              (links_from 0 nodes
                 ++ [NodeLink.mk (length nodes) "BSDF" 0%nat "Surface"])
              []
       /\ (Forall inputs_distinct nodes ->
           NodeTree.links t
           = links_from 0 nodes
             ++ [NodeLink.mk (length nodes) "BSDF" 0%nat "Surface"]
           /\ length (NodeTree.links t)
              = Datatypes.S (length (nodes ≫= Node.socket_links))).
Proof.
  intros [Hne Htree]%import_material_ok_tree nodes. split; [done|].
  eexists. split; [exact Htree|]. split; [done|]. simpl.
  intros Hdistinct. fold nodes. rewrite (links_built_distinct nodes Hdistinct).
  split; [done|]. rewrite length_app, links_from_length. simpl. lia.
Qed.

End BuiltMaterial.

(** ** The colour-space loop (lines 84 to 87) *)

Section ColorSpaceLoop.

Variable truncate_name : string -> string.
Variable texture_ext : string.








End ColorSpaceLoop.

(** ** Outcomes of [import_material] *)

Section MaterialOutcomes.

Variable host : Host.
Variable truncate_name : string -> string.

Lemma properties_result_ok (rv : Value -> PyObj)
    (properties : list (string * Value)) :
  (forall property value,
     (property, value) ∈ properties ->
     is_ok (material_attr_result host property (rv value)) = true) ->
  properties_result host rv properties = Ok tt.
Proof.
  induction properties as [|[property value] rest IH]; intros Hall; [done|].
  simpl.
  destruct (is_ok_true _ (Hall property value ltac:(constructor)))
    as [stored ->].
  apply IH. intros p v Hin. apply (Hall p v). by constructor.
Qed.

Lemma properties_rejected (rv : Value -> PyObj) pre property value post e :
  (forall p v, (p, v) ∈ pre ->
     is_ok (material_attr_result host p (rv v)) = true) ->
  material_attr_result host property (rv value) = Raise e ->
  forall attrs,
    properties_result host rv (pre ++ (property, value) :: post) = Raise e
    /\ apply_properties host rv (pre ++ (property, value) :: post) attrs
       = foldl (fun attrs item =>
                  store (material_attr_result host item.1 (rv item.2))
                    item.1 attrs) attrs pre.
Proof.
  intros Hpre Hbad. induction pre as [|[p v] pre IH]; intros attrs; simpl.
  - by rewrite Hbad.
  - destruct (is_ok_true _ (Hpre p v ltac:(constructor))) as [stored ->].
    simpl. apply IH.
    intros p' v' Hin. apply (Hpre p' v'). by constructor.
Qed.

Lemma tree_nodes_app (rv : Value -> PyObj) pre rest : forall built_nodes t,
  tree_nodes host rv (pre ++ rest) built_nodes t
  = bind (tree_nodes host rv pre built_nodes)
      (fun built => tree_nodes host rv rest built) t.
Proof.
  induction pre as [|node pre IH]; intros built_nodes t; [reflexivity|].
  simpl. rewrite bind_assoc. unfold bind at 1 2.
  destruct (tree_node host rv built_nodes node t) as [[n|e] t1]; [|done].
  apply IH.
Qed.




(** X7.  The first material-level property the host rejects, because its
    materials do not have it ([AttributeError] naming it) or because the
    host does not take its value (the host's exception), ends the call
    before any descriptor node is created: the material is left registered
    with [use_nodes] set and then what the host stored for the properties
    listed before it, and with a tree that holds the output node alone; no
    image has been touched. *)
Theorem import_material_property_rejected material s pre property value post
    e :
  let name := truncate_name (Material.name material) in
  let rv := resolve_in truncate_name (dom (images s))
              (Material.texture_ext material) in
  node_type_known host "ShaderNodeOutputMaterial" = true ->
  BuiltData.properties (Material.data material)
    = pre ++ (property, value) :: post ->
  (forall p v, (p, v) ∈ pre ->
     is_ok (material_attr_result host p (rv v)) = true) ->
  material_attr_result host property (rv value) = Raise e ->
  (material_has_attr host property = false -> e = AttributeError property)
  /\ exists s' m',
       import_material host truncate_name material s = (Raise e, s')
       /\ images s' = images s
       /\ materials s' !! name = Some m'
       /\ MaterialData.node_tree m' = output_tree
       /\ MaterialData.attrs m'
          = foldl (fun attrs item =>
                     store (material_attr_result host item.1 (rv item.2))
                       item.1 attrs)
              (<["use_nodes" := PyBool true]>
                 (match materials s !! name with
                  | Some old => MaterialData.attrs old
                  | None => ∅
                  end)) pre.
Proof.
  intros name rv Hknown Hproperties Hpre Hbad. split.
  { intros Hattr. unfold material_attr_result in Hbad. rewrite Hattr in Hbad.
    by injection Hbad as <-. }
  rewrite import_material_run. cbv zeta. fold name rv.
  rewrite material_build_run, Hknown, Hproperties.
  destruct (properties_rejected rv pre property value post e Hpre Hbad
              (<["use_nodes" := PyBool true]>
                 (MaterialData.attrs (material_found truncate_name material s))))
    as [-> ->].
  simpl. eexists _, _. split; [done|]. split; [done|].
  split; [apply lookup_insert_eq|]. split; [done|]. simpl.
  unfold material_found. fold name. by destruct (materials s !! name).
Qed.

(** X8.  A descriptor whose node type the host does not know, after
    descriptors the host accepts with their values and whose link indices
    are in range, raises [RuntimeError] with that type and leaves a partial
    graph behind: the material stays registered with the output node and the
    nodes and links of the descriptors before it, and without the link to
    the output node. *)
Theorem import_material_unknown_node_type material s pre node post :
  let built_data := Material.data material in
  let rv := resolve_in truncate_name (dom (images s))
              (Material.texture_ext material) in
  node_type_known host "ShaderNodeOutputMaterial" = true ->
  (forall property value,
     (property, value) ∈ BuiltData.properties built_data ->
     is_ok (material_attr_result host property (rv value)) = true) ->
  BuiltData.nodes built_data = pre ++ node :: post ->
  nodes_accepted host rv [] pre = true ->
  nodes_in_range 0 pre = true ->
  node_type_known host (Node.blender_id node) = false ->
  exists s',
    import_material host truncate_name material s
      = (Raise (RuntimeError (Node.blender_id node)), s')
    /\ images s' = images s
    /\ tree_of (truncate_name (Material.name material)) s'
       = Some (NodeTree.mk (output_node :: map (built_node host rv) pre)
                 (link_all (links_from 0 pre) [])).
Proof.
  intros built_data rv Hknown Hprops Hnodes Hacc Hrange Hunknown.
  rewrite import_material_run. cbv zeta. fold built_data rv.
  rewrite material_build_run, Hknown, (properties_result_ok _ _ Hprops), Hnodes.
  pose proof (tree_nodes_spec host rv "ShaderNodeOutputMaterial" pre []
                output_tree node_types_output_tree Hacc) as Hspec.
  cbv zeta in Hspec. simpl in Hspec. rewrite Hrange in Hspec.
  destruct Hspec as (t1 & Hpre & _).
  pose proof (tree_nodes_exact host rv pre 0 output_tree _ _ eq_refl Hpre)
    as [_ ->].
  assert (tree_graph host rv 0 (pre ++ node :: post) output_tree
          = (Raise (RuntimeError (Node.blender_id node)),
             NodeTree.mk (output_node :: map (built_node host rv) pre)
               (link_all (links_from 0 pre) []))) as ->.
  { unfold tree_graph. erewrite bind_raise; [done|].
    rewrite tree_nodes_app. rewrite (bind_ok _ _ _ _ _ Hpre). simpl.
    erewrite bind_raise; [done|]. unfold tree_node.
    erewrite bind_raise; [done|]. unfold nodes_new. by rewrite Hunknown. }
  simpl. eexists. split; [done|]. split; [done|].
  unfold tree_of. by rewrite put_material_lookup.
Qed.

Lemma for_each_app {S X} (xs ys : list X) (body : X -> M S unit) : forall s,
  for_each (xs ++ ys) body s
  = bind (for_each xs body) (fun _ => for_each ys body) s.
Proof.
  induction xs as [|x xs IH]; intros s; [reflexivity|].
  simpl. rewrite bind_assoc. unfold bind at 1 2.
  destruct (body x s) as [[[]|e] s1]; [|done].
  apply IH.
Qed.

Lemma node_types_last ns x ls :
  node_types (NodeTree.mk (ns ++ [x]) ls) !! length ns
  = Some (ShaderNode.bl_idname x).
Proof.
  unfold node_types. simpl. rewrite list_lookup_fmap, lookup_app_r by lia.
  by rewrite Nat.sub_diag.
Qed.

(** An iteration of the node loop that reaches a socket default the host
    does not take: the new node stays in the tree with what had been
    assigned to it before, and no link is made. *)
Lemma tree_node_default_rejected (rv : Value -> PyObj) built_nodes node
    vpre socket value vpost e ns ls :
  let type := Node.blender_id node in
  let partial :=
    Node.mk type (Node.position node) (Node.properties node) vpre [] in
  Node.socket_values node = vpre ++ (socket, value) :: vpost ->
  node_accepted host rv [] partial = true ->
  node_has_input host type (resolve_input_socket socket) = true ->
  socket_default_value host type (resolve_input_socket socket) (rv value)
    = Raise e ->
  tree_node host rv built_nodes node (NodeTree.mk ns ls)
  = (Raise e, NodeTree.mk (ns ++ [built_node host rv partial]) ls).
Proof.
  intros type partial Hvalues Hacc Hinput Hbad.
  unfold node_accepted in Hacc. simpl in Hacc.
  apply andb_true_iff in Hacc as [Hacc _].
  apply andb_true_iff in Hacc as [Hacc Hvpre].
  apply andb_true_iff in Hacc as [Hknown Hprops].
  unfold tree_node. fold type.
  erewrite bind_ok; [|unfold nodes_new; rewrite Hknown; reflexivity].
  simpl.
  erewrite bind_ok; [|rewrite on_node_last; reflexivity].
  simpl.
  set (x1 := ShaderNode.set_location (Node.position node) (ShaderNode.new type)).
  destruct (properties_loop_runs host rv (length ns) type (Node.properties node)
              (NodeTree.mk (ns ++ [x1]) ls) (node_types_last ns x1 ls) Hprops)
    as (t2 & Hrun2 & _).
  pose proof (properties_loop_exact host rv ns ls type (Node.properties node)
                x1 t2 eq_refl Hrun2) as ->.
  rewrite (bind_ok _ _ _ _ _ Hrun2).
  apply bind_raise. rewrite Hvalues, for_each_app.
  match type of Hrun2 with
  | _ = (_, NodeTree.mk (ns ++ [?x]) ls) => set (x2 := x) in *
  end.
  destruct (socket_values_loop_runs host rv (length ns) type vpre
              (NodeTree.mk (ns ++ [x2]) ls) (node_types_last ns x2 ls) Hvpre)
    as (t3 & Hrun3 & _).
  pose proof (socket_values_loop_exact host rv ns ls type vpre
                x2 t3 eq_refl Hrun3) as ->.
  rewrite (bind_ok _ _ _ _ _ Hrun3).
  simpl. apply bind_raise.
  unfold bind, node_inputs. rewrite on_node_last. simpl. fold type.
  rewrite Hinput. simpl. unfold socket_set_default_value. simpl.
  rewrite on_node_last. simpl. fold type. by rewrite Hbad.
Qed.

(** X20.  A socket default the host does not take, on a socket the node has,
    ends the call with the host's exception at line 69; a reference to an
    unregistered texture is such a value wherever the socket does not take
    [None].  With the descriptors before it accepted and their link indices
    in range, and the node's own properties and earlier defaults accepted,
    the partial graph stays behind: the output node, the nodes of the
    descriptors before, and the node of this descriptor with its location,
    its properties and the defaults listed before the rejected one, but
    none of its links and no link to the output node.  No image is
    touched. *)
Theorem import_material_default_rejected material s pre node post
    vpre socket value vpost e :
  let built_data := Material.data material in
  let rv := resolve_in truncate_name (dom (images s))
              (Material.texture_ext material) in
  let type := Node.blender_id node in
  let partial :=
    Node.mk type (Node.position node) (Node.properties node) vpre [] in
  node_type_known host "ShaderNodeOutputMaterial" = true ->
  (forall property value,
     (property, value) ∈ BuiltData.properties built_data ->
     is_ok (material_attr_result host property (rv value)) = true) ->
  BuiltData.nodes built_data = pre ++ node :: post ->
  nodes_accepted host rv [] pre = true ->
  nodes_in_range 0 pre = true ->
  Node.socket_values node = vpre ++ (socket, value) :: vpost ->
  node_accepted host rv [] partial = true ->
  node_has_input host type (resolve_input_socket socket) = true ->
  socket_default_value host type (resolve_input_socket socket) (rv value)
    = Raise e ->
  exists s',
    import_material host truncate_name material s = (Raise e, s')
    /\ images s' = images s
    /\ tree_of (truncate_name (Material.name material)) s'
       = Some (NodeTree.mk
                 (output_node
                  :: map (built_node host rv) pre ++ [built_node host rv partial])
                 (link_all (links_from 0 pre) [])).
Proof.
  intros built_data rv type partial Hknown Hprops Hnodes Hacc Hrange Hvalues
    Hpartial Hinput Hbad.
  rewrite import_material_run. cbv zeta. fold built_data rv.
  rewrite material_build_run, Hknown, (properties_result_ok _ _ Hprops), Hnodes.
  pose proof (tree_nodes_spec host rv "ShaderNodeOutputMaterial" pre []
                output_tree node_types_output_tree Hacc) as Hspec.
  cbv zeta in Hspec. simpl in Hspec. rewrite Hrange in Hspec.
  destruct Hspec as (t1 & Hpre & _).
  pose proof (tree_nodes_exact host rv pre 0 output_tree _ _ eq_refl Hpre)
    as [_ ->].
  assert (tree_graph host rv 0 (pre ++ node :: post) output_tree
          = (Raise e,
             NodeTree.mk
               (output_node
                :: map (built_node host rv) pre ++ [built_node host rv partial])
               (link_all (links_from 0 pre) []))) as ->.
  { unfold tree_graph. erewrite bind_raise; [done|].
    rewrite tree_nodes_app. rewrite (bind_ok _ _ _ _ _ Hpre). simpl.
    erewrite bind_raise; [done|].
    by apply (tree_node_default_rejected rv _ node vpre socket value vpost e). }
  simpl. eexists. split; [done|]. split; [done|].
  unfold tree_of. by rewrite put_material_lookup.
Qed.

End MaterialOutcomes.

(** ** What [import_material] keeps *)

Section MaterialFrame.

Variable host : Host.
Variable truncate_name : string -> string.

(** The registry after [import_material], whatever the outcome. *)
Lemma import_material_final material s :
  let name := truncate_name (Material.name material) in
  let texture_ext := Material.texture_ext material in
  let built_data := Material.data material in
  let run :=
    material_build host (resolve_in truncate_name (dom (images s)) texture_ext)
      (BuiltData.properties built_data) (BuiltData.nodes built_data)
      (material_found truncate_name material s) in
  exists imgs,
    (import_material host truncate_name material s).2
    = set_images imgs (put_material name run.2 s)
    /\ (imgs = images s
        \/ imgs = recolor truncate_name texture_ext
                    (BuiltData.texture_color_spaces built_data) (images s)).
Proof.
  intros name texture_ext built_data run. rewrite import_material_run.
  cbv zeta. fold name texture_ext built_data run.
  destruct (run.1) as [built|e].
  - rewrite import_material_color_spaces_run. simpl. eexists.
    split; [done|]. by right.
  - exists (images s). split; [|by left]. simpl.
    by rewrite set_images_put, set_images_id.
Qed.

(** X9.  Whatever its outcome, [import_material] touches one material only
    and creates nothing else: every other material, the call log (no image
    is allocated, no byte uploaded) and the set of registered image names
    are as before, and each image is either unchanged or differs in its
    colour space only. *)
Theorem import_material_frame material s :
  let s' := (import_material host truncate_name material s).2 in
  calls s' = calls s
  /\ dom (images s') = dom (images s)
  /\ (forall name, exists cs,
        images s' !! name = paint cs <$> images s !! name)
  /\ dom (materials s')
     = {[truncate_name (Material.name material)]} ∪ dom (materials s)
  /\ (forall other,
        other <> truncate_name (Material.name material) ->
        materials s' !! other = materials s !! other).
Proof.
  intros s'. subst s'.
  destruct (import_material_final material s) as (imgs & -> & Himgs).
  simpl. split; [done|].
  assert (dom imgs = dom (images s)
          /\ forall name, exists cs, imgs !! name = paint cs <$> images s !! name)
    as [Hdom Hpaint].
  { destruct Himgs as [->| ->].
    - split; [done|]. intros name. exists None. simpl.
      by rewrite option_fmap_id.
    - split; [apply recolor_dom|]. intros name.
      destruct (recolor_lookup truncate_name (Material.texture_ext material)
                  (BuiltData.texture_color_spaces (Material.data material))
                  (images s) name) as [cs Hcs].
      exists cs. by destruct (Hcs (images s) eq_refl) as [-> _]. }
  split; [done|]. split; [done|]. split; [apply dom_insert_L|].
  intros other Hother. by apply lookup_insert_ne.
Qed.

Lemma apply_properties_other (rv : Value -> PyObj) properties key :
  key ∉ map fst properties ->
  forall attrs,
    apply_properties host rv properties attrs !! key = attrs !! key.
Proof.
  induction properties as [|[property value] rest IH]; intros Hkey attrs;
    [done|].
  simpl in Hkey. apply not_elem_of_cons in Hkey as [Hne Hrest]. simpl.
  destruct (material_attr_result host property (rv value)) as [stored|e];
    [|done].
  rewrite (IH Hrest). by apply lookup_insert_ne.
Qed.

(** X10.  The material is looked up or created under the truncated name,
    and only a material created by this call is tagged: afterwards, whatever
    the outcome, the custom properties of the material registered under the
    key are those it had before if it existed (its ["path_id"] is not
    rewritten) and the single entry ["path_id"], the untruncated name, if it
    did not.  Its [use_nodes] is [True], unless the material-level
    properties themselves name [use_nodes], which are assigned after
    line 45. *)
Theorem import_material_path_id material s :
  let name := truncate_name (Material.name material) in
  exists m',
    materials (import_material host truncate_name material s).2 !! name
      = Some m'
    /\ MaterialData.custom m'
       = match materials s !! name with
         | Some old => MaterialData.custom old
         | None => <["path_id" := Material.name material]> ∅
         end
    /\ ("use_nodes" ∉ map fst (BuiltData.properties (Material.data material)) ->
        MaterialData.attrs m' !! "use_nodes" = Some (PyBool true)).
Proof.
  intros name.
  destruct (import_material_final material s) as (imgs & -> & _).
  cbv zeta. fold name. eexists. split; [apply lookup_insert_eq|].
  rewrite material_build_run.
  unfold material_found. fold name.
  destruct (node_type_known host "ShaderNodeOutputMaterial");
    [destruct (properties_result host _ _) as [[]|e]|];
    (split; [by destruct (materials s !! name)|]); simpl; intros Hkey;
    rewrite ?(apply_properties_other _ _ _ Hkey);
    apply lookup_insert_eq.
Qed.

End MaterialFrame.

(** ** More on the texture materializer *)

Section TextureOutcomes.

Variable host : Host.
Variable truncate_name : string -> string.



(** X12.  An extension outside [FORMAT_MAP] leaves a stub behind: when the
    key is free and the host accepts the size, the call raises [KeyError]
    after it has registered the image, which is as [images.new] made it,
    with the descriptor's size and no bytes; the next call with the same
    descriptor finds the key taken and returns without uploading, so the
    image never gets its bytes. *)
Theorem import_texture_unknown_format_stub texture s :
  let texture_name :=
    truncate_name (Texture.name texture +:+ Texture.format_ext texture) in
  let first := import_texture host truncate_name texture s in
  images s !! texture_name = None ->
  images_new_error host (Texture.width texture) (Texture.height texture)
    = None ->
  FORMAT_MAP !! Texture.format_ext texture = None ->
  first.1 = Raise (KeyError (Texture.format_ext texture))
  /\ images first.2 !! texture_name
     = Some (Image.new (Texture.width texture) (Texture.height texture) true)
  /\ calls first.2 = calls s ++ [ImagesNew texture_name]
  /\ import_texture host truncate_name texture first.2 = (Ok tt, first.2).
Proof.
  intros texture_name first Hfree Hnew Hformat. subst first.
  rewrite (import_texture_unknown_format host truncate_name texture s Hfree
             Hnew Hformat).
  simpl. fold texture_name. rewrite lookup_insert_eq.
  split; [done|]. split; [done|]. split; [done|].
  apply import_texture_cached. simpl. fold texture_name.
  rewrite lookup_insert_eq. by eexists.
Qed.

(** The cases of [import_texture]. *)
Lemma import_texture_cases texture s :
  let texture_name :=
    truncate_name (Texture.name texture +:+ Texture.format_ext texture) in
  exists imgs new_calls,
    (import_texture host truncate_name texture s).2
    = mkBlendData imgs (materials s) (calls s ++ new_calls)
    /\ (length new_calls <= 2)%nat
    /\ (forall other, other <> texture_name ->
          imgs !! other = images s !! other)
    /\ (is_Some (images s !! texture_name) ->
        imgs = images s /\ new_calls = [])
    /\ (images_new_error host (Texture.width texture) (Texture.height texture)
          = None ->
        is_Some (imgs !! texture_name)).
Proof.
  intros texture_name.
  destruct (images s !! texture_name) as [i|] eqn:Hi.
  - exists (images s), [].
    rewrite import_texture_cached by (fold texture_name; by eexists).
    simpl. rewrite app_nil_r.
    split; [by destruct s|]. split; [lia|]. split; [done|].
    split; [done|]. intros _. fold texture_name. rewrite Hi. by eexists.
  - destruct (images_new_error host (Texture.width texture)
                (Texture.height texture)) as [e|] eqn:Hnew.
    { rewrite (import_texture_rejected host truncate_name texture s e Hi Hnew).
      exists (images s), [ImagesNew texture_name].
      split; [done|]. split; [simpl; lia|]. split; [done|].
      split; [|done]. by intros [? ?]. }
    destruct (FORMAT_MAP !! Texture.format_ext texture) as [f|] eqn:Hf.
    + rewrite (import_texture_fresh host truncate_name texture s f Hi Hnew Hf).
      eexists _, _. simpl. split; [done|]. split; [simpl; lia|].
      split; [by intros other Hne; apply lookup_insert_ne|].
      split; [by intros [? ?]|]. intros _. fold texture_name.
      rewrite lookup_insert_eq. by eexists.
    + rewrite (import_texture_unknown_format host truncate_name texture s Hi
                 Hnew Hf).
      eexists _, _. simpl. split; [done|]. split; [simpl; lia|].
      split; [by intros other Hne; apply lookup_insert_ne|].
      split; [by intros [? ?]|]. intros _. fold texture_name.
      rewrite lookup_insert_eq. by eexists.
Qed.

(** X13.  After [import_texture], whether it returned or raised [KeyError]
    for the extension, an image is registered under the texture's key, and
    [resolve_value] on a reference to the texture's name with the texture's
    extension returns that image's handle: materializing and resolving agree
    on the key.  This needs the host to accept the size, or the key to be
    registered already; when [images.new] raises nothing is registered. *)
Theorem import_texture_then_resolve texture s :
  let texture_name :=
    truncate_name (Texture.name texture +:+ Texture.format_ext texture) in
  let s' := (import_texture host truncate_name texture s).2 in
  images_new_error host (Texture.width texture) (Texture.height texture) = None
  \/ is_Some (images s !! texture_name) ->
  is_Some (images s' !! texture_name)
  /\ resolve_value truncate_name (TextureRef (Texture.name texture))
       (Texture.format_ext texture) s'
     = (Ok (ImageRef texture_name), s').
Proof.
  intros texture_name s' Hhost. subst s'.
  destruct (import_texture_cases texture s)
    as (imgs & new_calls & -> & _ & _ & Hcached & Hnew).
  fold texture_name in Hcached, Hnew.
  assert (is_Some (imgs !! texture_name)) as [image Himage].
  { destruct Hhost as [Haccepts|Hsome]; [by apply Hnew|].
    by destruct (Hcached Hsome) as [-> _]. }
  simpl. split; [by eexists|].
  unfold bind, images_get. simpl. fold texture_name. by rewrite Himage.
Qed.

(** X14.  Whatever its outcome, [import_texture] leaves the materials and
    every image under another key as they were, only ever appends to the
    call log, at most two calls, and changes nothing at all when the key is
    already registered. *)
Theorem import_texture_frame texture s :
  let texture_name :=
    truncate_name (Texture.name texture +:+ Texture.format_ext texture) in
  let s' := (import_texture host truncate_name texture s).2 in
  materials s' = materials s
  /\ (forall other, other <> texture_name ->
        images s' !! other = images s !! other)
  /\ (exists new_calls,
        calls s' = calls s ++ new_calls /\ (length new_calls <= 2)%nat)
  /\ (is_Some (images s !! texture_name) -> s' = s).
Proof.
  intros texture_name s'. subst s'.
  destruct (import_texture_cases texture s)
    as (imgs & new_calls & Hrun & Hlen & Hother & Hcached & _).
  fold texture_name in Hother, Hcached. rewrite Hrun. simpl.
  split; [done|]. split; [exact Hother|].
  split; [by exists new_calls|].
  intros Hsome. destruct (Hcached Hsome) as [-> ->].
  rewrite app_nil_r. by destruct s.
Qed.

End TextureOutcomes.

(** ** The operator [ImportMdl.execute] *)

Lemma cancelled_not_finished :
  ({["CANCELLED"]} : gset string) <> {["FINISHED"]}.
Proof.
  intros Heq. assert ("FINISHED" ∈ ({["CANCELLED"]} : gset string)) as Hin.
  { rewrite Heq. by apply elem_of_singleton. }
  apply elem_of_singleton in Hin. discriminate Hin.
Qed.

Lemma returns_cancelled_not_finished :
  Returns ({["CANCELLED"]} : gset string) <> Returns {["FINISHED"]}.
Proof. intros Heq. injection Heq as Heq. by apply cancelled_not_finished. Qed.

Lemma returns_finished_not_cancelled :
  Returns ({["FINISHED"]} : gset string) <> Returns {["CANCELLED"]}.
Proof.
  intros Heq. injection Heq as Heq. by apply cancelled_not_finished.
Qed.

Section ImportMdlOutcomes.

Variables FS Callbacks Importer : Type.
Variable env : Callees FS Callbacks Importer.

(** Case analysis on the outcome of every callee [execute] reaches. *)
Ltac execute_unfold :=
  cbv zeta;
  unfold execute, importer_outcome, op_bind, try_except_OSError, call, report,
    op_ret;
  simpl.

Ltac outcome_cases :=
  repeat match goal with
         | |- context [match ?o with Returns _ => _ | Throws _ => _ end] =>
             destruct o as [?|[?|?]] eqn:?; simpl
         end.

Ltac execute_cases := execute_unfold; outcome_cases.

(** The run of [execute] when the constructor returns. *)
Lemma execute_opened self fs importer :
  get_game_fs env = Returns fs ->
  importer_outcome env self fs = Returns importer ->
  execute env self []
  = match import_mdl env importer (ImportMdl.filepath self)
            (ImportMdl.from_game_fs self) (ImportMdl.import_materials self)
            (ImportMdl.import_animations self) with
    | Returns _ => (Returns {["FINISHED"]}, map Called execute_callees)
    | Throws (OSError err) =>
        (Returns {["CANCELLED"]},
         map Called execute_callees
           ++ [Reported "ERROR" ("could not import mdl: " +:+ err)])
    | Throws e => (Throws e, map Called execute_callees)
    end.
Proof.
  intros Hfs. execute_unfold. rewrite Hfs. simpl.
  destruct (AssetCallbacks env) as [callbacks|e]; [|discriminate]. simpl.
  destruct (get_threads_suggestion env) as [threads|e]; [|discriminate]. simpl.
  destruct (get_target_fps env) as [target_fps|e]; [|discriminate]. simpl.
  intros ->. simpl.
  by destruct (import_mdl env importer _ _ _ _) as [u|[err|what]].
Qed.

(** X15.  [execute] returns [{"FINISHED"}] exactly when every callee
    returns: the file-system lookup, the three calls that compute the
    constructor's arguments, the constructor and [import_mdl].  It has then
    called each of the six once, in this order, and reported nothing. *)
Theorem execute_finished self :
  let run := execute env self [] in
  (run.1 = Returns {["FINISHED"]} <-> all_return env self)
  /\ (all_return env self -> run.2 = map Called execute_callees).
Proof.
  intros run. subst run.
  assert (all_return env self ->
          execute env self []
          = (Returns {["FINISHED"]}, map Called execute_callees)) as Hall.
  { intros (fs & callbacks & threads & target_fps & importer
            & Hfs & Hcallbacks & Hthreads & Hfps & Hnew & Hread).
    rewrite (execute_opened self fs importer Hfs); [by rewrite Hread|].
    unfold importer_outcome. by rewrite Hcallbacks, Hthreads, Hfps. }
  split; [split|]; [|by intros ->%Hall|by intros ->%Hall].
  clear Hall. unfold all_return. execute_cases; intros Hrun;
    try discriminate Hrun;
    try (by apply returns_cancelled_not_finished in Hrun).
  match goal with u : unit |- _ => destruct u end.
  by eexists _, _, _, _, _.
Qed.

(** X16.  [execute] returns nothing but [{"FINISHED"}] or [{"CANCELLED"}],
    and it reports to the user exactly when it returns [{"CANCELLED"}]: then
    there is one report, at level ["ERROR"], which reads either
    ["could not open file system: "] followed by the error, and [import_mdl]
    was not called, or ["could not import mdl: "] followed by the error,
    after the call of [import_mdl].  A run that returns [{"FINISHED"}] or
    ends in an exception reports nothing. *)
Theorem execute_reports self :
  let run := execute env self [] in
  (forall returned, run.1 = Returns returned ->
     returned = {["FINISHED"]} \/ returned = {["CANCELLED"]})
  /\ (run.1 = Returns {["CANCELLED"]} ->
      exists err,
        (reports run.2 = [("ERROR", "could not open file system: " +:+ err)]
         /\ "import_mdl" ∉ callees run.2)
        \/ (reports run.2 = [("ERROR", "could not import mdl: " +:+ err)]
            /\ callees run.2 = execute_callees))
  /\ (run.1 <> Returns {["CANCELLED"]} -> reports run.2 = []).
Proof.
  execute_cases; (split; [|split]);
    try (intros returned Hrun; try discriminate Hrun;
         injection Hrun as <-; first [by left|by right]);
    try (intros Hrun; try discriminate Hrun; try done;
         try (by apply returns_finished_not_cancelled in Hrun);
         eexists; first
           [ left; split; [reflexivity|];
             intros Hin; vm_compute in Hin;
             repeat (apply elem_of_cons in Hin as [Hin|Hin];
                     [discriminate Hin|]);
             by apply elem_of_nil in Hin
           | right; split; reflexivity ]).
Qed.

(** X17.  The two [try] blocks catch [OSError] only, and the file-system
    lookup is outside them.  An exception that leaves [execute] is therefore
    either the one [get_game_fs] raised, of whatever kind, or not an
    [OSError]; and when [get_game_fs] raises, nothing else is called and
    nothing is reported. *)
Theorem execute_uncaught self e :
  let run := execute env self [] in
  (run.1 = Throws e ->
     get_game_fs env = Throws e \/ exists what, e = OtherException what)
  /\ (get_game_fs env = Throws e -> run = (Throws e, [Called "get_game_fs"])).
Proof.
  execute_cases; (split; [intros Hrun|intros Hfs]);
    try discriminate; try (injection Hrun as <-);
    try (injection Hfs as <-); try done;
    try (by left); try (right; by eexists).
Qed.

(** X18.  An [OSError] raised by the constructor, or by one of the calls that
    compute its arguments, is caught by the first [try]: [execute] returns
    [{"CANCELLED"}], its one report is ["could not open file system: "]
    followed by the error, and [import_mdl] is not called. *)
Theorem execute_open_failure self fs err :
  let run := execute env self [] in
  get_game_fs env = Returns fs ->
  importer_outcome env self fs = Throws (OSError err) ->
  run.1 = Returns {["CANCELLED"]}
  /\ reports run.2 = [("ERROR", "could not open file system: " +:+ err)]
  /\ "import_mdl" ∉ callees run.2.
Proof.
  execute_unfold. intros Hfs. rewrite Hfs. simpl. outcome_cases;
    intros Hopen; try discriminate Hopen;
    injection Hopen as ->; (split; [done|]); (split; [done|]);
    intros Hin; vm_compute in Hin;
    repeat (apply elem_of_cons in Hin as [Hin|Hin]; [discriminate Hin|]);
    by apply elem_of_nil in Hin.
Qed.

(** X19.  An [OSError] raised by [import_mdl] is caught by the second [try]:
    [execute] returns [{"CANCELLED"}] after all six calls, and its one report
    is ["could not import mdl: "] followed by the error. *)
Theorem execute_import_failure self fs importer err :
  let run := execute env self [] in
  get_game_fs env = Returns fs ->
  importer_outcome env self fs = Returns importer ->
  import_mdl env importer (ImportMdl.filepath self)
    (ImportMdl.from_game_fs self) (ImportMdl.import_materials self)
    (ImportMdl.import_animations self) = Throws (OSError err) ->
  run.1 = Returns {["CANCELLED"]}
  /\ callees run.2 = execute_callees
  /\ reports run.2 = [("ERROR", "could not import mdl: " +:+ err)].
Proof.
  intros run Hfs Hopen Hread. subst run.
  rewrite (execute_opened self fs importer Hfs Hopen), Hread. done.
Qed.

End ImportMdlOutcomes.

(** * Further worked examples *)

(** Membership in a list written out. *)
Ltac in_list H :=
  simpl in H;
  repeat (apply elem_of_cons in H as [H|H]; [injection H as -> ->|]);
  try (by apply elem_of_nil in H).

(** The built nodes of the two-node material, in the registry that holds
    its texture. *)
Lemma import_material_nodes_built_witness :
  exists t,
    tree_of "metal/plate01"
      (import_material demo_host demo_truncate_name demo_material
         demo_textured).2 = Some t
    /\ NodeTree.nodes t
       = output_node
         :: map (built_node demo_host
                   (resolve_in demo_truncate_name (dom (images demo_textured))
                      ".png"))
              [demo_tex_image; demo_principled].
Proof.
  apply (import_material_nodes_built demo_host demo_truncate_name demo_material
           demo_textured).
  apply pair_eta_fst. vm_compute. reflexivity.
Defined.

(** The links of the two-node material: the texture's colour into the
    shader, and the shader into the output node. *)
Lemma import_material_links_built_witness :
  [demo_tex_image; demo_principled] <> []
  /\ exists t,
       tree_of "metal/plate01"
         (import_material demo_host demo_truncate_name demo_material
            demo_textured).2 = Some t
       /\ NodeTree.links t
          = link_all
              (links_from 0 [demo_tex_image; demo_principled]
                 ++ [NodeLink.mk 2 "BSDF" 0%nat "Surface"])
              []
       /\ (Forall inputs_distinct [demo_tex_image; demo_principled] ->
           NodeTree.links t
           = links_from 0 [demo_tex_image; demo_principled]
             ++ [NodeLink.mk 2 "BSDF" 0%nat "Surface"]
           /\ length (NodeTree.links t) = 2%nat).
Proof.
  apply (import_material_links_built demo_host demo_truncate_name demo_material
           demo_textured).
  apply pair_eta_fst. vm_compute. reflexivity.
Defined.





(** The material whose second property the host's materials do not have:
    the first, a blend method, has been stored, as the host stores it. *)
Lemma import_material_property_rejected_witness :
  exists s' m',
    import_material demo_host demo_truncate_name demo_bad_property_material
      empty_registry
      = (Raise (AttributeError "shadow"), s')
    /\ images s' = images empty_registry
    /\ materials s' !! "dev/property" = Some m'
    /\ MaterialData.node_tree m' = output_tree
    /\ MaterialData.attrs m'
       = <["blend_method" := Plain (Str "HASHED")]>
           (<["use_nodes" := PyBool true]> ∅).
Proof.
  destruct (import_material_property_rejected demo_host demo_truncate_name
              demo_bad_property_material empty_registry
              [("blend_method", Str "OPAQUE")] "shadow" (Num 1) []
              (AttributeError "shadow"))
    as [_ (s' & m' & Hrun & Himages & Hm & Htree & Hattrs)].
  - vm_compute. reflexivity.
  - reflexivity.
  - intros property value Hin. in_list Hin. vm_compute. reflexivity.
  - vm_compute. reflexivity.
  - exists s', m'. split; [exact Hrun|]. split; [exact Himages|].
    split; [exact Hm|]. split; [exact Htree|]. exact Hattrs.
Defined.

(** The material whose second node is of a type the host does not know: the
    texture node before it stays in the tree. *)
Lemma import_material_unknown_node_type_witness :
  exists s',
    import_material demo_host demo_truncate_name demo_unknown_material
      empty_registry
      = (Raise (RuntimeError "ShaderNodeVertexColor"), s')
    /\ images s' = images empty_registry
    /\ tree_of "dev/unknown" s'
       = Some (NodeTree.mk
                 (output_node
                  :: map (built_node demo_host
                            (resolve_in demo_truncate_name
                               (dom (images empty_registry)) ".png"))
                       [demo_tex_image])
                 (link_all (links_from 0 [demo_tex_image]) [])).
Proof.
  apply (import_material_unknown_node_type demo_host demo_truncate_name
           demo_unknown_material empty_registry [demo_tex_image]
           demo_unknown_node [demo_principled]).
  - vm_compute. reflexivity.
  - intros property value Hin. in_list Hin.
  - reflexivity.
  - vm_compute. reflexivity.
  - vm_compute. reflexivity.
  - vm_compute. reflexivity.
Defined.


(** A texture with the extension [".jpg"]: the first call leaves the stub,
    the second returns without touching it. *)
Lemma import_texture_unknown_format_stub_witness :
  (import_texture demo_host demo_truncate_name demo_jpg_texture
     empty_registry).1 = Raise (KeyError ".jpg")
  /\ images (import_texture demo_host demo_truncate_name demo_jpg_texture
               empty_registry).2 !! "metal/plate02.jpg"
     = Some (Image.new 2 1 true)
  /\ calls (import_texture demo_host demo_truncate_name demo_jpg_texture
              empty_registry).2
     = calls empty_registry ++ [ImagesNew "metal/plate02.jpg"]
  /\ import_texture demo_host demo_truncate_name demo_jpg_texture
       (import_texture demo_host demo_truncate_name demo_jpg_texture
          empty_registry).2
     = (Ok tt,
        (import_texture demo_host demo_truncate_name demo_jpg_texture
           empty_registry).2).
Proof.
  apply (import_texture_unknown_format_stub demo_host demo_truncate_name
           demo_jpg_texture empty_registry).
  - reflexivity.
  - reflexivity.
  - vm_compute. reflexivity.
Defined.

(** The texture of the examples, materialized and then resolved. *)
Lemma import_texture_then_resolve_witness :
  is_Some (images demo_textured !! "metal/plate01.png")
  /\ resolve_value demo_truncate_name (TextureRef "metal/plate01") ".png"
       demo_textured
     = (Ok (ImageRef "metal/plate01.png"), demo_textured).
Proof.
  apply (import_texture_then_resolve demo_host demo_truncate_name demo_texture
           empty_registry).
  left. reflexivity.
Defined.

(** The thread suggestion raises [OSError]: the constructor is never
    reached, and neither is [import_mdl]. *)
Lemma execute_open_failure_witness :
  (execute (demo_callees (Throws (OSError "no such directory")) (Returns tt))
     demo_operator []).1 = Returns {["CANCELLED"]}
  /\ reports
       (execute (demo_callees (Throws (OSError "no such directory"))
                   (Returns tt)) demo_operator []).2
     = [("ERROR", "could not open file system: no such directory")]
  /\ "import_mdl"
     ∉ callees
         (execute (demo_callees (Throws (OSError "no such directory"))
                     (Returns tt)) demo_operator []).2.
Proof.
  apply (execute_open_failure unit unit unit
           (demo_callees (Throws (OSError "no such directory")) (Returns tt))
           demo_operator tt "no such directory").
  - reflexivity.
  - reflexivity.
Defined.

(** The file system opens and the model file cannot be read. *)
Lemma execute_import_failure_witness :
  (execute (demo_callees (Returns 4) (Throws (OSError "file not found")))
     demo_operator []).1 = Returns {["CANCELLED"]}
  /\ callees
       (execute (demo_callees (Returns 4) (Throws (OSError "file not found")))
          demo_operator []).2
     = execute_callees
  /\ reports
       (execute (demo_callees (Returns 4) (Throws (OSError "file not found")))
          demo_operator []).2
     = [("ERROR", "could not import mdl: file not found")].
Proof.
  apply (execute_import_failure unit unit unit
           (demo_callees (Returns 4) (Throws (OSError "file not found")))
           demo_operator tt tt "file not found").
  - reflexivity.
  - reflexivity.
  - reflexivity.
Defined.

(** The material whose shader node takes its base colour from a texture that
    is not registered: the reference resolves to [None], which the colour
    socket does not take, and the host's [ValueError] ends the call with the
    texture node and the half-assigned shader node in the tree. *)
Lemma import_material_default_rejected_witness :
  exists s',
    import_material demo_host demo_truncate_name demo_texture_default_material
      empty_registry
      = (Raise ValueError, s')
    /\ images s' = images empty_registry
    /\ tree_of "dev/default" s'
       = Some (NodeTree.mk
                 (output_node
                  :: map (built_node demo_host
                            (resolve_in demo_truncate_name
                               (dom (images empty_registry)) ".png"))
                       [demo_tex_image]
                     ++ [built_node demo_host
                           (resolve_in demo_truncate_name
                              (dom (images empty_registry)) ".png")
                           (Node.mk "ShaderNodeBsdfPrincipled" (0, 0) []
                              [("Roughness", Num 1)] [])])
                 (link_all (links_from 0 [demo_tex_image]) [])).
Proof.
  apply (import_material_default_rejected demo_host demo_truncate_name
           demo_texture_default_material empty_registry [demo_tex_image]
           demo_texture_default [] [("Roughness", Num 1)] "Base Color"
           (TextureRef "metal/plate01") [("Specular", Num 0)] ValueError).
  - vm_compute. reflexivity.
  - intros property value Hin. in_list Hin.
  - reflexivity.
  - vm_compute. reflexivity.
  - vm_compute. reflexivity.
  - reflexivity.
  - vm_compute. reflexivity.
  - vm_compute. reflexivity.
  - vm_compute. reflexivity.
Defined.
